(** * CMF equipment booking: a model of [src/App.tsx]

    The application is one React component whose handlers read and write
    three Firestore collections.  The development embeds

    - the documents ([Equipment], [Booking]) and the three collections,
    - the component state (one field per [useState] of [App]),
    - the effects and handlers ([startup], [submitBooking], [cancelBooking],
      [addEquipment], [updateEquipment], [deleteEquipment], the dialog
      helpers, the snapshot listeners) as programs in a small
      state-and-rejection monad,
    - the component as a transition system over these handlers,
    - the two equipment forms with their [required] controls,

    and proves the booking-conflict, dual-write, cancellation,
    administrator-flag and start-up properties of the specification.

    Conventions.
    - A JavaScript [Date] and a Firestore [Timestamp] are the number of
      milliseconds since the epoch, an integer: every timestamp the handlers
      write comes from [Timestamp.fromDate] or [Timestamp.now], both of
      millisecond resolution.  The date inputs of the booking form are
      [required] and its time slots come from a fixed list, so the [Date]
      constructor is applied to well-formed date-time strings; Invalid Date
      is outside the model.
    - A [Timestamp] holds the instants from year 1 to year 9999 (UTC) only:
      [Timestamp.fromDate] throws on every other instant, and the dates of
      the booking form can denote such instants.  The readings of the clock
      are the host's and are taken to lie in that range, so [Timestamp.now]
      does not throw.
    - The [Date] constructor on a string, [toISOString] and the
      configuration are the host's: the handlers take them as section
      variables.
    - A Firestore collection is a finite map from document id to fields.
      [addDoc] stores the new document under an id that is not in use;
      [updateDoc] is rejected when the document does not exist.
    - Every call to the backend may be rejected: the world carries the
      answers of the backend and the readings of the clock as two sequences
      that the handlers consume, and a log of what the client issued.
    - A handler runs to completion before the next one starts. *)

From Stdlib Require Import ZArith.
From stdpp Require Import gmap strings list fin_maps sorting pretty.

Local Open Scope Z_scope.

(** ** Documents *)

Abbreviation Timestamp := Z (only parsing).

(** [Timestamp.toDate] and [Timestamp.toMillis] at millisecond
    resolution. *)
Definition toDate (ts : Timestamp) : Z := ts.
Definition toMillis (ts : Timestamp) : Z := ts.

(** The seconds a [Timestamp] accepts: from 0001-01-01T00:00:00Z up to,
    not including, 10000-01-01T00:00:00Z. *)
Definition MIN_SECONDS : Z := -62135596800.
Definition MAX_SECONDS : Z := 253402300800.

(** The instant [d] (in milliseconds) can be held by a [Timestamp]. *)
Definition representable (d : Z) : Prop :=
  MIN_SECONDS ≤ d `div` 1000 < MAX_SECONDS.

#[global] Instance representable_dec d : Decision (representable d).
Proof. unfold representable. apply _. Defined.

Inductive Status := booked | cancelled.

#[global] Instance Status_eq_dec : EqDecision Status.
Proof. solve_decision. Defined.

Module Equipment.
(** The fields of a document of the equipment collection. *)
Record data := mk_data {
  name : string;
  description : string;
  createdAt : option Timestamp;
  updatedAt : option Timestamp }.

(** [interface Equipment]: the fields together with the document id. *)
Record t := mk { id : string; fields : data }.
End Equipment.

Module Booking.
(** [Omit<Booking, 'id'>]: the fields of a booking document. *)
Record data := mk_data {
  equipmentId : string;
  equipmentName : string;
  userId : string;
  userDisplayName : string;
  startDate : Timestamp;
  endDate : Timestamp;
  status : Status;
  bookedAt : Timestamp;
  cancelledAt : option Timestamp }.

(** [interface Booking]. *)
Record t := mk { id : string; fields : data }.

(** The partial document [{ status: 'cancelled', cancelledAt: ... }]
    merged into the stored fields by [updateDoc]. *)
Definition cancel (at_ : Timestamp) (d : data) : data :=
  {| equipmentId := equipmentId d; equipmentName := equipmentName d;
     userId := userId d; userDisplayName := userDisplayName d;
     startDate := startDate d; endDate := endDate d;
     status := cancelled; bookedAt := bookedAt d;
     cancelledAt := Some at_ |}.
End Booking.

(** ** The remote store *)

(** [artifacts/${appId}/public/data/equipment],
    [artifacts/${appId}/public/data/bookings] and, per user,
    [artifacts/${appId}/users/${userId}/bookings]. *)
Record Firestore := mkFirestore {
  equipment : gmap string Equipment.data;
  publicBookings : gmap string Booking.data;
  userBookings : gmap string (gmap string Booking.data) }.

(** The two kinds of booking collection. *)
Inductive BookingsPath :=
| PublicBookings
| UserBookings (uid : string).

#[global] Instance BookingsPath_eq_dec : EqDecision BookingsPath.
Proof. solve_decision. Defined.

Definition bookingsAt (p : BookingsPath) (fs : Firestore)
  : gmap string Booking.data :=
  match p with
  | PublicBookings => publicBookings fs
  | UserBookings uid => default ∅ (userBookings fs !! uid)
  end.

Definition setBookingsAt (p : BookingsPath) (c : gmap string Booking.data)
    (fs : Firestore) : Firestore :=
  match p with
  | PublicBookings =>
      {| equipment := equipment fs; publicBookings := c;
         userBookings := userBookings fs |}
  | UserBookings uid =>
      {| equipment := equipment fs; publicBookings := publicBookings fs;
         userBookings := <[uid := c]> (userBookings fs) |}
  end.

Definition setEquipment (c : gmap string Equipment.data) (fs : Firestore)
  : Firestore :=
  {| equipment := c; publicBookings := publicBookings fs;
     userBookings := userBookings fs |}.

(** The equality filters of [where(field, '==', value)]. *)
Inductive Filter :=
| WhereEquipmentId (v : string)
| WhereStatus (v : Status)
| WhereUserId (v : string)
| WhereBookedAt (v : Timestamp).

Definition satisfies (d : Booking.data) (f : Filter) : bool :=
  match f with
  | WhereEquipmentId v => bool_decide (Booking.equipmentId d = v)
  | WhereStatus v => bool_decide (Booking.status d = v)
  | WhereUserId v => bool_decide (Booking.userId d = v)
  | WhereBookedAt v => bool_decide (Booking.bookedAt d = v)
  end.

Definition matches (filters : list Filter) (d : Booking.data) : bool :=
  forallb (satisfies d) filters.

(** The documents a [query] selects, as [snapshot.docs]. *)
Definition queryDocs (p : BookingsPath) (filters : list Filter)
    (fs : Firestore) : list (string * Booking.data) :=
  map_to_list (filter (λ kv, matches filters kv.2 = true) (bookingsAt p fs)).

(** The partial document of an equipment update. *)
Record EquipmentPatch := mkEquipmentPatch {
  patchName : string; patchDescription : string; patchUpdatedAt : Timestamp }.

Definition patchEquipment (p : EquipmentPatch) (d : Equipment.data)
  : Equipment.data :=
  {| Equipment.name := patchName p;
     Equipment.description := patchDescription p;
     Equipment.createdAt := Equipment.createdAt d;
     Equipment.updatedAt := Some (patchUpdatedAt p) |}.

(** The calls the handlers make to the store. *)
Inductive Call :=
| GetDocs (p : BookingsPath) (filters : list Filter)
| AddBookingDoc (p : BookingsPath) (d : Booking.data)
| UpdateBookingDoc (p : BookingsPath) (id : string) (cancelledAt : Timestamp)
| AddEquipmentDoc (d : Equipment.data)
| UpdateEquipmentDoc (id : string) (patch : EquipmentPatch)
| DeleteEquipmentDoc (id : string).

(** What an observer of the client sees: each call when it is issued, its
    acknowledgement or rejection, and the lines of [console.error]. *)
Inductive Event :=
| Issued (c : Call)
| Acked (c : Call)
| Rejected (c : Call) (error : string)
| ConsoleError (msg : string).

Definition isWrite (c : Call) : bool :=
  match c with GetDocs _ _ => false | _ => true end.

Definition isIssuedWrite (e : Event) : bool :=
  match e with Issued c => isWrite c | _ => false end.

(** The effect of an accepted call on the collections; [None] when the
    backend refuses it ([updateDoc] needs an existing document). *)
Definition applyCall (c : Call) (fs : Firestore) : option Firestore :=
  match c with
  | GetDocs _ _ => Some fs
  | AddBookingDoc p d =>
      let coll := bookingsAt p fs in
      Some (setBookingsAt p (<[fresh (dom coll) := d]> coll) fs)
  | UpdateBookingDoc p id at_ =>
      let coll := bookingsAt p fs in
      match coll !! id with
      | Some d => Some (setBookingsAt p (<[id := Booking.cancel at_ d]> coll) fs)
      | None => None
      end
  | AddEquipmentDoc d =>
      Some (setEquipment (<[fresh (dom (equipment fs)) := d]> (equipment fs)) fs)
  | UpdateEquipmentDoc id patch =>
      match equipment fs !! id with
      | Some d => Some (setEquipment (<[id := patchEquipment patch d]> (equipment fs)) fs)
      | None => None
      end
  | DeleteEquipmentDoc id => Some (setEquipment (delete id (equipment fs)) fs)
  end.

Definition notFound : string := "No document to update".

(** The world outside the component: the collections, the observable
    events so far (oldest first), the answer of the backend to each call
    ([Some error] rejects the call) and the readings of the clock. *)
Record World := mkWorld {
  firestore : Firestore;
  log : list Event;
  backend : nat → option string;
  calls : nat;
  clock : nat → Z;
  reads : nat }.

(** ** The component state *)

(** [firebaseConfig]: each entry is read from the build environment and is
    [undefined] when the variable is not set. *)
Record FirebaseConfig := mkFirebaseConfig {
  apiKey : option string;
  authDomain : option string;
  projectId : option string;
  storageBucket : option string;
  messagingSenderId : option string;
  appId : option string;
  measurementId : option string }.

(** The handles of the Firebase SDK, named after the calls that make them. *)
Inductive FirebaseApp := initializeApp (options : FirebaseConfig).
Inductive FirestoreHandle := getFirestore (app : FirebaseApp).
Inductive AuthHandle := getAuth (app : FirebaseApp).

(** The signed-in user as the identity provider reports it. *)
Record User := mkUser {
  uid : string;
  displayName : option string;
  photoURL : option string }.

Module BookingForm.
Record t := mk {
  startDate : string; startTime : string;
  endDate : string; endTime : string }.
End BookingForm.

Module EquipmentForm.
Record t := mk { name : string; description : string }.
End EquipmentForm.

(** JavaScript truthiness of a string that may be [undefined] or [null]:
    [!s] holds for the absent and for the empty string. *)
Definition truthy (s : string) : bool := negb (String.eqb s "").

Definition truthy_opt (s : option string) : bool :=
  match s with Some s => truthy s | None => false end.

(** [a || b] on strings that may be absent. *)
Definition or_else (s : option string) (d : string) : string :=
  match s with Some s => if truthy s then s else d | None => d end.

Record AppState := mkAppState {
  db : option FirestoreHandle;
  auth : option AuthHandle;
  userId : option string;
  userDisplayName : string;
  userPhotoURL : string;
  isAuthReady : bool;
  equipmentList : list Equipment.t;
  myBookings : list Booking.t;
  allPublicBookings : list Booking.t;
  selectedEquipment : option Equipment.t;
  bookingForm : BookingForm.t;
  message : string;
  showBookingModal : bool;
  showCancelModal : bool;
  bookingToCancel : option Booking.t;
  isAdmin : bool;
  showAdminPanel : bool;
  showAddEquipmentModal : bool;
  showEditEquipmentModal : bool;
  showDeleteEquipmentModal : bool;
  equipmentToEdit : option Equipment.t;
  equipmentToDelete : option Equipment.t;
  equipmentForm : EquipmentForm.t;
  showUserMenu : bool }.

Definition setDb (v : option FirestoreHandle) (a : AppState) : AppState :=
  {| db := v; auth := auth a; userId := userId a;
     userDisplayName := userDisplayName a; userPhotoURL := userPhotoURL a;
     isAuthReady := isAuthReady a; equipmentList := equipmentList a;
     myBookings := myBookings a; allPublicBookings := allPublicBookings a;
     selectedEquipment := selectedEquipment a; bookingForm := bookingForm a;
     message := message a; showBookingModal := showBookingModal a;
     showCancelModal := showCancelModal a;
     bookingToCancel := bookingToCancel a; isAdmin := isAdmin a;
     showAdminPanel := showAdminPanel a;
     showAddEquipmentModal := showAddEquipmentModal a;
     showEditEquipmentModal := showEditEquipmentModal a;
     showDeleteEquipmentModal := showDeleteEquipmentModal a;
     equipmentToEdit := equipmentToEdit a;
     equipmentToDelete := equipmentToDelete a;
     equipmentForm := equipmentForm a; showUserMenu := showUserMenu a |}.

Definition setAuth (v : option AuthHandle) (a : AppState) : AppState :=
  {| db := db a; auth := v; userId := userId a;
     userDisplayName := userDisplayName a; userPhotoURL := userPhotoURL a;
     isAuthReady := isAuthReady a; equipmentList := equipmentList a;
     myBookings := myBookings a; allPublicBookings := allPublicBookings a;
     selectedEquipment := selectedEquipment a; bookingForm := bookingForm a;
     message := message a; showBookingModal := showBookingModal a;
     showCancelModal := showCancelModal a;
     bookingToCancel := bookingToCancel a; isAdmin := isAdmin a;
     showAdminPanel := showAdminPanel a;
     showAddEquipmentModal := showAddEquipmentModal a;
     showEditEquipmentModal := showEditEquipmentModal a;
     showDeleteEquipmentModal := showDeleteEquipmentModal a;
     equipmentToEdit := equipmentToEdit a;
     equipmentToDelete := equipmentToDelete a;
     equipmentForm := equipmentForm a; showUserMenu := showUserMenu a |}.

Definition setUserId (v : option string) (a : AppState) : AppState :=
  {| db := db a; auth := auth a; userId := v;
     userDisplayName := userDisplayName a; userPhotoURL := userPhotoURL a;
     isAuthReady := isAuthReady a; equipmentList := equipmentList a;
     myBookings := myBookings a; allPublicBookings := allPublicBookings a;
     selectedEquipment := selectedEquipment a; bookingForm := bookingForm a;
     message := message a; showBookingModal := showBookingModal a;
     showCancelModal := showCancelModal a;
     bookingToCancel := bookingToCancel a; isAdmin := isAdmin a;
     showAdminPanel := showAdminPanel a;
     showAddEquipmentModal := showAddEquipmentModal a;
     showEditEquipmentModal := showEditEquipmentModal a;
     showDeleteEquipmentModal := showDeleteEquipmentModal a;
     equipmentToEdit := equipmentToEdit a;
     equipmentToDelete := equipmentToDelete a;
     equipmentForm := equipmentForm a; showUserMenu := showUserMenu a |}.

Definition setUserDisplayName (v : string) (a : AppState) : AppState :=
  {| db := db a; auth := auth a; userId := userId a; userDisplayName := v;
     userPhotoURL := userPhotoURL a; isAuthReady := isAuthReady a;
     equipmentList := equipmentList a; myBookings := myBookings a;
     allPublicBookings := allPublicBookings a;
     selectedEquipment := selectedEquipment a; bookingForm := bookingForm a;
     message := message a; showBookingModal := showBookingModal a;
     showCancelModal := showCancelModal a;
     bookingToCancel := bookingToCancel a; isAdmin := isAdmin a;
     showAdminPanel := showAdminPanel a;
     showAddEquipmentModal := showAddEquipmentModal a;
     showEditEquipmentModal := showEditEquipmentModal a;
     showDeleteEquipmentModal := showDeleteEquipmentModal a;
     equipmentToEdit := equipmentToEdit a;
     equipmentToDelete := equipmentToDelete a;
     equipmentForm := equipmentForm a; showUserMenu := showUserMenu a |}.

Definition setUserPhotoURL (v : string) (a : AppState) : AppState :=
  {| db := db a; auth := auth a; userId := userId a;
     userDisplayName := userDisplayName a; userPhotoURL := v;
     isAuthReady := isAuthReady a; equipmentList := equipmentList a;
     myBookings := myBookings a; allPublicBookings := allPublicBookings a;
     selectedEquipment := selectedEquipment a; bookingForm := bookingForm a;
     message := message a; showBookingModal := showBookingModal a;
     showCancelModal := showCancelModal a;
     bookingToCancel := bookingToCancel a; isAdmin := isAdmin a;
     showAdminPanel := showAdminPanel a;
     showAddEquipmentModal := showAddEquipmentModal a;
     showEditEquipmentModal := showEditEquipmentModal a;
     showDeleteEquipmentModal := showDeleteEquipmentModal a;
     equipmentToEdit := equipmentToEdit a;
     equipmentToDelete := equipmentToDelete a;
     equipmentForm := equipmentForm a; showUserMenu := showUserMenu a |}.

Definition setIsAuthReady (v : bool) (a : AppState) : AppState :=
  {| db := db a; auth := auth a; userId := userId a;
     userDisplayName := userDisplayName a; userPhotoURL := userPhotoURL a;
     isAuthReady := v; equipmentList := equipmentList a;
     myBookings := myBookings a; allPublicBookings := allPublicBookings a;
     selectedEquipment := selectedEquipment a; bookingForm := bookingForm a;
     message := message a; showBookingModal := showBookingModal a;
     showCancelModal := showCancelModal a;
     bookingToCancel := bookingToCancel a; isAdmin := isAdmin a;
     showAdminPanel := showAdminPanel a;
     showAddEquipmentModal := showAddEquipmentModal a;
     showEditEquipmentModal := showEditEquipmentModal a;
     showDeleteEquipmentModal := showDeleteEquipmentModal a;
     equipmentToEdit := equipmentToEdit a;
     equipmentToDelete := equipmentToDelete a;
     equipmentForm := equipmentForm a; showUserMenu := showUserMenu a |}.

Definition setEquipmentList (v : list Equipment.t) (a : AppState) : AppState :=
  {| db := db a; auth := auth a; userId := userId a;
     userDisplayName := userDisplayName a; userPhotoURL := userPhotoURL a;
     isAuthReady := isAuthReady a; equipmentList := v;
     myBookings := myBookings a; allPublicBookings := allPublicBookings a;
     selectedEquipment := selectedEquipment a; bookingForm := bookingForm a;
     message := message a; showBookingModal := showBookingModal a;
     showCancelModal := showCancelModal a;
     bookingToCancel := bookingToCancel a; isAdmin := isAdmin a;
     showAdminPanel := showAdminPanel a;
     showAddEquipmentModal := showAddEquipmentModal a;
     showEditEquipmentModal := showEditEquipmentModal a;
     showDeleteEquipmentModal := showDeleteEquipmentModal a;
     equipmentToEdit := equipmentToEdit a;
     equipmentToDelete := equipmentToDelete a;
     equipmentForm := equipmentForm a; showUserMenu := showUserMenu a |}.

Definition setMyBookings (v : list Booking.t) (a : AppState) : AppState :=
  {| db := db a; auth := auth a; userId := userId a;
     userDisplayName := userDisplayName a; userPhotoURL := userPhotoURL a;
     isAuthReady := isAuthReady a; equipmentList := equipmentList a;
     myBookings := v; allPublicBookings := allPublicBookings a;
     selectedEquipment := selectedEquipment a; bookingForm := bookingForm a;
     message := message a; showBookingModal := showBookingModal a;
     showCancelModal := showCancelModal a;
     bookingToCancel := bookingToCancel a; isAdmin := isAdmin a;
     showAdminPanel := showAdminPanel a;
     showAddEquipmentModal := showAddEquipmentModal a;
     showEditEquipmentModal := showEditEquipmentModal a;
     showDeleteEquipmentModal := showDeleteEquipmentModal a;
     equipmentToEdit := equipmentToEdit a;
     equipmentToDelete := equipmentToDelete a;
     equipmentForm := equipmentForm a; showUserMenu := showUserMenu a |}.

Definition setAllPublicBookings (v : list Booking.t) (a : AppState) : AppState :=
  {| db := db a; auth := auth a; userId := userId a;
     userDisplayName := userDisplayName a; userPhotoURL := userPhotoURL a;
     isAuthReady := isAuthReady a; equipmentList := equipmentList a;
     myBookings := myBookings a; allPublicBookings := v;
     selectedEquipment := selectedEquipment a; bookingForm := bookingForm a;
     message := message a; showBookingModal := showBookingModal a;
     showCancelModal := showCancelModal a;
     bookingToCancel := bookingToCancel a; isAdmin := isAdmin a;
     showAdminPanel := showAdminPanel a;
     showAddEquipmentModal := showAddEquipmentModal a;
     showEditEquipmentModal := showEditEquipmentModal a;
     showDeleteEquipmentModal := showDeleteEquipmentModal a;
     equipmentToEdit := equipmentToEdit a;
     equipmentToDelete := equipmentToDelete a;
     equipmentForm := equipmentForm a; showUserMenu := showUserMenu a |}.

Definition setSelectedEquipment (v : option Equipment.t) (a : AppState) : AppState :=
  {| db := db a; auth := auth a; userId := userId a;
     userDisplayName := userDisplayName a; userPhotoURL := userPhotoURL a;
     isAuthReady := isAuthReady a; equipmentList := equipmentList a;
     myBookings := myBookings a; allPublicBookings := allPublicBookings a;
     selectedEquipment := v; bookingForm := bookingForm a;
     message := message a; showBookingModal := showBookingModal a;
     showCancelModal := showCancelModal a;
     bookingToCancel := bookingToCancel a; isAdmin := isAdmin a;
     showAdminPanel := showAdminPanel a;
     showAddEquipmentModal := showAddEquipmentModal a;
     showEditEquipmentModal := showEditEquipmentModal a;
     showDeleteEquipmentModal := showDeleteEquipmentModal a;
     equipmentToEdit := equipmentToEdit a;
     equipmentToDelete := equipmentToDelete a;
     equipmentForm := equipmentForm a; showUserMenu := showUserMenu a |}.

Definition setBookingForm (v : BookingForm.t) (a : AppState) : AppState :=
  {| db := db a; auth := auth a; userId := userId a;
     userDisplayName := userDisplayName a; userPhotoURL := userPhotoURL a;
     isAuthReady := isAuthReady a; equipmentList := equipmentList a;
     myBookings := myBookings a; allPublicBookings := allPublicBookings a;
     selectedEquipment := selectedEquipment a; bookingForm := v;
     message := message a; showBookingModal := showBookingModal a;
     showCancelModal := showCancelModal a;
     bookingToCancel := bookingToCancel a; isAdmin := isAdmin a;
     showAdminPanel := showAdminPanel a;
     showAddEquipmentModal := showAddEquipmentModal a;
     showEditEquipmentModal := showEditEquipmentModal a;
     showDeleteEquipmentModal := showDeleteEquipmentModal a;
     equipmentToEdit := equipmentToEdit a;
     equipmentToDelete := equipmentToDelete a;
     equipmentForm := equipmentForm a; showUserMenu := showUserMenu a |}.

Definition setMessage (v : string) (a : AppState) : AppState :=
  {| db := db a; auth := auth a; userId := userId a;
     userDisplayName := userDisplayName a; userPhotoURL := userPhotoURL a;
     isAuthReady := isAuthReady a; equipmentList := equipmentList a;
     myBookings := myBookings a; allPublicBookings := allPublicBookings a;
     selectedEquipment := selectedEquipment a; bookingForm := bookingForm a;
     message := v; showBookingModal := showBookingModal a;
     showCancelModal := showCancelModal a;
     bookingToCancel := bookingToCancel a; isAdmin := isAdmin a;
     showAdminPanel := showAdminPanel a;
     showAddEquipmentModal := showAddEquipmentModal a;
     showEditEquipmentModal := showEditEquipmentModal a;
     showDeleteEquipmentModal := showDeleteEquipmentModal a;
     equipmentToEdit := equipmentToEdit a;
     equipmentToDelete := equipmentToDelete a;
     equipmentForm := equipmentForm a; showUserMenu := showUserMenu a |}.

Definition setShowBookingModal (v : bool) (a : AppState) : AppState :=
  {| db := db a; auth := auth a; userId := userId a;
     userDisplayName := userDisplayName a; userPhotoURL := userPhotoURL a;
     isAuthReady := isAuthReady a; equipmentList := equipmentList a;
     myBookings := myBookings a; allPublicBookings := allPublicBookings a;
     selectedEquipment := selectedEquipment a; bookingForm := bookingForm a;
     message := message a; showBookingModal := v;
     showCancelModal := showCancelModal a;
     bookingToCancel := bookingToCancel a; isAdmin := isAdmin a;
     showAdminPanel := showAdminPanel a;
     showAddEquipmentModal := showAddEquipmentModal a;
     showEditEquipmentModal := showEditEquipmentModal a;
     showDeleteEquipmentModal := showDeleteEquipmentModal a;
     equipmentToEdit := equipmentToEdit a;
     equipmentToDelete := equipmentToDelete a;
     equipmentForm := equipmentForm a; showUserMenu := showUserMenu a |}.

Definition setShowCancelModal (v : bool) (a : AppState) : AppState :=
  {| db := db a; auth := auth a; userId := userId a;
     userDisplayName := userDisplayName a; userPhotoURL := userPhotoURL a;
     isAuthReady := isAuthReady a; equipmentList := equipmentList a;
     myBookings := myBookings a; allPublicBookings := allPublicBookings a;
     selectedEquipment := selectedEquipment a; bookingForm := bookingForm a;
     message := message a; showBookingModal := showBookingModal a;
     showCancelModal := v; bookingToCancel := bookingToCancel a;
     isAdmin := isAdmin a; showAdminPanel := showAdminPanel a;
     showAddEquipmentModal := showAddEquipmentModal a;
     showEditEquipmentModal := showEditEquipmentModal a;
     showDeleteEquipmentModal := showDeleteEquipmentModal a;
     equipmentToEdit := equipmentToEdit a;
     equipmentToDelete := equipmentToDelete a;
     equipmentForm := equipmentForm a; showUserMenu := showUserMenu a |}.

Definition setBookingToCancel (v : option Booking.t) (a : AppState) : AppState :=
  {| db := db a; auth := auth a; userId := userId a;
     userDisplayName := userDisplayName a; userPhotoURL := userPhotoURL a;
     isAuthReady := isAuthReady a; equipmentList := equipmentList a;
     myBookings := myBookings a; allPublicBookings := allPublicBookings a;
     selectedEquipment := selectedEquipment a; bookingForm := bookingForm a;
     message := message a; showBookingModal := showBookingModal a;
     showCancelModal := showCancelModal a; bookingToCancel := v;
     isAdmin := isAdmin a; showAdminPanel := showAdminPanel a;
     showAddEquipmentModal := showAddEquipmentModal a;
     showEditEquipmentModal := showEditEquipmentModal a;
     showDeleteEquipmentModal := showDeleteEquipmentModal a;
     equipmentToEdit := equipmentToEdit a;
     equipmentToDelete := equipmentToDelete a;
     equipmentForm := equipmentForm a; showUserMenu := showUserMenu a |}.

Definition setShowAdminPanel (v : bool) (a : AppState) : AppState :=
  {| db := db a; auth := auth a; userId := userId a;
     userDisplayName := userDisplayName a; userPhotoURL := userPhotoURL a;
     isAuthReady := isAuthReady a; equipmentList := equipmentList a;
     myBookings := myBookings a; allPublicBookings := allPublicBookings a;
     selectedEquipment := selectedEquipment a; bookingForm := bookingForm a;
     message := message a; showBookingModal := showBookingModal a;
     showCancelModal := showCancelModal a;
     bookingToCancel := bookingToCancel a; isAdmin := isAdmin a;
     showAdminPanel := v; showAddEquipmentModal := showAddEquipmentModal a;
     showEditEquipmentModal := showEditEquipmentModal a;
     showDeleteEquipmentModal := showDeleteEquipmentModal a;
     equipmentToEdit := equipmentToEdit a;
     equipmentToDelete := equipmentToDelete a;
     equipmentForm := equipmentForm a; showUserMenu := showUserMenu a |}.

Definition setShowAddEquipmentModal (v : bool) (a : AppState) : AppState :=
  {| db := db a; auth := auth a; userId := userId a;
     userDisplayName := userDisplayName a; userPhotoURL := userPhotoURL a;
     isAuthReady := isAuthReady a; equipmentList := equipmentList a;
     myBookings := myBookings a; allPublicBookings := allPublicBookings a;
     selectedEquipment := selectedEquipment a; bookingForm := bookingForm a;
     message := message a; showBookingModal := showBookingModal a;
     showCancelModal := showCancelModal a;
     bookingToCancel := bookingToCancel a; isAdmin := isAdmin a;
     showAdminPanel := showAdminPanel a; showAddEquipmentModal := v;
     showEditEquipmentModal := showEditEquipmentModal a;
     showDeleteEquipmentModal := showDeleteEquipmentModal a;
     equipmentToEdit := equipmentToEdit a;
     equipmentToDelete := equipmentToDelete a;
     equipmentForm := equipmentForm a; showUserMenu := showUserMenu a |}.

Definition setShowEditEquipmentModal (v : bool) (a : AppState) : AppState :=
  {| db := db a; auth := auth a; userId := userId a;
     userDisplayName := userDisplayName a; userPhotoURL := userPhotoURL a;
     isAuthReady := isAuthReady a; equipmentList := equipmentList a;
     myBookings := myBookings a; allPublicBookings := allPublicBookings a;
     selectedEquipment := selectedEquipment a; bookingForm := bookingForm a;
     message := message a; showBookingModal := showBookingModal a;
     showCancelModal := showCancelModal a;
     bookingToCancel := bookingToCancel a; isAdmin := isAdmin a;
     showAdminPanel := showAdminPanel a;
     showAddEquipmentModal := showAddEquipmentModal a;
     showEditEquipmentModal := v;
     showDeleteEquipmentModal := showDeleteEquipmentModal a;
     equipmentToEdit := equipmentToEdit a;
     equipmentToDelete := equipmentToDelete a;
     equipmentForm := equipmentForm a; showUserMenu := showUserMenu a |}.

Definition setShowDeleteEquipmentModal (v : bool) (a : AppState) : AppState :=
  {| db := db a; auth := auth a; userId := userId a;
     userDisplayName := userDisplayName a; userPhotoURL := userPhotoURL a;
     isAuthReady := isAuthReady a; equipmentList := equipmentList a;
     myBookings := myBookings a; allPublicBookings := allPublicBookings a;
     selectedEquipment := selectedEquipment a; bookingForm := bookingForm a;
     message := message a; showBookingModal := showBookingModal a;
     showCancelModal := showCancelModal a;
     bookingToCancel := bookingToCancel a; isAdmin := isAdmin a;
     showAdminPanel := showAdminPanel a;
     showAddEquipmentModal := showAddEquipmentModal a;
     showEditEquipmentModal := showEditEquipmentModal a;
     showDeleteEquipmentModal := v; equipmentToEdit := equipmentToEdit a;
     equipmentToDelete := equipmentToDelete a;
     equipmentForm := equipmentForm a; showUserMenu := showUserMenu a |}.

Definition setEquipmentToEdit (v : option Equipment.t) (a : AppState) : AppState :=
  {| db := db a; auth := auth a; userId := userId a;
     userDisplayName := userDisplayName a; userPhotoURL := userPhotoURL a;
     isAuthReady := isAuthReady a; equipmentList := equipmentList a;
     myBookings := myBookings a; allPublicBookings := allPublicBookings a;
     selectedEquipment := selectedEquipment a; bookingForm := bookingForm a;
     message := message a; showBookingModal := showBookingModal a;
     showCancelModal := showCancelModal a;
     bookingToCancel := bookingToCancel a; isAdmin := isAdmin a;
     showAdminPanel := showAdminPanel a;
     showAddEquipmentModal := showAddEquipmentModal a;
     showEditEquipmentModal := showEditEquipmentModal a;
     showDeleteEquipmentModal := showDeleteEquipmentModal a;
     equipmentToEdit := v; equipmentToDelete := equipmentToDelete a;
     equipmentForm := equipmentForm a; showUserMenu := showUserMenu a |}.

Definition setEquipmentToDelete (v : option Equipment.t) (a : AppState) : AppState :=
  {| db := db a; auth := auth a; userId := userId a;
     userDisplayName := userDisplayName a; userPhotoURL := userPhotoURL a;
     isAuthReady := isAuthReady a; equipmentList := equipmentList a;
     myBookings := myBookings a; allPublicBookings := allPublicBookings a;
     selectedEquipment := selectedEquipment a; bookingForm := bookingForm a;
     message := message a; showBookingModal := showBookingModal a;
     showCancelModal := showCancelModal a;
     bookingToCancel := bookingToCancel a; isAdmin := isAdmin a;
     showAdminPanel := showAdminPanel a;
     showAddEquipmentModal := showAddEquipmentModal a;
     showEditEquipmentModal := showEditEquipmentModal a;
     showDeleteEquipmentModal := showDeleteEquipmentModal a;
     equipmentToEdit := equipmentToEdit a; equipmentToDelete := v;
     equipmentForm := equipmentForm a; showUserMenu := showUserMenu a |}.

Definition setEquipmentForm (v : EquipmentForm.t) (a : AppState) : AppState :=
  {| db := db a; auth := auth a; userId := userId a;
     userDisplayName := userDisplayName a; userPhotoURL := userPhotoURL a;
     isAuthReady := isAuthReady a; equipmentList := equipmentList a;
     myBookings := myBookings a; allPublicBookings := allPublicBookings a;
     selectedEquipment := selectedEquipment a; bookingForm := bookingForm a;
     message := message a; showBookingModal := showBookingModal a;
     showCancelModal := showCancelModal a;
     bookingToCancel := bookingToCancel a; isAdmin := isAdmin a;
     showAdminPanel := showAdminPanel a;
     showAddEquipmentModal := showAddEquipmentModal a;
     showEditEquipmentModal := showEditEquipmentModal a;
     showDeleteEquipmentModal := showDeleteEquipmentModal a;
     equipmentToEdit := equipmentToEdit a;
     equipmentToDelete := equipmentToDelete a; equipmentForm := v;
     showUserMenu := showUserMenu a |}.

Definition setShowUserMenu (v : bool) (a : AppState) : AppState :=
  {| db := db a; auth := auth a; userId := userId a;
     userDisplayName := userDisplayName a; userPhotoURL := userPhotoURL a;
     isAuthReady := isAuthReady a; equipmentList := equipmentList a;
     myBookings := myBookings a; allPublicBookings := allPublicBookings a;
     selectedEquipment := selectedEquipment a; bookingForm := bookingForm a;
     message := message a; showBookingModal := showBookingModal a;
     showCancelModal := showCancelModal a;
     bookingToCancel := bookingToCancel a; isAdmin := isAdmin a;
     showAdminPanel := showAdminPanel a;
     showAddEquipmentModal := showAddEquipmentModal a;
     showEditEquipmentModal := showEditEquipmentModal a;
     showDeleteEquipmentModal := showDeleteEquipmentModal a;
     equipmentToEdit := equipmentToEdit a;
     equipmentToDelete := equipmentToDelete a;
     equipmentForm := equipmentForm a; showUserMenu := v |}.
(** The initial values of the [useState] calls.  [isAdmin] starts [true];
    the component never calls its setter. *)
Definition initialState : AppState :=
  {| db := None; auth := None; userId := None; userDisplayName := "";
     userPhotoURL := ""; isAuthReady := false; equipmentList := [];
     myBookings := []; allPublicBookings := []; selectedEquipment := None;
     bookingForm := BookingForm.mk "" "08:00" "" "08:30"; message := "";
     showBookingModal := false; showCancelModal := false;
     bookingToCancel := None; isAdmin := true; showAdminPanel := false;
     showAddEquipmentModal := false; showEditEquipmentModal := false;
     showDeleteEquipmentModal := false; equipmentToEdit := None;
     equipmentToDelete := None; equipmentForm := EquipmentForm.mk "" "";
     showUserMenu := false |}.

(** ** Handlers as programs *)

(** A client: the state of its component and the world it talks to. *)
Record St := mkSt { app : AppState; world : World }.

(** The outcome of an [async] handler: its promise is fulfilled, or it is
    rejected with an error (nothing in the component catches it unless the
    handler has a [try]/[catch]). *)
Inductive Result (A : Type) :=
| Fulfilled (a : A)
| Failed (error : string).
Arguments Fulfilled {A} a.
Arguments Failed {A} error.

Definition Async (A : Type) : Type := St → Result A * St.

(** [Async] is a monad; the handlers are written with stdpp's notation
    [x ← m; k] for a step that is awaited. *)
#[global] Instance Async_ret : MRet Async :=
  λ A (a : A) s, (Fulfilled a, s).

#[global] Instance Async_bind : MBind Async :=
  λ A B (k : A → Async B) (m : Async A) s,
    match m s with
    | (Fulfilled a, s') => k a s'
    | (Failed e, s') => (Failed e, s')
    end.

(** A synchronous call that throws inside an [async] function rejects the
    promise of the function. *)
Definition throwing {A} (r : Result A) : Async A := λ s, (r, s).

(** [Timestamp.fromDate(date)]: the seconds are [Math.floor(ms / 1000)],
    and the constructor of [Timestamp] throws when they are out of
    range. *)
Definition rangeError (seconds : Z) : string :=
  "Timestamp seconds out of range: " +:+ pretty seconds.

Definition fromDate (d : Z) : Result Timestamp :=
  let seconds := d `div` 1000 in
  if seconds <? MIN_SECONDS then Failed (rangeError seconds)
  else if seconds >=? MAX_SECONDS then Failed (rangeError seconds)
  else Fulfilled d.

(** The state the handler closes over. *)
Definition rendered : Async AppState := λ s, (Fulfilled (app s), s).

(** A call to one of the [set...] functions of [useState]. *)
Definition setState (f : AppState → AppState) : Async unit :=
  λ s, (Fulfilled tt, {| app := f (app s); world := world s |}).

Definition onWorld (f : World → World) : Async unit :=
  λ s, (Fulfilled tt, {| app := app s; world := f (world s) |}).

Definition record (evs : list Event) (w : World) : World :=
  {| firestore := firestore w; log := log w ++ evs; backend := backend w;
     calls := calls w; clock := clock w; reads := reads w |}.

(** The world after one more reading of the clock. *)
Definition tick (w : World) : World :=
  {| firestore := firestore w; log := log w; backend := backend w;
     calls := calls w; clock := clock w; reads := S (reads w) |}.

(** [new Date()] and [Timestamp.now()]: the next reading of the clock. *)
Definition now : Async Z :=
  λ s, (Fulfilled (clock (world s) (reads (world s))),
        {| app := app s; world := tick (world s) |}).

(** The world once the backend has answered call [c]: it took effect and
    was acknowledged, or it was rejected and changed nothing. *)
Definition accepted (c : Call) (fs : Firestore) (w : World) : World :=
  {| firestore := fs; log := log w ++ [Issued c; Acked c];
     backend := backend w; calls := S (calls w); clock := clock w;
     reads := reads w |}.

Definition rejected (c : Call) (error : string) (w : World) : World :=
  {| firestore := firestore w; log := log w ++ [Issued c; Rejected c error];
     backend := backend w; calls := S (calls w); clock := clock w;
     reads := reads w |}.

(** One call to the store: it is issued, then the backend answers. *)
Definition answer (c : Call) (w : World) : Result unit * World :=
  match backend w (calls w) with
  | Some error => (Failed error, rejected c error w)
  | None =>
      match applyCall c (firestore w) with
      | Some fs => (Fulfilled tt, accepted c fs w)
      | None => (Failed notFound, rejected c notFound w)
      end
  end.

Definition request (c : Call) : Async unit :=
  λ s, let (r, w) := answer c (world s) in (r, {| app := app s; world := w |}).

Definition addDoc (p : BookingsPath) (d : Booking.data) : Async unit :=
  request (AddBookingDoc p d).

Definition updateDoc (p : BookingsPath) (id : string) (cancelledAt : Timestamp)
  : Async unit :=
  request (UpdateBookingDoc p id cancelledAt).

Definition snapshotDocs (p : BookingsPath) (filters : list Filter)
  : Async (list (string * Booking.data)) :=
  λ s, (Fulfilled (queryDocs p filters (firestore (world s))), s).

Definition getDocs (p : BookingsPath) (filters : list Filter)
  : Async (list (string * Booking.data)) :=
  request (GetDocs p filters);; snapshotDocs p filters.

(** A promise that is not awaited: its rejection does not reach the
    caller. *)
Definition detached (m : Async unit) : Async unit :=
  λ s, (Fulfilled tt, (m s).2).

(** [try { body } catch (error) { handler }]. *)
Definition tryCatch {A} (body : Async A) (handler : string → Async A)
  : Async A :=
  λ s, match body s with
       | (Fulfilled a, s') => (Fulfilled a, s')
       | (Failed e, s') => handler e s'
       end.

(** [list.forEach(f)]. *)
Fixpoint forEach {A} (l : list A) (f : A → Async unit) : Async unit :=
  match l with
  | [] => mret tt
  | x :: l => f x;; forEach l f
  end.

Definition consoleError (msg : string) : Async unit :=
  onWorld (record [ConsoleError msg]).

(** The collections as a snapshot listener receives them. *)
Definition delivered : Async Firestore :=
  λ s, (Fulfilled (firestore (world s)), s).

(** ** The handlers of [App] *)

Section Handlers.

(** The host: the configuration compiled into the bundle, the [Date]
    constructor on a date-time string of the booking form, and
    [toISOString().split('T')[0]] on a [Date]. *)
Variable firebaseConfig : FirebaseConfig.
Variable newDate : string → Z.
Variable toISODate : Z → string.

(** The first effect of the component, run once when it mounts.  Only the
    API key is looked at; with a key the SDK handles are made and the
    component subscribes to the identity provider. *)
Definition startup : Async unit :=
  if negb (truthy_opt (apiKey firebaseConfig)) then
    consoleError
      "Firebase configuration is incomplete. Please check your .env file or GitHub Secrets.";;
    setState (setIsAuthReady true)
  else
    let app := initializeApp firebaseConfig in
    let firestore := getFirestore app in
    let firebaseAuth := getAuth app in
    setState (setDb (Some firestore));;
    setState (setAuth (Some firebaseAuth)).

(** The callback given to [onAuthStateChanged]; it is registered by
    [startup] together with the handle [auth]. *)
Definition authStateChanged (user : option User) : Async unit :=
  a ← rendered;
  match auth a with
  | None => mret tt
  | Some _ =>
      setState (setUserId (uid <$> user));;
      setState (setUserDisplayName
                  (from_option (λ u, or_else (displayName u) "User") "" user));;
      setState (setUserPhotoURL
                  (from_option (λ u, or_else (photoURL u) "") "" user));;
      setState (setIsAuthReady true)
  end.

(** [handleKeyDown]: Ctrl/Cmd+Shift+A toggles the admin panel. *)
Definition handleKeyDown (modifierKey shiftKey : bool) (key : string)
  : Async unit :=
  a ← rendered;
  if modifierKey && shiftKey
     && (String.eqb key "a" || String.eqb key "A") then
    if isAdmin a then setState (λ a, setShowAdminPanel (negb (showAdminPanel a)) a)
    else mret tt
  else mret tt.

(** [handleClickOutside], when the click is outside the user menu. *)
Definition handleClickOutside : Async unit :=
  setState (setShowUserMenu false).

Definition toggleUserMenu : Async unit :=
  setState (λ a, setShowUserMenu (negb (showUserMenu a)) a).

(** The snapshot listeners.  Each replaces a whole view by the documents of
    its collection; they exist only once [db] and [appId] are there. *)
Definition equipmentSnapshot : Async unit :=
  a ← rendered;
  if bool_decide (is_Some (db a)) && truthy_opt (appId firebaseConfig) then
    fs ← delivered;
    setState (setEquipmentList
                ((λ kv, Equipment.mk kv.1 kv.2) <$> map_to_list (equipment fs)))
  else mret tt.

Definition publicBookingsSnapshot : Async unit :=
  a ← rendered;
  if bool_decide (is_Some (db a)) && truthy_opt (appId firebaseConfig) then
    fs ← delivered;
    setState (setAllPublicBookings
                ((λ kv, Booking.mk kv.1 kv.2)
                   <$> map_to_list (publicBookings fs)))
  else mret tt.

(** [(a, b) => a.startDate.toMillis() - b.startDate.toMillis()]. *)
Definition byStartDate (a b : Booking.t) : Prop :=
  toMillis (Booking.startDate (Booking.fields a))
  ≤ toMillis (Booking.startDate (Booking.fields b)).

#[global] Instance byStartDate_dec a b : Decision (byStartDate a b).
Proof. unfold byStartDate. apply _. Defined.

Definition myBookingsSnapshot : Async unit :=
  a ← rendered;
  match userId a with
  | Some u =>
      if bool_decide (is_Some (db a)) && truthy u
         && truthy_opt (appId firebaseConfig) then
        fs ← delivered;
        setState (setMyBookings
                    (merge_sort byStartDate
                       ((λ kv, Booking.mk kv.1 kv.2)
                          <$> map_to_list (bookingsAt (UserBookings u) fs))))
      else setState (setMyBookings [])
  | None => setState (setMyBookings [])
  end.

(** *** Booking *)

Inductive BookingField := FStartDate | FStartTime | FEndDate | FEndTime.

Definition handleBookingFormChange (field : BookingField) (value : string)
  : Async unit :=
  setState (λ a,
    let p := bookingForm a in
    setBookingForm
      match field with
      | FStartDate => BookingForm.mk value (BookingForm.startTime p)
                        (BookingForm.endDate p) (BookingForm.endTime p)
      | FStartTime => BookingForm.mk (BookingForm.startDate p) value
                        (BookingForm.endDate p) (BookingForm.endTime p)
      | FEndDate => BookingForm.mk (BookingForm.startDate p)
                      (BookingForm.startTime p) value (BookingForm.endTime p)
      | FEndTime => BookingForm.mk (BookingForm.startDate p)
                      (BookingForm.startTime p) (BookingForm.endDate p) value
      end a).

Definition openBookingModal (equipment : Equipment.t) : Async unit :=
  setState (setSelectedEquipment (Some equipment));;
  d ← now;
  let today := toISODate d in
  setState (setBookingForm (BookingForm.mk today "08:00" today "08:30"));;
  setState (setShowBookingModal true).

Definition closeBookingModal : Async unit :=
  setState (setShowBookingModal false);; setState (setMessage "").

Definition openCancelModal (booking : Booking.t) : Async unit :=
  setState (setBookingToCancel (Some booking));;
  setState (setShowCancelModal true).

Definition closeCancelModal : Async unit :=
  setState (setShowCancelModal false);; setState (setMessage "").

(** The test of [snapshot.docs.some] in [submitBooking]. *)
Definition clashes (startDateTime endDateTime : Z) (d : Booking.data) : bool :=
  (startDateTime <? toDate (Booking.endDate d))
  && (endDateTime >? toDate (Booking.startDate d)).

Definition submitBooking : Async unit :=
  a ← rendered;
  match selectedEquipment a, db a, userId a with
  | Some equipment, Some _, Some user =>
    if negb (truthy user) then mret tt else
    let form := bookingForm a in
    let startDateTime :=
      newDate (BookingForm.startDate form +:+ "T" +:+ BookingForm.startTime form) in
    let endDateTime :=
      newDate (BookingForm.endDate form +:+ "T" +:+ BookingForm.endTime form) in
    if startDateTime >=? endDateTime then
      setState (setMessage "End time must be after start time.")
    else
      current ← now;
      if startDateTime <? current then
        setState (setMessage "Booking start time cannot be in the past.")
      else
        docs ← getDocs PublicBookings
                 [WhereEquipmentId (Equipment.id equipment); WhereStatus booked];
        let isBooked := existsb (λ d, clashes startDateTime endDateTime d.2) docs in
        if isBooked then
          setState (setMessage "This equipment is already booked for this time slot.")
        else
          startDate ← throwing (fromDate startDateTime);
          endDate ← throwing (fromDate endDateTime);
          stamp ← now;
          let bookingData :=
            {| Booking.equipmentId := Equipment.id equipment;
               Booking.equipmentName := Equipment.name (Equipment.fields equipment);
               Booking.userId := user;
               Booking.userDisplayName := userDisplayName a;
               Booking.startDate := startDate;
               Booking.endDate := endDate;
               Booking.status := booked;
               Booking.bookedAt := stamp;
               Booking.cancelledAt := None |} in
          addDoc (UserBookings user) bookingData;;
          addDoc PublicBookings bookingData;;
          closeBookingModal
  | _, _, _ => mret tt
  end.

Definition cancelBooking : Async unit :=
  a ← rendered;
  match bookingToCancel a, db a, userId a with
  | Some booking, Some _, Some user =>
    if negb (truthy user) then mret tt else
    docs ← getDocs PublicBookings
             [WhereEquipmentId (Booking.equipmentId (Booking.fields booking));
              WhereUserId user;
              WhereBookedAt (Booking.bookedAt (Booking.fields booking))];
    forEach docs (λ d,
      detached (stamp ← now; updateDoc PublicBookings d.1 stamp));;
    stamp ← now;
    updateDoc (UserBookings user) (Booking.id booking) stamp;;
    closeCancelModal
  | _, _, _ => mret tt
  end.

(** *** Equipment *)

Inductive EquipmentField := FName | FDescription.

Definition handleEquipmentFormChange (field : EquipmentField) (value : string)
  : Async unit :=
  setState (λ a,
    let p := equipmentForm a in
    setEquipmentForm
      match field with
      | FName => EquipmentForm.mk value (EquipmentForm.description p)
      | FDescription => EquipmentForm.mk (EquipmentForm.name p) value
      end a).

Definition openAddEquipmentModal : Async unit :=
  setState (setEquipmentForm (EquipmentForm.mk "" ""));;
  setState (setShowAddEquipmentModal true).

(** The Cancel button of the add-equipment dialog. *)
Definition closeAddEquipmentModal : Async unit :=
  setState (setShowAddEquipmentModal false);; setState (setMessage "").

Definition addEquipment : Async unit :=
  a ← rendered;
  let form := equipmentForm a in
  if negb (bool_decide (is_Some (db a))) || negb (isAdmin a)
     || negb (truthy (EquipmentForm.name form))
     || negb (truthy (EquipmentForm.description form)) then
    setState (setMessage "Please fill out all fields.")
  else
    tryCatch
      (stamp ← now;
       request (AddEquipmentDoc
                  {| Equipment.name := EquipmentForm.name form;
                     Equipment.description := EquipmentForm.description form;
                     Equipment.createdAt := Some stamp;
                     Equipment.updatedAt := None |});;
       setState (setShowAddEquipmentModal false);;
       setState (setMessage ""))
      (λ error,
         setState (setMessage ("Failed to add equipment. Error: " +:+ error))).

Definition openEditEquipmentModal (equipment : Equipment.t) : Async unit :=
  setState (setEquipmentToEdit (Some equipment));;
  setState (setEquipmentForm
              (EquipmentForm.mk (Equipment.name (Equipment.fields equipment))
                 (Equipment.description (Equipment.fields equipment))));;
  setState (setShowEditEquipmentModal true).

Definition closeEditEquipmentModal : Async unit :=
  setState (setShowEditEquipmentModal false);;
  setState (setEquipmentToEdit None);;
  setState (setMessage "").

Definition updateEquipment : Async unit :=
  a ← rendered;
  match db a, isAdmin a, equipmentToEdit a with
  | Some _, true, Some equipment =>
    let form := equipmentForm a in
    tryCatch
      (stamp ← now;
       request (UpdateEquipmentDoc (Equipment.id equipment)
                  {| patchName := EquipmentForm.name form;
                     patchDescription := EquipmentForm.description form;
                     patchUpdatedAt := stamp |});;
       closeEditEquipmentModal)
      (λ error,
         setState (setMessage ("Failed to update equipment. Error: " +:+ error)))
  | _, _, _ => mret tt
  end.

Definition openDeleteEquipmentModal (equipment : Equipment.t) : Async unit :=
  setState (setEquipmentToDelete (Some equipment));;
  setState (setShowDeleteEquipmentModal true).

Definition closeDeleteEquipmentModal : Async unit :=
  setState (setShowDeleteEquipmentModal false);;
  setState (setEquipmentToDelete None);;
  setState (setMessage "").

Definition deleteEquipment : Async unit :=
  a ← rendered;
  match db a, isAdmin a, equipmentToDelete a with
  | Some _, true, Some equipment =>
    tryCatch
      (request (DeleteEquipmentDoc (Equipment.id equipment));;
       closeDeleteEquipmentModal)
      (λ error,
         setState (setMessage ("Failed to delete equipment. Error: " +:+ error)))
  | _, _, _ => mret tt
  end.

(** [signInWithGoogle] and [handleSignOut] hand over to the identity
    provider, which answers through [authStateChanged]. *)
Definition signInWithGoogle : Async unit := mret tt.
Definition handleSignOut : Async unit := mret tt.

(** ** The component as a transition system *)

(** Everything that can happen to a mounted component: a listener fires or
    the user operates a control. *)
Inductive Action :=
| AuthStateChanged (user : option User)
| KeyDown (modifierKey shiftKey : bool) (key : string)
| ClickOutside
| ToggleUserMenu
| EquipmentSnapshot
| PublicBookingsSnapshot
| MyBookingsSnapshot
| BookingFormChange (field : BookingField) (value : string)
| OpenBookingModal (equipment : Equipment.t)
| CloseBookingModal
| OpenCancelModal (booking : Booking.t)
| CloseCancelModal
| SubmitBooking
| CancelBooking
| EquipmentFormChange (field : EquipmentField) (value : string)
| OpenAddEquipmentModal
| CloseAddEquipmentModal
| AddEquipment
| OpenEditEquipmentModal (equipment : Equipment.t)
| CloseEditEquipmentModal
| UpdateEquipment
| OpenDeleteEquipmentModal (equipment : Equipment.t)
| CloseDeleteEquipmentModal
| DeleteEquipment
| SignInWithGoogle
| HandleSignOut.

Definition handler (act : Action) : Async unit :=
  match act with
  | AuthStateChanged user => authStateChanged user
  | KeyDown modifierKey shiftKey key => handleKeyDown modifierKey shiftKey key
  | ClickOutside => handleClickOutside
  | ToggleUserMenu => toggleUserMenu
  | EquipmentSnapshot => equipmentSnapshot
  | PublicBookingsSnapshot => publicBookingsSnapshot
  | MyBookingsSnapshot => myBookingsSnapshot
  | BookingFormChange field value => handleBookingFormChange field value
  | OpenBookingModal equipment => openBookingModal equipment
  | CloseBookingModal => closeBookingModal
  | OpenCancelModal booking => openCancelModal booking
  | CloseCancelModal => closeCancelModal
  | SubmitBooking => submitBooking
  | CancelBooking => cancelBooking
  | EquipmentFormChange field value => handleEquipmentFormChange field value
  | OpenAddEquipmentModal => openAddEquipmentModal
  | CloseAddEquipmentModal => closeAddEquipmentModal
  | AddEquipment => addEquipment
  | OpenEditEquipmentModal equipment => openEditEquipmentModal equipment
  | CloseEditEquipmentModal => closeEditEquipmentModal
  | UpdateEquipment => updateEquipment
  | OpenDeleteEquipmentModal equipment => openDeleteEquipmentModal equipment
  | CloseDeleteEquipmentModal => closeDeleteEquipmentModal
  | DeleteEquipment => deleteEquipment
  | SignInWithGoogle => signInWithGoogle
  | HandleSignOut => handleSignOut
  end.

(** One handler run to completion, whether its promise is fulfilled or
    rejected. *)
Definition step (s : St) (act : Action) : St := (handler act s).2.

Definition run (acts : list Action) (s : St) : St := foldl step s acts.

(** The component right after it has mounted in world [w]. *)
Definition mount (w : World) : St :=
  (startup {| app := initialState; world := w |}).2.

(** The states a component can be in. *)
Definition reachable (s : St) : Prop :=
  ∃ w acts, s = run acts (mount w).

(** *** Several clients on one store *)

(** The world after the client whose component is in state [a] has run
    [submitBooking]. *)
Definition submitAs (a : AppState) (w : World) : World :=
  world (submitBooking {| app := a; world := w |}).2.

(** Submissions one after the other, each finished before the next
    starts. *)
Definition submissions (clients : list AppState) (w : World) : World :=
  foldl (λ w a, submitAs a w) w clients.

End Handlers.

(** ** What the component renders

    The conditions of the JSX of [App]: the component shows a loading line
    until [isAuthReady]; the dashboard with the calendar, the equipment
    panel and the three equipment dialogs are under [isAdmin]. *)

Inductive Region :=
| LoadingLine
| Dashboard
| ManageEquipment
| BookingDialog
| AddEquipmentDialog
| EditEquipmentDialog
| DeleteEquipmentDialog
| CancelDialog.

Definition renders (a : AppState) (r : Region) : bool :=
  if negb (isAuthReady a) then
    match r with LoadingLine => true | _ => false end
  else
    match r with
    | LoadingLine => false
    | Dashboard => isAdmin a
    | ManageEquipment => isAdmin a && showAdminPanel a
    | BookingDialog =>
        showBookingModal a && bool_decide (is_Some (selectedEquipment a))
    | AddEquipmentDialog => isAdmin a && showAddEquipmentModal a
    | EditEquipmentDialog => isAdmin a && showEditEquipmentModal a
    | DeleteEquipmentDialog => isAdmin a && showDeleteEquipmentModal a
    | CancelDialog => showCancelModal a
    end.

(** The events handed to the calendar: the [booked] entries of the public
    view. *)
Record CalendarEvent := mkCalendarEvent {
  title : string; eventStart : Z; eventEnd : Z }.

Definition calendarEvents (a : AppState) : list CalendarEvent :=
  (λ b : Booking.t,
     {| title := Booking.equipmentName (Booking.fields b) +:+ " ("
                 +:+ Booking.userDisplayName (Booking.fields b) +:+ ")";
        eventStart := toDate (Booking.startDate (Booking.fields b));
        eventEnd := toDate (Booking.endDate (Booking.fields b)) |})
  <$> filter (λ b : Booking.t, Booking.status (Booking.fields b) = booked)
        (allPublicBookings a).

(** ** The equipment forms

    [addEquipment] and [updateEquipment] are the [onSubmit] of the forms
    of the add and the edit dialog, and nothing else calls them.  The name
    input and the description textarea of both forms are [required], and
    neither form has [noValidate]: when the user submits, the browser
    checks the controls in document order; at the first one whose value is
    empty it shows its own message at that control and does not fire
    [submit], so the handler does not run. *)

Inductive Submission :=
| Invalid (control : string)
| Handled (r : Result unit).

(** Submitting a form whose [required] controls are given by id and
    value. *)
Definition submitForm (controls : list (string * string))
    (onSubmit : Async unit) (s : St) : Submission * St :=
  match List.find (λ c : string * string, String.eqb c.2 "") controls with
  | Some c => (Invalid c.1, s)
  | None => let (r, s') := onSubmit s in (Handled r, s')
  end.

(** [<form onSubmit={addEquipment}>]. *)
Definition addEquipmentForm (s : St) : Submission * St :=
  submitForm
    [("newName", EquipmentForm.name (equipmentForm (app s)));
     ("newDescription", EquipmentForm.description (equipmentForm (app s)))]
    addEquipment s.

(** [<form onSubmit={updateEquipment}>]. *)
Definition editEquipmentForm (s : St) : Submission * St :=
  submitForm
    [("editName", EquipmentForm.name (equipmentForm (app s)));
     ("editDescription", EquipmentForm.description (equipmentForm (app s)))]
    updateEquipment s.

(** ** The time slots of the booking form *)

(** [s.padStart(targetLength, padString)]: [s] itself when it is long
    enough or the pad is empty, otherwise [s] behind as much of the
    repeated pad as fills the length. *)
Definition padStart (targetLength : nat) (padString s : string) : string :=
  let n := String.length s in
  if (targetLength <=? n)%nat || String.eqb padString "" then s
  else
    let k := (targetLength - n)%nat in
    String.string_of_list_ascii
      (take k (mjoin (replicate k (String.list_ascii_of_string padString))))
    +:+ s.

(** [generateTimeSlots]: for [hour] from 8 to 17, the full hour and, before
    17, the half hour. *)
Definition generateTimeSlots : list string :=
  flat_map
    (λ hour : nat,
       (padStart 2 "0" (pretty hour) +:+ ":00")
       :: (if (hour <? 17)%nat then [padStart 2 "0" (pretty hour) +:+ ":30"]
           else []))
    (seq 8 10).

(** ** A concrete host and scenario

    Used to run the handlers on explicit inputs. *)

(** A stand-in for the [Date] constructor: the digits of
    [YYYY-MM-DDTHH:MM] read as one number, which orders the instants of the
    form as the calendar does. *)
Fixpoint digitsValue (acc : Z) (s : string) : Z :=
  match s with
  | EmptyString => acc
  | String c s =>
      let n := Z.of_nat (Ascii.nat_of_ascii c) in
      if (48 <=? n) && (n <=? 57) then digitsValue (10 * acc + (n - 48)) s
      else digitsValue acc s
  end.

Definition demoDate (s : string) : Z := digitsValue 0 s.

Definition demoISODate (d : Z) : string := "2030-01-01".

Definition demoConfig : FirebaseConfig :=
  {| apiKey := Some "key"; authDomain := Some "lab.example.org";
     projectId := Some "lab"; storageBucket := Some "lab.example.org";
     messagingSenderId := Some "1"; appId := Some "cmf";
     measurementId := Some "G-1" |}.



Definition emptyStore : Firestore :=
  {| equipment := ∅; publicBookings := ∅; userBookings := ∅ |}.

(** A world whose backend accepts every call and whose clock shows
    2030-01-01 00:00 and counts up. *)
Definition demoWorld (fs : Firestore) : World :=
  {| firestore := fs; log := []; backend := λ _, None; calls := 0;
     clock := λ n, 203001010000 + Z.of_nat n; reads := 0 |}.

Definition microscope : Equipment.t :=
  Equipment.mk "eq1"
    {| Equipment.name := "Microscope"; Equipment.description := "Confocal";
       Equipment.createdAt := Some 0; Equipment.updatedAt := None |}.

(** A signed-in client with the booking dialog open on [microscope] and
    the given times (all on 2030-01-02) in the form. *)
Definition demoClient (user startTime endTime : string) : AppState :=
  setBookingForm (BookingForm.mk "2030-01-02" startTime "2030-01-02" endTime)
    (setSelectedEquipment (Some microscope)
       (setShowBookingModal true
          (setUserDisplayName user
             (setUserId (Some user)
                (setIsAuthReady true
                   (setAuth (Some (getAuth (initializeApp demoConfig)))
                      (setDb (Some (getFirestore (initializeApp demoConfig)))
                         initialState))))))).

(** Ann's booking of [microscope] on 2030-01-02 from 09:00 to 10:00, and a
    store that holds its two copies. *)
Definition annBooking : Booking.data :=
  {| Booking.equipmentId := "eq1"; Booking.equipmentName := "Microscope";
     Booking.userId := "ann"; Booking.userDisplayName := "ann";
     Booking.startDate := 203001020900; Booking.endDate := 203001021000;
     Booking.status := booked; Booking.bookedAt := 203001010001;
     Booking.cancelledAt := None |}.

Definition annStore : Firestore :=
  {| equipment := {[ "eq1" := Equipment.fields microscope ]};
     publicBookings := {[ "p1" := annBooking ]};
     userBookings := {[ "ann" := {[ "u1" := annBooking ]} ]} |}.

(** The same store once the booking has been cancelled. *)
Definition cancelledStore : Firestore :=
  {| equipment := {[ "eq1" := Equipment.fields microscope ]};
     publicBookings := {[ "p1" := Booking.cancel 203001010005 annBooking ]};
     userBookings :=
       {[ "ann" := {[ "u1" := Booking.cancel 203001010005 annBooking ]} ]} |}.

(** Ann's client with the cancellation dialog open on her booking. *)
Definition annCancelling : AppState :=
  setShowCancelModal true
    (setBookingToCancel (Some (Booking.mk "u1" annBooking))
       (demoClient "ann" "09:00" "10:00")).

(** A client with the edit dialog open on [microscope] and the name field
    emptied. *)
Definition editingWithoutName : AppState :=
  setEquipmentForm (EquipmentForm.mk "" "Confocal")
    (setEquipmentToEdit (Some microscope)
       (setShowEditEquipmentModal true (demoClient "ann" "09:00" "10:00"))).

(** A world like [demoWorld] whose clock shows 2030-01-03 00:00, after the
    day of the bookings. *)
Definition laterWorld (fs : Firestore) : World :=
  {| firestore := fs; log := []; backend := λ _, None; calls := 0;
     clock := λ n, 203001030000 + Z.of_nat n; reads := 0 |}.

(** A world like [demoWorld] whose backend rejects the second call it
    receives. *)
Definition flakyWorld (fs : Firestore) : World :=
  {| firestore := fs; log := [];
     backend := λ n, if Nat.eqb n 1 then Some "unavailable" else None;
     calls := 0; clock := λ n, 203001010000 + Z.of_nat n; reads := 0 |}.

(** Three clients submitting one after the other: 09:00-10:00, then the
    overlapping 09:30-10:30, then the adjacent 10:00-10:30. *)
Definition demoClients : list AppState :=
  [demoClient "ann" "09:00" "10:00"; demoClient "bob" "09:30" "10:30";
   demoClient "bob" "10:00" "10:30"].

(** The actions of a short session. *)
Definition demoSession : list Action :=
  [KeyDown true true "A"; OpenAddEquipmentModal;
   EquipmentFormChange FName "Scale"; AddEquipment; SubmitBooking].

(** A world like [demoWorld] whose backend rejects every call. *)
Definition downWorld (fs : Firestore) : World :=
  {| firestore := fs; log := []; backend := λ _, Some "unavailable";
     calls := 0; clock := λ n, 203001010000 + Z.of_nat n; reads := 0 |}.


(** A client with the add dialog filled in. *)
Definition addingScale : AppState :=
  setEquipmentForm (EquipmentForm.mk "Scale" "Analytical")
    (setShowAddEquipmentModal true (demoClient "ann" "09:00" "10:00")).

(** A client with the edit dialog open on [microscope] and both fields
    rewritten. *)
Definition renamingMicroscope : AppState :=
  setEquipmentForm (EquipmentForm.mk "Microscope B" "Confocal, room 2")
    (setEquipmentToEdit (Some microscope)
       (setShowEditEquipmentModal true (demoClient "ann" "09:00" "10:00"))).

(** A client with the delete dialog open on [microscope]. *)
Definition deletingMicroscope : AppState :=
  setEquipmentToDelete (Some microscope)
    (setShowDeleteEquipmentModal true (demoClient "ann" "09:00" "10:00")).

(** Handlers run by several clients in turn: Bob tries the overlapping
    slot, Ann cancels, Bob tries again, the microscope is deleted. *)
Definition demoTurns : list (AppState * Action) :=
  [(demoClient "bob" "09:30" "10:30", SubmitBooking);
   (annCancelling, CancelBooking);
   (demoClient "bob" "09:30" "10:30", SubmitBooking);
   (deletingMicroscope, DeleteEquipment)].

(** The minutes since midnight a time slot [HH:MM] denotes. *)
Definition slotMinutes (s : string) : Z :=
  let n := digitsValue 0 s in 60 * (n / 100) + n mod 100.

(** A host on which the dates of the form denote instants past the year
    9999: [demoDate] moved by the first whole second that a [Timestamp]
    refuses. *)
Definition farDate (s : string) : Z := 1000 * MAX_SECONDS + demoDate s.

(** ** Properties *)

(** *** Vocabulary *)

(** Half-open intervals [a] and [b] intersect. *)
Definition overlap (a b : Booking.data) : Prop :=
  Booking.startDate a < Booking.endDate b
  ∧ Booking.endDate a > Booking.startDate b.

(** No two distinct [booked] documents of the shared collection that are for
    equipment [eq] intersect. *)
Definition noDoubleBooking (eq : string) (fs : Firestore) : Prop :=
  ∀ i j a b,
    i ≠ j →
    publicBookings fs !! i = Some a → publicBookings fs !! j = Some b →
    Booking.equipmentId a = eq → Booking.equipmentId b = eq →
    Booking.status a = booked → Booking.status b = booked →
    ¬ overlap a b.

(** Some [booked] document for [eq] in the shared collection intersects
    the candidate interval. *)
Definition conflicting (eq : string) (startDateTime endDateTime : Z)
    (fs : Firestore) : Prop :=
  ∃ id d,
    publicBookings fs !! id = Some d
    ∧ Booking.equipmentId d = eq ∧ Booking.status d = booked
    ∧ startDateTime < Booking.endDate d ∧ endDateTime > Booking.startDate d.

(** The events a handler added to the log. *)
Definition emitted (before after : World) : list Event :=
  drop (length (log before)) (log after).

(** The backend accepts every call from now on. *)
Definition accepting (w : World) : Prop := ∀ n, backend w n = None.

(** A document reads back as cancelled. *)
Definition readsCancelled (d : Booking.data) : Prop :=
  Booking.status d = cancelled ∧ is_Some (Booking.cancelledAt d).

(** The correlation key of the two copies of a booking. *)
Definition correlationKey (d : Booking.data) : string * string * Timestamp :=
  (Booking.equipmentId d, Booking.userId d, Booking.bookedAt d).

(** The first reading of the clock a handler will take, and the second. *)
Definition firstReading (w : World) : Z := clock w (reads w).
Definition secondReading (w : World) : Z := clock w (S (reads w)).

(** The query of [submitBooking]. *)
Definition bookedFor (equipment : Equipment.t) : Call :=
  GetDocs PublicBookings
    [WhereEquipmentId (Equipment.id equipment); WhereStatus booked].

(** The query of [cancelBooking]. *)
Definition copiesOf (booking : Booking.t) (user : string) : Call :=
  GetDocs PublicBookings
    [WhereEquipmentId (Booking.equipmentId (Booking.fields booking));
     WhereUserId user;
     WhereBookedAt (Booking.bookedAt (Booking.fields booking))].

(** The guard at the top of [submitBooking] lets the handler through. *)
Definition mayBook (a : AppState) (equipment : Equipment.t) (user : string)
  : Prop :=
  selectedEquipment a = Some equipment ∧ is_Some (db a)
  ∧ userId a = Some user ∧ truthy user = true.

(** The guard at the top of [cancelBooking] lets the handler through. *)
Definition mayCancel (a : AppState) (booking : Booking.t) (user : string)
  : Prop :=
  bookingToCancel a = Some booking ∧ is_Some (db a)
  ∧ userId a = Some user ∧ truthy user = true.

(** The rest of [submitBooking] once the check has approved: the private
    create, then the public create, then the dialog closes. *)
Definition commit (a : AppState) (data : Booking.data) (w : World)
  : Result unit * St :=
  match answer (AddBookingDoc (UserBookings (Booking.userId data)) data) w with
  | (Failed e, w) => (Failed e, {| app := a; world := w |})
  | (Fulfilled _, w) =>
      match answer (AddBookingDoc PublicBookings data) w with
      | (Failed e, w) => (Failed e, {| app := a; world := w |})
      | (Fulfilled _, w) =>
          (Fulfilled tt,
           {| app := setMessage "" (setShowBookingModal false a); world := w |})
      end
  end.

(** The updates [cancelBooking] sends for the documents its query found:
    one call per document, each stamped with its own reading of the
    clock, none awaited. *)
Definition cancelEach (ids : list string) (w : World) : World :=
  foldl (λ w id,
           (answer (UpdateBookingDoc PublicBookings id (clock w (reads w)))
              (tick w)).2)
    w ids.

(** Handler [m] takes every client to a client related to it by [R]. *)
Definition respects (R : relation St) {A} (m : Async A) : Prop :=
  ∀ s, R s (m s).2.

(** Every booking document that is cancelled is still there and still
    cancelled afterwards. *)
Definition cancelledStays (fs fs' : Firestore) : Prop :=
  ∀ p id d,
    bookingsAt p fs !! id = Some d → Booking.status d = cancelled →
    ∃ d', bookingsAt p fs' !! id = Some d' ∧ Booking.status d' = cancelled.

Definition keepsCancelled (s s' : St) : Prop :=
  cancelledStays (firestore (world s)) (firestore (world s')).

(** The administrator flag is what it was. *)
Definition sameAdmin (s s' : St) : Prop :=
  isAdmin (app s') = isAdmin (app s).


(** The store and the call counter are what they were, and nothing was
    logged. *)
Definition untouched (w w' : World) : Prop :=
  firestore w' = firestore w ∧ calls w' = calls w ∧ log w' = log w.




(** [d'] is [d] after a cancellation. *)
Definition cancelledCopyOf (d d' : Booking.data) : Prop :=
  ∃ stamp, d' = Booking.cancel stamp d.

(** The document [addEquipment] creates. *)
Definition newEquipment (s : St) : Equipment.data :=
  {| Equipment.name := EquipmentForm.name (equipmentForm (app s));
     Equipment.description := EquipmentForm.description (equipmentForm (app s));
     Equipment.createdAt := Some (firstReading (world s));
     Equipment.updatedAt := None |}.

(** The partial document [updateEquipment] sends. *)
Definition equipmentPatch (s : St) : EquipmentPatch :=
  {| patchName := EquipmentForm.name (equipmentForm (app s));
     patchDescription := EquipmentForm.description (equipmentForm (app s));
     patchUpdatedAt := firstReading (world s) |}.

(** A collection with one more document. *)
Definition created (d : Booking.data) (c : gmap string Booking.data)
  : gmap string Booking.data :=
  <[fresh (dom c) := d]> c.

(** *** Vocabulary for the rest of the component *)

(** Every booking document is still stored under its id, and is what it
    was or a cancelled copy of it: no handler removes one or rewrites its
    equipment, user, interval or [bookedAt]. *)
Definition bookingsPersist (fs fs' : Firestore) : Prop :=
  ∀ p id d,
    bookingsAt p fs !! id = Some d →
    ∃ d', bookingsAt p fs' !! id = Some d' ∧ (d' = d ∨ cancelledCopyOf d d').

Definition keepsBookings (s s' : St) : Prop :=
  bookingsPersist (firestore (world s)) (firestore (world s')).

(** The documents of a collection are those it had, some of them
    cancelled; none is new. *)
Definition onlyCancels (c c' : gmap string Booking.data) : Prop :=
  ∀ id,
    c' !! id = c !! id
    ∨ ∃ d stamp, c !! id = Some d ∧ c' !! id = Some (Booking.cancel stamp d).

Definition cancelsPublic (s s' : St) : Prop :=
  onlyCancels (publicBookings (firestore (world s)))
    (publicBookings (firestore (world s'))).

(** The shared collection of bookings is what it was. *)
Definition samePublic (s s' : St) : Prop :=
  publicBookings (firestore (world s')) = publicBookings (firestore (world s)).

(** The handles of the SDK are what they were. *)
Definition sameHandles (s s' : St) : Prop :=
  db (app s') = db (app s) ∧ auth (app s') = auth (app s).

(** [isAuthReady] is what it was. *)
Definition sameReady (s s' : St) : Prop :=
  isAuthReady (app s') = isAuthReady (app s).

(** The view of a collection: its documents with their ids. *)
Definition bookingRows (c : gmap string Booking.data) : list Booking.t :=
  (λ kv, Booking.mk kv.1 kv.2) <$> map_to_list c.

Definition equipmentRows (c : gmap string Equipment.data) : list Equipment.t :=
  (λ kv, Equipment.mk kv.1 kv.2) <$> map_to_list c.

(** The calendar event of a booking document. *)
Definition eventOf (d : Booking.data) : CalendarEvent :=
  {| title := Booking.equipmentName d +:+ " (" +:+ Booking.userDisplayName d
              +:+ ")";
     eventStart := Booking.startDate d;
     eventEnd := Booking.endDate d |}.

(** The listeners of the shared collections are registered. *)
Definition listening (cfg : FirebaseConfig) (a : AppState) : Prop :=
  is_Some (db a) ∧ truthy_opt (appId cfg) = true.

(** The guard of the three equipment handlers lets them through. *)
Definition mayManage (a : AppState) : Prop :=
  is_Some (db a) ∧ isAdmin a = true.



(** The actions that stay inside the component: key presses, clicks, form
    changes, opening and closing a dialog.  Not among them: the five
    handlers that call the store, the listeners (the effects that register
    them subscribe to the store) and what belongs to the identity provider
    (its callback and the sign-in and sign-out buttons). *)
Definition interfaceOnly (act : Action) : bool :=
  match act with
  | KeyDown _ _ _ | ClickOutside | ToggleUserMenu
  | BookingFormChange _ _ | OpenBookingModal _ | CloseBookingModal
  | OpenCancelModal _ | CloseCancelModal
  | EquipmentFormChange _ _ | OpenAddEquipmentModal | CloseAddEquipmentModal
  | OpenEditEquipmentModal _ | CloseEditEquipmentModal
  | OpenDeleteEquipmentModal _ | CloseDeleteEquipmentModal => true
  | _ => false
  end.

(** What the user does to book the same slot once more after the dialog
    has closed: open the dialog on the equipment again and set the four
    fields of the form. *)
Definition retyping (item : Equipment.t) (form : BookingForm.t)
  : list Action :=
  [OpenBookingModal item;
   BookingFormChange FStartDate (BookingForm.startDate form);
   BookingFormChange FStartTime (BookingForm.startTime form);
   BookingFormChange FEndDate (BookingForm.endDate form);
   BookingFormChange FEndTime (BookingForm.endTime form)].

Section Properties.

Set Default Proof Using "Type*".

Variable firebaseConfig : FirebaseConfig.
Variable newDate : string → Z.
Variable toISODate : Z → string.

(** The instants the booking form denotes. *)
Definition formStart (a : AppState) : Z :=
  newDate (BookingForm.startDate (bookingForm a) +:+ "T"
           +:+ BookingForm.startTime (bookingForm a)).

Definition formEnd (a : AppState) : Z :=
  newDate (BookingForm.endDate (bookingForm a) +:+ "T"
           +:+ BookingForm.endTime (bookingForm a)).

(** The candidate has passed both validation steps of [submitBooking]. *)
Definition wellTimed (s : St) : Prop :=
  formStart (app s) < formEnd (app s)
  ∧ firstReading (world s) ≤ formStart (app s).

(** Both instants of the candidate can be stored as a [Timestamp]. *)
Definition storable (s : St) : Prop :=
  representable (formStart (app s)) ∧ representable (formEnd (app s)).

(** The error of the first of the two conversions that throws. *)
Definition conversionError (s : St) : string :=
  if decide (representable (formStart (app s)))
  then rangeError (formEnd (app s) `div` 1000)
  else rangeError (formStart (app s) `div` 1000).

(** The payload [submitBooking] builds. *)
Definition bookingDataOf (a : AppState) (equipment : Equipment.t)
    (user : string) (stamp : Timestamp) : Booking.data :=
  {| Booking.equipmentId := Equipment.id equipment;
     Booking.equipmentName := Equipment.name (Equipment.fields equipment);
     Booking.userId := user;
     Booking.userDisplayName := userDisplayName a;
     Booking.startDate := formStart a;
     Booking.endDate := formEnd a;
     Booking.status := booked;
     Booking.bookedAt := stamp;
     Booking.cancelledAt := None |}.

(** The candidate interval clashes with the shared collection. *)
Definition candidateConflicts (s : St) (equipment : Equipment.t) : Prop :=
  conflicting (Equipment.id equipment) (formStart (app s)) (formEnd (app s))
    (firestore (world s)).

(** The world after the client whose component is in state [a] has run the
    handler of [act]. *)
Definition actAs (a : AppState) (act : Action) (w : World) : World :=
  world (step firebaseConfig newDate toISODate {| app := a; world := w |} act).

(** Handlers run one after the other by any clients, each finished before
    the next starts. *)
Definition session (turns : list (AppState * Action)) (w : World) : World :=
  foldl (λ w turn, actAs turn.1 turn.2 w) w turns.

(** *** Bookkeeping *)

(** [tauto] on the goal alone, so that a proof depends on the host only
    where its statement does. *)
Ltac propositional :=
  try clear firebaseConfig; try clear newDate; try clear toISODate; tauto.

Lemma emitted_app (w w' : World) (evs : list Event) :
  log w' = log w ++ evs → emitted w w' = evs.
Proof. intros E. unfold emitted. rewrite E. apply drop_app_length. Qed.

Lemma bookingsAt_set_eq p c fs : bookingsAt p (setBookingsAt p c fs) = c.
Proof. destruct p; cbn; [done |]. by rewrite lookup_insert_eq. Qed.

Lemma bookingsAt_set_ne p p' c fs :
  p ≠ p' → bookingsAt p' (setBookingsAt p c fs) = bookingsAt p' fs.
Proof.
  intros Hne. destruct p, p'; cbn; try done.
  rewrite lookup_insert_ne; [done | congruence].
Qed.

Lemma public_set_user u c fs :
  publicBookings (setBookingsAt (UserBookings u) c fs) = publicBookings fs.
Proof. done. Qed.

Lemma created_fresh (c : gmap string Booking.data) : c !! fresh (dom c) = None.
Proof. apply not_elem_of_dom, is_fresh. Qed.

Lemma created_old (d : Booking.data) (c : gmap string Booking.data) id x :
  c !! id = Some x → created d c !! id = Some x.
Proof.
  intros H. unfold created. rewrite lookup_insert_ne; [done |].
  intros <-. by rewrite created_fresh in H.
Qed.

(** *** [submitBooking], stage by stage *)

Ltac enter_handler H :=
  destruct H as (Hsel & [h Hdb] & Hu & Ht);
  unfold submitBooking, cancelBooking, mbind, Async_bind, rendered;
  rewrite Hsel, Hdb, Hu, Ht; cbn [negb].

Ltac in_list :=
  repeat first [apply list_elem_of_here | apply list_elem_of_further].

Ltac not_in_list H :=
  repeat (apply elem_of_cons in H as [H | H]; [discriminate |]);
  by apply elem_of_nil in H.

Ltac pass_validation s :=
  fold (formStart (app s)) (formEnd (app s));
  destruct (Z.geb_spec (formStart (app s)) (formEnd (app s))); [lia |];
  unfold now at 1; fold (firstReading (world s));
  destruct (Z.ltb_spec (formStart (app s)) (firstReading (world s))); [lia |].

Lemma submitBooking_guard (s : St) :
  selectedEquipment (app s) = None ∨ db (app s) = None
  ∨ truthy_opt (userId (app s)) = false →
  submitBooking newDate s = (Fulfilled tt, s).
Proof.
  unfold submitBooking, mbind, Async_bind, rendered, mret, Async_ret, truthy_opt.
  intros H.
  destruct (selectedEquipment (app s)), (db (app s)), (userId (app s));
    try reflexivity.
  destruct H as [H | [H | H]]; try discriminate. by rewrite H.
Qed.

Lemma submitBooking_nonpositive s equipment user :
  mayBook (app s) equipment user →
  formEnd (app s) ≤ formStart (app s) →
  submitBooking newDate s
  = (Fulfilled tt,
     {| app := setMessage "End time must be after start time." (app s);
        world := world s |}).
Proof.
  intros G Hle. enter_handler G.
  fold (formStart (app s)) (formEnd (app s)).
  destruct (Z.geb_spec (formStart (app s)) (formEnd (app s))); [done | lia].
Qed.

Lemma submitBooking_past s equipment user :
  mayBook (app s) equipment user →
  formStart (app s) < formEnd (app s) →
  formStart (app s) < firstReading (world s) →
  submitBooking newDate s
  = (Fulfilled tt,
     {| app := setMessage "Booking start time cannot be in the past." (app s);
        world := tick (world s) |}).
Proof.
  intros G Hlt Hpast. enter_handler G.
  fold (formStart (app s)) (formEnd (app s)).
  destruct (Z.geb_spec (formStart (app s)) (formEnd (app s))); [lia |].
  unfold now at 1. fold (firstReading (world s)).
  destruct (Z.ltb_spec (formStart (app s)) (firstReading (world s))); [done | lia].
Qed.

Lemma submitBooking_query_rejected s equipment user error :
  mayBook (app s) equipment user → wellTimed s →
  backend (world s) (calls (world s)) = Some error →
  submitBooking newDate s
  = (Failed error,
     {| app := app s;
        world := rejected (bookedFor equipment) error (tick (world s)) |}).
Proof.
  intros G [Hlt Hnow] Hq. enter_handler G. pass_validation s.
  unfold getDocs, mbind, Async_bind, request, answer.
  cbn [world app tick backend calls]. by rewrite Hq.
Qed.

Lemma fromDate_representable d : representable d → fromDate d = Fulfilled d.
Proof.
  unfold representable, fromDate. intros [Hlo Hhi]. cbn zeta.
  destruct (Z.ltb_spec (d `div` 1000) MIN_SECONDS); [lia |].
  destruct (Z.geb_spec (d `div` 1000) MAX_SECONDS); [lia | done].
Qed.

Lemma fromDate_unrepresentable d :
  ¬ representable d → fromDate d = Failed (rangeError (d `div` 1000)).
Proof.
  unfold representable, fromDate. intros Hn. cbn zeta.
  destruct (Z.ltb_spec (d `div` 1000) MIN_SECONDS); [done |].
  destruct (Z.geb_spec (d `div` 1000) MAX_SECONDS); [done | lia].
Qed.

Lemma submitBooking_checked s equipment user :
  mayBook (app s) equipment user → wellTimed s →
  backend (world s) (calls (world s)) = None →
  let w := accepted (bookedFor equipment) (firestore (world s)) (tick (world s)) in
  submitBooking newDate s
  = if existsb (λ d, clashes (formStart (app s)) (formEnd (app s)) d.2)
         (queryDocs PublicBookings
            [WhereEquipmentId (Equipment.id equipment); WhereStatus booked]
            (firestore (world s)))
    then (Fulfilled tt,
          {| app := setMessage
                      "This equipment is already booked for this time slot."
                      (app s);
             world := w |})
    else if decide (storable s)
    then commit (app s)
           (bookingDataOf (app s) equipment user (secondReading (world s)))
           (tick w)
    else (Failed (conversionError s), {| app := app s; world := w |}).
Proof.
  intros G [Hlt Hnow] Hq. enter_handler G. pass_validation s.
  unfold getDocs, mbind, Async_bind, request, answer.
  cbn [world app tick backend calls firestore]. rewrite Hq.
  cbn [applyCall]. unfold snapshotDocs. cbn [world app accepted firestore].
  destruct (existsb _ _); [done |].
  unfold throwing, conversionError, storable.
  destruct (decide (representable (formStart (app s)))) as [R1 | R1];
    [| rewrite (fromDate_unrepresentable _ R1);
       by rewrite decide_False by by intros [? ?]].
  rewrite (fromDate_representable _ R1).
  destruct (decide (representable (formEnd (app s)))) as [R2 | R2];
    [| rewrite (fromDate_unrepresentable _ R2);
       by rewrite decide_False by by intros [? ?]].
  rewrite (fromDate_representable _ R2). rewrite decide_True by done.
  unfold commit, now, addDoc, request, closeBookingModal, mbind, Async_bind,
    setState.
  cbn [world app]. unfold bookingDataOf, secondReading.
  cbn [tick accepted clock reads Booking.userId]. unfold bookedFor.
  destruct (answer _ _) as [[[]|e1] w1]; cbn [world app]; [|done].
  by destruct (answer _ _) as [[[]|e2] w2].
Qed.

(** The documents the query of [submitBooking] returns. *)
Lemma bookedFor_docs (eq id : string) (d : Booking.data) (fs : Firestore) :
  (id, d) ∈ queryDocs PublicBookings [WhereEquipmentId eq; WhereStatus booked] fs
  ↔ publicBookings fs !! id = Some d
    ∧ Booking.equipmentId d = eq ∧ Booking.status d = booked.
Proof.
  unfold queryDocs. cbn [bookingsAt].
  rewrite elem_of_map_to_list, map_lookup_filter_Some. cbn.
  unfold matches. cbn.
  rewrite !andb_true_iff, !bool_decide_eq_true. propositional.
Qed.

Lemma clashes_spec st en d :
  clashes st en d = true
  ↔ st < Booking.endDate d ∧ en > Booking.startDate d.
Proof.
  unfold clashes, toDate. rewrite andb_true_iff, Z.ltb_lt, Z.gtb_gt. propositional.
Qed.

Lemma isBooked_conflicting (eq : string) (st en : Z) (fs : Firestore) :
  existsb (λ d : string * Booking.data, clashes st en d.2)
    (queryDocs PublicBookings [WhereEquipmentId eq; WhereStatus booked] fs)
  = true
  ↔ conflicting eq st en fs.
Proof.
  rewrite existsb_exists. unfold conflicting. split.
  - intros [[id d] [Hin Hc]]. exists id, d.
    apply list_elem_of_In, bookedFor_docs in Hin. cbn in Hc.
    apply clashes_spec in Hc. propositional.
  - intros (id & d & Hd & He & Hs & H1 & H2). exists (id, d). split.
    + by apply list_elem_of_In, bookedFor_docs.
    + cbn. by apply clashes_spec.
Qed.

Lemma commit_cases a data w :
  let user := Booking.userId data in
  let priv := AddBookingDoc (UserBookings user) data in
  let pub := AddBookingDoc PublicBookings data in
  let fs1 :=
    setBookingsAt (UserBookings user)
      (created data (bookingsAt (UserBookings user) (firestore w)))
      (firestore w) in
  let fs2 :=
    setBookingsAt PublicBookings (created data (publicBookings (firestore w)))
      fs1 in
  commit a data w
  = match backend w (calls w) with
    | Some e => (Failed e, {| app := a; world := rejected priv e w |})
    | None =>
        match backend w (S (calls w)) with
        | Some e =>
            (Failed e,
             {| app := a; world := rejected pub e (accepted priv fs1 w) |})
        | None =>
            (Fulfilled tt,
             {| app := setMessage "" (setShowBookingModal false a);
                world := accepted pub fs2 (accepted priv fs1 w) |})
        end
    end.
Proof.
  cbn zeta. unfold commit, answer. cbn [applyCall].
  destruct (backend w (calls w)); [done |].
  cbn [accepted backend calls firestore].
  by destruct (backend w (S (calls w))).
Qed.

(** What one [submitBooking] does to the shared collection: nothing, or it
    adds the candidate, and then the candidate clashed with nothing. *)
Lemma submitBooking_public (s : St) :
  let pub := publicBookings (firestore (world s)) in
  let pub' := publicBookings (firestore (world (submitBooking newDate s).2)) in
  pub' = pub
  ∨ ∃ equipment user stamp,
      pub' = created (bookingDataOf (app s) equipment user stamp) pub
      ∧ ¬ candidateConflicts s equipment.
Proof.
  cbn zeta.
  destruct (selectedEquipment (app s)) as [equipment|] eqn:Hsel;
    [| left; by rewrite submitBooking_guard; [| auto]].
  destruct (db (app s)) as [h|] eqn:Hdb;
    [| left; by rewrite submitBooking_guard; [| auto]].
  destruct (truthy_opt (userId (app s))) eqn:Hu;
    [| left; by rewrite submitBooking_guard; [| auto]].
  destruct (userId (app s)) as [user|] eqn:Hu'; [| done].
  assert (G : mayBook (app s) equipment user) by (by repeat split; eauto).
  destruct (decide (formEnd (app s) ≤ formStart (app s))) as [Hle | Hlt].
  { left. by erewrite submitBooking_nonpositive. }
  destruct (decide (formStart (app s) < firstReading (world s))) as [Hp | Hn].
  { left. erewrite submitBooking_past; [done | done | lia | done]. }
  assert (W : wellTimed s) by (split; lia).
  destruct (backend (world s) (calls (world s))) as [e|] eqn:Hq.
  { left. by erewrite submitBooking_query_rejected. }
  erewrite submitBooking_checked by done.
  destruct (existsb _ _) eqn:Hex; [by left |].
  destruct (decide (storable s)) as [R | R]; [| by left].
  assert (Hc : ¬ candidateConflicts s equipment).
  { unfold candidateConflicts. rewrite <- isBooked_conflicting, Hex. done. }
  rewrite commit_cases. cbn [tick accepted backend calls firestore].
  destruct (backend (world s) (S (calls (world s)))); [by left |].
  destruct (backend (world s) (S (S (calls (world s))))); [by left |].
  right. by exists equipment, user, (secondReading (world s)).
Qed.

Lemma noDoubleBooking_created eq fs fs' d :
  publicBookings fs' = created d (publicBookings fs) →
  ¬ conflicting (Booking.equipmentId d) (Booking.startDate d)
      (Booking.endDate d) fs →
  noDoubleBooking eq fs → noDoubleBooking eq fs'.
Proof.
  intros E Hfree Inv i j a b Hij Ha Hb Hae Hbe Has Hbs [O1 O2].
  rewrite E in Ha, Hb. unfold created in Ha, Hb.
  rewrite lookup_insert in Ha, Hb.
  destruct (decide (fresh (dom (publicBookings fs)) = i)) as [<- | Hi],
           (decide (fresh (dom (publicBookings fs)) = j)) as [<- | Hj];
    simplify_eq.
  - apply Hfree. exists j, b. repeat split; first [done | congruence | lia].
  - apply Hfree. exists i, a. repeat split; first [done | congruence | lia].
  - by apply (Inv i j a b).
Qed.

Lemma submitAs_noDoubleBooking eq a w :
  noDoubleBooking eq (firestore w) →
  noDoubleBooking eq (firestore (submitAs newDate a w)).
Proof.
  intros Inv. unfold submitAs.
  destruct (submitBooking_public {| app := a; world := w |})
    as [E | (equipment & user & stamp & E & Hfree)]; cbn in E.
  - intros i j x y. rewrite E. apply Inv.
  - eapply noDoubleBooking_created; [exact E | exact Hfree | exact Inv].
Qed.

Lemma cancelBooking_guard (s : St) :
  bookingToCancel (app s) = None ∨ db (app s) = None
  ∨ truthy_opt (userId (app s)) = false →
  cancelBooking s = (Fulfilled tt, s).
Proof.
  unfold cancelBooking, mbind, Async_bind, rendered, mret, Async_ret, truthy_opt.
  intros H.
  destruct (bookingToCancel (app s)), (db (app s)), (userId (app s));
    try reflexivity.
  destruct H as [H | [H | H]]; try discriminate. by rewrite H.
Qed.

Lemma candidateConflicts_dec s equipment :
  candidateConflicts s equipment ∨ ¬ candidateConflicts s equipment.
Proof.
  unfold candidateConflicts. rewrite <- isBooked_conflicting.
  destruct (existsb _ _); auto.
Qed.

Lemma submitBooking_refused s equipment user :
  mayBook (app s) equipment user → wellTimed s →
  backend (world s) (calls (world s)) = None →
  candidateConflicts s equipment →
  submitBooking newDate s
  = (Fulfilled tt,
     {| app := setMessage
                 "This equipment is already booked for this time slot." (app s);
        world := accepted (bookedFor equipment) (firestore (world s))
                   (tick (world s)) |}).
Proof.
  intros G W Hq C. rewrite (submitBooking_checked s equipment user G W Hq).
  apply isBooked_conflicting in C. cbn zeta. by rewrite C.
Qed.

Lemma submitBooking_approved s equipment user :
  mayBook (app s) equipment user → wellTimed s → storable s →
  backend (world s) (calls (world s)) = None →
  ¬ candidateConflicts s equipment →
  let w := world s in
  let data := bookingDataOf (app s) equipment user (secondReading w) in
  let priv := AddBookingDoc (UserBookings user) data in
  let pub := AddBookingDoc PublicBookings data in
  let fs1 :=
    setBookingsAt (UserBookings user)
      (created data (bookingsAt (UserBookings user) (firestore w)))
      (firestore w) in
  let fs2 :=
    setBookingsAt PublicBookings (created data (publicBookings (firestore w)))
      fs1 in
  let w1 := tick (accepted (bookedFor equipment) (firestore w) (tick w)) in
  submitBooking newDate s
  = match backend w (S (calls w)) with
    | Some e => (Failed e, {| app := app s; world := rejected priv e w1 |})
    | None =>
        match backend w (S (S (calls w))) with
        | Some e =>
            (Failed e,
             {| app := app s; world := rejected pub e (accepted priv fs1 w1) |})
        | None =>
            (Fulfilled tt,
             {| app := setMessage "" (setShowBookingModal false (app s));
                world := accepted pub fs2 (accepted priv fs1 w1) |})
        end
    end.
Proof.
  intros G W R Hq C. rewrite (submitBooking_checked s equipment user G W Hq).
  cbn zeta.
  destruct (existsb _ _) eqn:Hex; [by apply isBooked_conflicting in Hex |].
  rewrite decide_True by done. by rewrite commit_cases.
Qed.

(** An approved candidate with an instant that no [Timestamp] holds: the
    conversion throws after the query, before anything is created. *)
Lemma submitBooking_unstorable s equipment user :
  mayBook (app s) equipment user → wellTimed s → ¬ storable s →
  backend (world s) (calls (world s)) = None →
  ¬ candidateConflicts s equipment →
  submitBooking newDate s
  = (Failed (conversionError s),
     {| app := app s;
        world := accepted (bookedFor equipment) (firestore (world s))
                   (tick (world s)) |}).
Proof.
  intros G W R Hq C. rewrite (submitBooking_checked s equipment user G W Hq).
  cbn zeta.
  destruct (existsb _ _) eqn:Hex; [by apply isBooked_conflicting in Hex |].
  by rewrite decide_False by done.
Qed.

(** *** The claims about [submitBooking] *)

(** C1.  Sequential submissions keep the shared collection free of double
    bookings: if no two distinct [booked] documents for an equipment
    overlap before, none do after any number of [submitBooking] runs by
    any clients, each run finishing before the next begins. *)
Theorem sequential_submissions_never_double_book
    (eq : string) (clients : list AppState) (w : World) :
  noDoubleBooking eq (firestore w) →
  noDoubleBooking eq (firestore (submissions newDate clients w)).
Proof.
  revert w. induction clients as [| a clients IH]; intros w Inv; [done |].
  cbn. apply IH. by apply submitAs_noDoubleBooking.
Qed.

(** C10.  Without an authenticated user ([userId] is [null]) or without the
    store handle, [submitBooking] and [cancelBooking] return at once and
    leave the whole client as it was: no call to the store is issued, no
    message is set, and the collections, the log and every view are
    unchanged. *)
Theorem silent_without_user_or_store (s : St) :
  userId (app s) = None ∨ db (app s) = None →
  submitBooking newDate s = (Fulfilled tt, s)
  ∧ cancelBooking s = (Fulfilled tt, s).
Proof.
  intros H. split.
  - apply submitBooking_guard. destruct H as [H | H]; [| by auto].
    right; right. by rewrite H.
  - apply cancelBooking_guard. destruct H as [H | H]; [| by auto].
    right; right. by rewrite H.
Qed.

(** C3.  A candidate whose end is not after its start, or whose start is
    before the reading of the clock taken by the check, is refused before
    anything is sent to the store: the handler returns normally, the
    collections are unchanged, the log gains no event (neither the conflict
    query nor a create is issued) and no call is counted; when the guard of
    the handler lets it through, the validation message of the failing test
    is displayed. *)
Theorem validation_aborts_before_the_store (s : St) :
  formEnd (app s) ≤ formStart (app s)
  ∨ formStart (app s) < firstReading (world s) →
  let r := submitBooking newDate s in
  r.1 = Fulfilled tt
  ∧ firestore (world r.2) = firestore (world s)
  ∧ log (world r.2) = log (world s)
  ∧ calls (world r.2) = calls (world s)
  ∧ ∀ equipment user,
      mayBook (app s) equipment user →
      message (app r.2)
      = if bool_decide (formEnd (app s) ≤ formStart (app s))
        then "End time must be after start time."
        else "Booking start time cannot be in the past.".
Proof.
  intros Hbad. cbn zeta.
  destruct (selectedEquipment (app s)) as [equipment|] eqn:Hsel;
    [| rewrite submitBooking_guard by auto; repeat split;
       intros ?? (? & _); congruence].
  destruct (db (app s)) as [h|] eqn:Hdb;
    [| rewrite submitBooking_guard by auto; repeat split;
       intros ?? (_ & [? ?] & _); congruence].
  destruct (truthy_opt (userId (app s))) eqn:Hu;
    [| rewrite submitBooking_guard by auto; repeat split;
       intros ?? (_ & _ & Hu1 & Hu2); rewrite Hu1 in Hu; cbn in Hu; congruence].
  destruct (userId (app s)) as [user|] eqn:Hu'; [| done].
  assert (G : mayBook (app s) equipment user) by (by repeat split; eauto).
  case_bool_decide as Hle.
  - erewrite submitBooking_nonpositive by done. by repeat split.
  - erewrite submitBooking_past; [by repeat split | done | lia | lia].
Qed.

(** C2.  The conflict check looks at exactly the documents of the shared
    collection that are [booked] and for the candidate's equipment, and it
    refuses the candidate (conflict message, nothing written) if and only
    if one of them satisfies [start < existing.end] and
    [end > existing.start]; otherwise it goes on to the private create.  A
    candidate that only touches the booked intervals of its equipment is
    approved.  The candidate is one whose two instants a [Timestamp] can
    hold ([storable]); on any other the handler fails once the check has
    approved, see [submitBooking_unstorable]. *)
Theorem conflict_check_is_half_open_overlap
    (s : St) (equipment : Equipment.t) (user : string) :
  mayBook (app s) equipment user → wellTimed s → storable s →
  backend (world s) (calls (world s)) = None →
  let r := submitBooking newDate s in
  let q := bookedFor equipment in
  let refused :=
    message (app r.2) = "This equipment is already booked for this time slot."
    ∧ emitted (world s) (world r.2) = [Issued q; Acked q]
    ∧ firestore (world r.2) = firestore (world s) in
  let approved :=
    Issued (AddBookingDoc (UserBookings user)
              (bookingDataOf (app s) equipment user (secondReading (world s))))
    ∈ emitted (world s) (world r.2) in
  (∀ id d,
     (id, d) ∈ queryDocs PublicBookings
                 [WhereEquipmentId (Equipment.id equipment); WhereStatus booked]
                 (firestore (world s))
     ↔ publicBookings (firestore (world s)) !! id = Some d
       ∧ Booking.equipmentId d = Equipment.id equipment
       ∧ Booking.status d = booked)
  ∧ (candidateConflicts s equipment ↔ refused)
  ∧ (¬ candidateConflicts s equipment ↔ approved)
  ∧ ((∀ id d,
        publicBookings (firestore (world s)) !! id = Some d →
        Booking.equipmentId d = Equipment.id equipment →
        Booking.status d = booked →
        formStart (app s) = Booking.endDate d
        ∨ formEnd (app s) = Booking.startDate d) →
     approved).
Proof.
  intros G W R Hq. cbn zeta.
  split; [intros; apply bookedFor_docs |].
  assert (Href : candidateConflicts s equipment →
                 message (app (submitBooking newDate s).2)
                 = "This equipment is already booked for this time slot."
                 ∧ emitted (world s) (world (submitBooking newDate s).2)
                   = [Issued (bookedFor equipment); Acked (bookedFor equipment)]
                 ∧ firestore (world (submitBooking newDate s).2)
                   = firestore (world s)).
  { intros C. rewrite (submitBooking_refused s equipment user G W Hq C).
    repeat split. by apply emitted_app. }
  assert (Happ : ¬ candidateConflicts s equipment →
                 Issued (AddBookingDoc (UserBookings user)
                           (bookingDataOf (app s) equipment user
                              (secondReading (world s))))
                 ∈ emitted (world s) (world (submitBooking newDate s).2)).
  { intros C. rewrite (submitBooking_approved s equipment user G W R Hq C).
    cbn zeta.
    destruct (backend (world s) (S (calls (world s))));
      [| destruct (backend (world s) (S (S (calls (world s)))))];
      cbn [snd world];
      (erewrite emitted_app;
       [| cbn [rejected accepted tick log]; rewrite <- !app_assoc; reflexivity]);
      cbn; in_list. }
  assert (Hexcl : candidateConflicts s equipment →
                  ¬ Issued (AddBookingDoc (UserBookings user)
                              (bookingDataOf (app s) equipment user
                                 (secondReading (world s))))
                    ∈ emitted (world s) (world (submitBooking newDate s).2)).
  { intros C Hin. destruct (Href C) as (_ & E & _). rewrite E in Hin.
    not_in_list Hin. }
  destruct (candidateConflicts_dec s equipment) as [C | C].
  - split; [propositional |]. split; [split; [propositional | intros; exfalso; by eapply Hexcl] |].
    intros Htouch. destruct C as (id & d & Hd & He & Hs & H1 & H2).
    destruct (Htouch id d Hd He Hs); lia.
  - split; [| split; [propositional | auto]].
    split; [propositional |]. intros (_ & E & _). apply Happ in C. rewrite E in C.
    not_in_list C.
Qed.

(** C4.  When the check approves a candidate whose two instants a
    [Timestamp] can hold, [submitBooking] builds one payload
    (the equipment's id and name, the user's id and display name, the
    interval of the form, [status = booked], [bookedAt] the clock reading
    taken after the check, no [cancelledAt]) and creates it twice, each
    time under an id that was not in use: first in the user's private
    collection, and only once that create is acknowledged in the shared
    collection.  With both accepted these six events are all the handler
    emits and the two new documents are all that changes; if the private
    create is rejected the public one is never issued. *)
Theorem approved_booking_is_written_twice
    (s : St) (item : Equipment.t) (user : string) :
  mayBook (app s) item user → wellTimed s → storable s →
  backend (world s) (calls (world s)) = None →
  ¬ candidateConflicts s item →
  let w := world s in
  let r := submitBooking newDate s in
  let fs' := firestore (world r.2) in
  let data := bookingDataOf (app s) item user (secondReading w) in
  let q := bookedFor item in
  let priv := AddBookingDoc (UserBookings user) data in
  let pub := AddBookingDoc PublicBookings data in
  let mine := bookingsAt (UserBookings user) (firestore w) in
  let shared := publicBookings (firestore w) in
  data = {| Booking.equipmentId := Equipment.id item;
            Booking.equipmentName := Equipment.name (Equipment.fields item);
            Booking.userId := user;
            Booking.userDisplayName := userDisplayName (app s);
            Booking.startDate := formStart (app s);
            Booking.endDate := formEnd (app s);
            Booking.status := booked;
            Booking.bookedAt := secondReading w;
            Booking.cancelledAt := None |}
  ∧ mine !! fresh (dom mine) = None
  ∧ shared !! fresh (dom shared) = None
  ∧ match backend w (S (calls w)), backend w (S (S (calls w))) with
    | None, None =>
        r.1 = Fulfilled tt
        ∧ emitted w (world r.2)
          = [Issued q; Acked q; Issued priv; Acked priv; Issued pub; Acked pub]
        ∧ bookingsAt (UserBookings user) fs' = <[fresh (dom mine) := data]> mine
        ∧ publicBookings fs' = <[fresh (dom shared) := data]> shared
        ∧ equipment fs' = equipment (firestore w)
        ∧ ∀ other, other ≠ user →
            bookingsAt (UserBookings other) fs'
            = bookingsAt (UserBookings other) (firestore w)
    | None, Some e =>
        r.1 = Failed e
        ∧ emitted w (world r.2)
          = [Issued q; Acked q; Issued priv; Acked priv; Issued pub;
             Rejected pub e]
        ∧ bookingsAt (UserBookings user) fs' = <[fresh (dom mine) := data]> mine
        ∧ publicBookings fs' = shared
    | Some e, _ =>
        r.1 = Failed e
        ∧ emitted w (world r.2) = [Issued q; Acked q; Issued priv; Rejected priv e]
        ∧ fs' = firestore w
    end.
Proof.
  intros G W R Hq C. cbn zeta.
  split; [done |]. split; [apply created_fresh |]. split; [apply created_fresh |].
  rewrite (submitBooking_approved s item user G W R Hq C). cbn zeta.
  destruct (backend (world s) (S (calls (world s)))) as [e1|];
    [| destruct (backend (world s) (S (S (calls (world s))))) as [e2|]];
    cbn [fst snd world app].
  - split; [done |]. split; [| done].
    apply emitted_app. cbn [rejected accepted tick log].
    by rewrite <- !app_assoc.
  - split; [done |]. split; [| split].
    + apply emitted_app. cbn [rejected accepted tick log].
      by rewrite <- !app_assoc.
    + cbn [rejected accepted firestore]. apply bookingsAt_set_eq.
    + done.
  - split; [done |]. split; [| split; [| split; [| split]]].
    + apply emitted_app. cbn [rejected accepted tick log].
      by rewrite <- !app_assoc.
    + cbn [rejected accepted firestore].
      rewrite bookingsAt_set_ne by done. apply bookingsAt_set_eq.
    + done.
    + done.
    + intros other Hne. cbn [rejected accepted firestore].
      rewrite !bookingsAt_set_ne; [done | congruence | done].
Qed.

(** *** Relations that every handler respects *)

Section Respects.

Context (R : relation St) `{!PreOrder R}.

Lemma respects_mret {A} (a : A) : respects R (mret a).
Proof. intros s. done. Qed.

Lemma respects_bind {A B} (m : Async A) (k : A → Async B) :
  respects R m → (∀ a, respects R (k a)) → respects R (m ≫= k).
Proof.
  intros Hm Hk s. unfold mbind, Async_bind.
  specialize (Hm s). destruct (m s) as [[a | e] s1]; cbn in *; [| done].
  by etrans; [| apply Hk].
Qed.

Lemma respects_throwing {A} (r : Result A) : respects R (throwing r).
Proof. intros s. done. Qed.

Lemma respects_rendered : respects R rendered.
Proof. intros s. done. Qed.

Lemma respects_delivered : respects R delivered.
Proof. intros s. done. Qed.

Lemma respects_snapshotDocs p filters : respects R (snapshotDocs p filters).
Proof. intros s. done. Qed.

Lemma respects_detached (m : Async unit) : respects R m → respects R (detached m).
Proof. intros Hm s. apply Hm. Qed.

Lemma respects_tryCatch {A} (body : Async A) (handler : string → Async A) :
  respects R body → (∀ e, respects R (handler e)) →
  respects R (tryCatch body handler).
Proof.
  intros Hb Hh s. unfold tryCatch.
  specialize (Hb s). destruct (body s) as [[a | e] s1]; cbn in *; [done |].
  by etrans; [| apply Hh].
Qed.

Lemma respects_forEach {A} (l : list A) (f : A → Async unit) :
  (∀ x, respects R (f x)) → respects R (forEach l f).
Proof.
  intros Hf. induction l as [| x l IH]; cbn [forEach].
  - apply respects_mret.
  - by apply respects_bind.
Qed.

End Respects.

(** Decompose a handler into its primitive steps; the lemmas for the
    primitives of each relation are hints of [respects_prim]. *)
Create HintDb respects_prim discriminated.

Ltac respects_step :=
  lazymatch goal with
  | |- PreOrder _ => apply _
  | |- respects _ (mret _) => apply respects_mret
  | |- respects _ rendered => apply respects_rendered
  | |- respects _ (throwing _) => apply respects_throwing
  | |- respects _ delivered => apply respects_delivered
  | |- respects _ (snapshotDocs _ _) => apply respects_snapshotDocs
  | |- respects _ (mbind _ _) => apply respects_bind
  | |- respects _ (tryCatch _ _) => apply respects_tryCatch
  | |- respects _ (detached _) => apply respects_detached
  | |- respects _ (forEach _ _) => apply respects_forEach
  | |- ∀ _, _ => intros ?
  | |- _ => first [solve [auto 1 with respects_prim nocore] | case_match]
  end.

Ltac respects_steps := repeat respects_step.

(** **** Cancelled documents stay cancelled *)

#[local] Instance cancelledStays_preorder : PreOrder cancelledStays.
Proof.
  split.
  - intros fs p id d ? ?. eauto.
  - intros fs1 fs2 fs3 H12 H23 p id d Hd Hs.
    destruct (H12 p id d Hd Hs) as (d' & Hd' & Hs'). eauto.
Qed.

#[local] Instance keepsCancelled_preorder : PreOrder keepsCancelled.
Proof.
  split.
  - intros s. unfold keepsCancelled. reflexivity.
  - intros s1 s2 s3. unfold keepsCancelled. apply transitivity.
Qed.

Lemma applyCall_cancelledStays c fs fs' :
  applyCall c fs = Some fs' → cancelledStays fs fs'.
Proof.
  intros Hc q id d Hd Hs.
  destruct c as [p filters | p d0 | p id0 stamp | d0 | id0 patch | id0];
    cbn in Hc.
  - simplify_eq. eauto.
  - simplify_eq. destruct (decide (p = q)) as [<- | Hne].
    + rewrite bookingsAt_set_eq. exists d. split; [| done].
      by apply created_old.
    + rewrite bookingsAt_set_ne by done. eauto.
  - destruct (bookingsAt p fs !! id0) as [d1 |] eqn:H1; simplify_eq.
    destruct (decide (p = q)) as [<- | Hne].
    + rewrite bookingsAt_set_eq.
      destruct (decide (id0 = id)) as [<- | Hid].
      * rewrite lookup_insert_eq. eauto.
      * rewrite lookup_insert_ne by done. eauto.
    + rewrite bookingsAt_set_ne by done. eauto.
  - simplify_eq. destruct q; cbn; eauto.
  - destruct (equipment fs !! id0); simplify_eq. destruct q; cbn; eauto.
  - simplify_eq. destruct q; cbn; eauto.
Qed.

Lemma answer_cancelledStays c w :
  cancelledStays (firestore w) (firestore (answer c w).2).
Proof.
  unfold answer. destruct (backend w (calls w)); [reflexivity |].
  destruct (applyCall c (firestore w)) eqn:Hc; [| reflexivity].
  by apply (applyCall_cancelledStays c).
Qed.

Lemma request_keepsCancelled c : respects keepsCancelled (request c).
Proof.
  intros s. unfold request, keepsCancelled.
  pose proof (answer_cancelledStays c (world s)) as H.
  by destruct (answer c (world s)).
Qed.

Lemma setState_keepsCancelled f : respects keepsCancelled (setState f).
Proof. intros s. unfold keepsCancelled. reflexivity. Qed.

Lemma now_keepsCancelled : respects keepsCancelled now.
Proof. intros s. unfold keepsCancelled. reflexivity. Qed.

Lemma consoleError_keepsCancelled msg : respects keepsCancelled (consoleError msg).
Proof. intros s. unfold keepsCancelled. reflexivity. Qed.

#[local] Hint Resolve request_keepsCancelled setState_keepsCancelled
  now_keepsCancelled consoleError_keepsCancelled : respects_prim.

Lemma handler_keepsCancelled act :
  respects keepsCancelled (handler firebaseConfig newDate toISODate act).
Proof.
  destruct act; cbn [handler];
    unfold authStateChanged, handleKeyDown, handleClickOutside, toggleUserMenu,
      equipmentSnapshot, publicBookingsSnapshot, myBookingsSnapshot,
      handleBookingFormChange, openBookingModal, closeBookingModal,
      openCancelModal, closeCancelModal, submitBooking, cancelBooking,
      handleEquipmentFormChange, openAddEquipmentModal, closeAddEquipmentModal,
      addEquipment, openEditEquipmentModal, closeEditEquipmentModal,
      updateEquipment, openDeleteEquipmentModal, closeDeleteEquipmentModal,
      deleteEquipment, signInWithGoogle, handleSignOut,
      getDocs, addDoc, updateDoc;
    respects_steps.
Qed.

(** **** The administrator flag is never written *)

#[local] Instance sameAdmin_preorder : PreOrder sameAdmin.
Proof.
  split.
  - intros s. reflexivity.
  - intros s1 s2 s3 H12 H23. unfold sameAdmin in *. congruence.
Qed.

Lemma setState_sameAdmin f :
  (∀ a, isAdmin (f a) = isAdmin a) → respects sameAdmin (setState f).
Proof. intros Hf s. apply Hf. Qed.

Lemma request_sameAdmin c : respects sameAdmin (request c).
Proof. intros s. unfold request, sameAdmin. by destruct (answer c (world s)). Qed.

Lemma now_sameAdmin : respects sameAdmin now.
Proof. intros s. reflexivity. Qed.

Lemma consoleError_sameAdmin msg : respects sameAdmin (consoleError msg).
Proof. intros s. reflexivity. Qed.

#[local] Hint Resolve request_sameAdmin now_sameAdmin consoleError_sameAdmin
  : respects_prim.
#[local] Hint Extern 1 (respects sameAdmin (setState _)) =>
  apply setState_sameAdmin; intros ?; reflexivity : respects_prim.

Lemma handler_sameAdmin act :
  respects sameAdmin (handler firebaseConfig newDate toISODate act).
Proof.
  destruct act; cbn [handler];
    unfold authStateChanged, handleKeyDown, handleClickOutside, toggleUserMenu,
      equipmentSnapshot, publicBookingsSnapshot, myBookingsSnapshot,
      handleBookingFormChange, openBookingModal, closeBookingModal,
      openCancelModal, closeCancelModal, submitBooking, cancelBooking,
      handleEquipmentFormChange, openAddEquipmentModal, closeAddEquipmentModal,
      addEquipment, openEditEquipmentModal, closeEditEquipmentModal,
      updateEquipment, openDeleteEquipmentModal, closeDeleteEquipmentModal,
      deleteEquipment, signInWithGoogle, handleSignOut,
      getDocs, addDoc, updateDoc;
    respects_steps.
Qed.

Lemma startup_sameAdmin : respects sameAdmin (startup firebaseConfig).
Proof. unfold startup. respects_steps. Qed.

Lemma run_cons act acts s :
  run firebaseConfig newDate toISODate (act :: acts) s
  = run firebaseConfig newDate toISODate acts
      (step firebaseConfig newDate toISODate s act).
Proof. done. Qed.

Lemma run_isAdmin acts s :
  isAdmin (app (run firebaseConfig newDate toISODate acts s)) = isAdmin (app s).
Proof.
  revert s. induction acts as [| act acts IH]; intros s; [done |].
  rewrite run_cons, IH. apply handler_sameAdmin.
Qed.

Lemma reachable_isAdmin s :
  reachable firebaseConfig newDate toISODate s → isAdmin (app s) = true.
Proof.
  intros (w & acts & ->). rewrite run_isAdmin. unfold mount.
  by rewrite startup_sameAdmin.
Qed.

(** *** [cancelBooking] *)

Lemma forEach_cons {A} (x : A) l (f : A → Async unit) s :
  forEach (x :: l) f s
  = match f x s with
    | (Fulfilled _, s') => forEach l f s'
    | (Failed e, s') => (Failed e, s')
    end.
Proof. done. Qed.

Lemma detached_update id a w :
  detached (stamp ← now; updateDoc PublicBookings id stamp)
    {| app := a; world := w |}
  = (Fulfilled tt,
     {| app := a;
        world := (answer (UpdateBookingDoc PublicBookings id (clock w (reads w)))
                    (tick w)).2 |}).
Proof.
  unfold detached, mbind, Async_bind, now, updateDoc, request.
  cbn [world app fst snd]. by destruct (answer _ _) as [[[] | e] w1].
Qed.

Lemma forEach_detached_updates docs a w :
  forEach docs
    (λ d : string * Booking.data,
       detached (stamp ← now; updateDoc PublicBookings d.1 stamp))
    {| app := a; world := w |}
  = (Fulfilled tt, {| app := a; world := cancelEach docs.*1 w |}).
Proof.
  revert w. induction docs as [| [id d] docs IH]; intros w; [done |].
  rewrite forEach_cons. cbn [fst]. rewrite detached_update, IH. done.
Qed.

Lemma cancelBooking_run s booking user :
  mayCancel (app s) booking user →
  backend (world s) (calls (world s)) = None →
  let q := copiesOf booking user in
  let fs := firestore (world s) in
  let ids :=
    (queryDocs PublicBookings
       [WhereEquipmentId (Booking.equipmentId (Booking.fields booking));
        WhereUserId user;
        WhereBookedAt (Booking.bookedAt (Booking.fields booking))] fs).*1 in
  let w1 := cancelEach ids (accepted q fs (world s)) in
  cancelBooking s
  = match answer (UpdateBookingDoc (UserBookings user) (Booking.id booking)
                    (clock w1 (reads w1)))
            (tick w1) with
    | (Fulfilled _, w2) =>
        (Fulfilled tt,
         {| app := setMessage "" (setShowCancelModal false (app s));
            world := w2 |})
    | (Failed e, w2) => (Failed e, {| app := app s; world := w2 |})
    end.
Proof.
  intros G Hq. cbn zeta. enter_handler G.
  unfold getDocs, mbind, Async_bind. unfold request at 1, answer at 1.
  rewrite Hq. cbn [applyCall].
  unfold snapshotDocs. cbn [world app accepted firestore].
  match goal with
  | |- context [forEach ?docs _ {| app := ?a; world := ?w |}] =>
      pose proof (forEach_detached_updates docs a w) as HF
  end.
  unfold mbind, Async_bind in HF. rewrite HF. clear HF.
  unfold now, updateDoc, request, closeCancelModal, setState, mbind, Async_bind.
  cbn [world app]. unfold copiesOf.
  by destruct (answer _ _) as [[[] | e] w2].
Qed.

Lemma cancel_cancel t1 t2 d :
  Booking.cancel t2 (Booking.cancel t1 d) = Booking.cancel t2 d.
Proof. done. Qed.

Lemma cancel_readsCancelled t d : readsCancelled (Booking.cancel t d).
Proof. split; [done | by eexists]. Qed.

(** One update of a public document: which parts of the world it leaves
    alone, and what it does to the shared collection when accepted. *)
Lemma update_public_frame id t w :
  let w' := (answer (UpdateBookingDoc PublicBookings id t) w).2 in
  backend w' = backend w
  ∧ userBookings (firestore w') = userBookings (firestore w)
  ∧ equipment (firestore w') = equipment (firestore w).
Proof.
  cbn zeta. unfold answer. destruct (backend w (calls w)); [done |].
  cbn [applyCall bookingsAt].
  by destruct (publicBookings (firestore w) !! id).
Qed.

Lemma update_public_accepted id t w :
  backend w (calls w) = None →
  publicBookings (firestore (answer (UpdateBookingDoc PublicBookings id t) w).2)
  = match publicBookings (firestore w) !! id with
    | Some d => <[id := Booking.cancel t d]> (publicBookings (firestore w))
    | None => publicBookings (firestore w)
    end.
Proof.
  intros Hb. unfold answer. rewrite Hb. cbn [applyCall bookingsAt].
  by destruct (publicBookings (firestore w) !! id).
Qed.

Lemma cancelEach_cons id ids w :
  cancelEach (id :: ids) w
  = cancelEach ids
      (answer (UpdateBookingDoc PublicBookings id (clock w (reads w))) (tick w)).2.
Proof. done. Qed.

Lemma cancelEach_frame ids w :
  backend (cancelEach ids w) = backend w
  ∧ userBookings (firestore (cancelEach ids w)) = userBookings (firestore w)
  ∧ equipment (firestore (cancelEach ids w)) = equipment (firestore w).
Proof.
  revert w. induction ids as [| id ids IH]; intros w; [done |].
  rewrite cancelEach_cons.
  destruct (IH (answer (UpdateBookingDoc PublicBookings id (clock w (reads w)))
                  (tick w)).2) as (-> & -> & ->).
  apply (update_public_frame id (clock w (reads w)) (tick w)).
Qed.

Lemma cancelEach_accepting ids w : accepting w → accepting (cancelEach ids w).
Proof.
  intros A n. destruct (cancelEach_frame ids w) as (-> & _). apply A.
Qed.

(** With an accepting backend the updates cancel exactly the documents
    named in [ids] and leave the others as they were. *)
Lemma cancelEach_public ids w j :
  accepting w →
  match publicBookings (firestore w) !! j with
  | Some d =>
      if decide (j ∈ ids)
      then ∃ t, publicBookings (firestore (cancelEach ids w)) !! j
                = Some (Booking.cancel t d)
      else publicBookings (firestore (cancelEach ids w)) !! j = Some d
  | None => publicBookings (firestore (cancelEach ids w)) !! j = None
  end.
Proof.
  revert w. induction ids as [| id ids IH]; intros w A.
  { cbn. destruct (publicBookings (firestore w) !! j); [| done].
    rewrite decide_False; [done | apply not_elem_of_nil]. }
  rewrite cancelEach_cons.
  set (w1 := (answer _ (tick w)).2).
  assert (A1 : accepting w1).
  { intros n. unfold w1.
    destruct (update_public_frame id (clock w (reads w)) (tick w)) as (-> & _).
    apply A. }
  specialize (IH w1 A1).
  assert (E : publicBookings (firestore w1)
              = match publicBookings (firestore w) !! id with
                | Some d => <[id := Booking.cancel (clock w (reads w)) d]>
                              (publicBookings (firestore w))
                | None => publicBookings (firestore w)
                end).
  { unfold w1. rewrite update_public_accepted by apply A. done. }
  rewrite E in IH. clear E.
  destruct (decide (j = id)) as [-> | Hne].
  - destruct (publicBookings (firestore w) !! id) as [d |] eqn:Hd.
    + rewrite lookup_insert_eq in IH.
      rewrite decide_True by apply list_elem_of_here.
      destruct (decide (id ∈ ids)); [| by eauto].
      destruct IH as [t Ht]. exists t. by rewrite Ht, cancel_cancel.
    + by rewrite Hd in IH.
  - assert (L : (match publicBookings (firestore w) !! id with
                 | Some d => <[id := Booking.cancel (clock w (reads w)) d]>
                               (publicBookings (firestore w))
                 | None => publicBookings (firestore w)
                 end) !! j = publicBookings (firestore w) !! j).
    { destruct (publicBookings (firestore w) !! id); [| done].
      by rewrite lookup_insert_ne. }
    rewrite L in IH.
    destruct (publicBookings (firestore w) !! j); [| done].
    destruct (decide (j ∈ ids)) as [Hin | Hnin].
    + rewrite decide_True by by apply list_elem_of_further. done.
    + rewrite decide_False; [done |]. rewrite elem_of_cons. propositional.
Qed.

(** The documents the query of [cancelBooking] returns. *)
Lemma copiesOf_docs (booking : Booking.t) (user id : string) (fs : Firestore) :
  id ∈ (queryDocs PublicBookings
          [WhereEquipmentId (Booking.equipmentId (Booking.fields booking));
           WhereUserId user;
           WhereBookedAt (Booking.bookedAt (Booking.fields booking))] fs).*1
  ↔ ∃ d, publicBookings fs !! id = Some d
         ∧ Booking.equipmentId d = Booking.equipmentId (Booking.fields booking)
         ∧ Booking.userId d = user
         ∧ Booking.bookedAt d = Booking.bookedAt (Booking.fields booking).
Proof.
  rewrite list_elem_of_fmap. unfold queryDocs. cbn [bookingsAt]. split.
  - intros ([id' d] & -> & Hin). exists d.
    apply elem_of_map_to_list, map_lookup_filter_Some in Hin.
    destruct Hin as [Hd Hm]. cbn in Hm. unfold matches in Hm. cbn in Hm.
    rewrite !andb_true_iff, !bool_decide_eq_true in Hm. cbn. propositional.
  - intros (d & Hd & H1 & H2 & H3). exists (id, d). split; [done |].
    apply elem_of_map_to_list, map_lookup_filter_Some. split; [done |].
    cbn. unfold matches. cbn.
    rewrite !andb_true_iff, !bool_decide_eq_true. propositional.
Qed.

(** [cancelBooking] against an accepting backend, for a booking whose
    private copy exists. *)
Lemma cancelBooking_accepted s booking user d0 :
  mayCancel (app s) booking user →
  accepting (world s) →
  bookingsAt (UserBookings user) (firestore (world s)) !! Booking.id booking
  = Some d0 →
  let fs := firestore (world s) in
  let r := cancelBooking s in
  let fs' := firestore (world r.2) in
  r.1 = Fulfilled tt
  ∧ (∃ t, bookingsAt (UserBookings user) fs' !! Booking.id booking
          = Some (Booking.cancel t d0))
  ∧ ∀ id,
      match publicBookings fs !! id with
      | Some d =>
          if decide (Booking.equipmentId d
                       = Booking.equipmentId (Booking.fields booking)
                     ∧ Booking.userId d = user
                     ∧ Booking.bookedAt d
                       = Booking.bookedAt (Booking.fields booking))
          then ∃ t, publicBookings fs' !! id = Some (Booking.cancel t d)
          else publicBookings fs' !! id = Some d
      | None => publicBookings fs' !! id = None
      end.
Proof.
  intros G A Hd0. cbn zeta.
  rewrite (cancelBooking_run s booking user G (A _)). cbn zeta.
  set (ids := (queryDocs _ _ _).*1).
  set (w0 := accepted _ _ _).
  assert (A0 : accepting w0) by (intros n; apply A).
  set (w1 := cancelEach ids w0).
  assert (A1 : accepting w1) by by apply cancelEach_accepting.
  destruct (cancelEach_frame ids w0) as (_ & Hub & _). fold w1 in Hub.
  assert (Hmine : bookingsAt (UserBookings user) (firestore w1)
                  = bookingsAt (UserBookings user) (firestore (world s))).
  { cbn [bookingsAt]. by rewrite Hub. }
  unfold answer. cbn [tick backend calls firestore]. rewrite (A1 _).
  cbn [applyCall]. rewrite Hmine, Hd0. cbn [fst snd world app accepted firestore].
  split; [done |]. split.
  - eexists. rewrite bookingsAt_set_eq. apply lookup_insert_eq.
  - intros id. rewrite public_set_user.
    pose proof (cancelEach_public ids w0 id A0) as P. fold w1 in P.
    change (publicBookings (firestore w0))
      with (publicBookings (firestore (world s))) in P.
    destruct (publicBookings (firestore (world s)) !! id) as [d |] eqn:Hd;
      [| done].
    destruct (decide (id ∈ ids)) as [Hin | Hnin].
    + rewrite decide_True; [done |].
      apply copiesOf_docs in Hin as (d' & Hd' & ?). by simplify_eq.
    + rewrite decide_False; [done |]. intros (? & ? & ?). apply Hnin.
      apply copiesOf_docs. eauto.
Qed.

(** C5.  For a booking of the signed-in user whose private copy exists, and
    a backend that accepts the calls, [cancelBooking] returns normally and
    - the private copy, addressed by the booking's id, becomes a cancelled
      copy of itself: [status = cancelled] and a [cancelledAt];
    - every document of the shared collection with the booking's
      [(equipmentId, userId, bookedAt)] becomes a cancelled copy of itself,
      so with exactly one match both copies read back as cancelled;
    - every other document of the shared collection is untouched and none
      appears; with no match the shared collection is left as it was, and
      still no error is raised. *)
Theorem cancel_marks_both_copies
    (s : St) (booking : Booking.t) (user : string) (d0 : Booking.data) :
  mayCancel (app s) booking user →
  Booking.userId (Booking.fields booking) = user →
  accepting (world s) →
  bookingsAt (UserBookings user) (firestore (world s)) !! Booking.id booking
  = Some d0 →
  let fs := firestore (world s) in
  let r := cancelBooking s in
  let fs' := firestore (world r.2) in
  let key := correlationKey (Booking.fields booking) in
  r.1 = Fulfilled tt
  ∧ (∃ d', bookingsAt (UserBookings user) fs' !! Booking.id booking = Some d'
           ∧ cancelledCopyOf d0 d' ∧ readsCancelled d')
  ∧ (∀ id d,
       publicBookings fs !! id = Some d → correlationKey d = key →
       ∃ d', publicBookings fs' !! id = Some d'
             ∧ cancelledCopyOf d d' ∧ readsCancelled d')
  ∧ (∀ id d,
       publicBookings fs !! id = Some d → correlationKey d ≠ key →
       publicBookings fs' !! id = Some d)
  ∧ (∀ id, publicBookings fs !! id = None → publicBookings fs' !! id = None)
  ∧ ((∀ id d, publicBookings fs !! id = Some d → correlationKey d ≠ key) →
     publicBookings fs' = publicBookings fs).
Proof.
  intros G Hown A Hd0. cbn zeta.
  destruct (cancelBooking_accepted s booking user d0 G A Hd0)
    as (Hr & [t Hpriv] & Hpub).
  assert (Hkey : ∀ d,
            correlationKey d = correlationKey (Booking.fields booking)
            ↔ Booking.equipmentId d
              = Booking.equipmentId (Booking.fields booking)
              ∧ Booking.userId d = user
              ∧ Booking.bookedAt d = Booking.bookedAt (Booking.fields booking)).
  { intros d. unfold correlationKey. rewrite Hown. split.
    - intros E. by simplify_eq.
    - intros (-> & -> & ->). done. }
  assert (Hsame : ∀ id d,
            publicBookings (firestore (world s)) !! id = Some d →
            correlationKey d ≠ correlationKey (Booking.fields booking) →
            publicBookings (firestore (world (cancelBooking s).2)) !! id
            = Some d).
  { intros id d Hd Hk. specialize (Hpub id). rewrite Hd in Hpub.
    rewrite decide_False in Hpub; [done |]. by rewrite <- Hkey. }
  assert (Hnone : ∀ id,
            publicBookings (firestore (world s)) !! id = None →
            publicBookings (firestore (world (cancelBooking s).2)) !! id = None).
  { intros id Hd. specialize (Hpub id). by rewrite Hd in Hpub. }
  split; [done |]. split; [| split; [| split; [| split]]]; try done.
  - exists (Booking.cancel t d0).
    split; [done |]. split; [by exists t | apply cancel_readsCancelled].
  - intros id d Hd Hk. specialize (Hpub id). rewrite Hd in Hpub.
    rewrite decide_True in Hpub by by apply Hkey.
    destruct Hpub as [t' Ht']. exists (Booking.cancel t' d).
    split; [done |]. split; [by exists t' | apply cancel_readsCancelled].
  - intros Hzero. apply map_eq. intros id.
    destruct (publicBookings (firestore (world s)) !! id) as [d |] eqn:Hd.
    + apply Hsame; [done | by eapply Hzero].
    + by apply Hnone.
Qed.

(** C6.  Cancelling a booking whose copies are already cancelled, against a
    backend that accepts the calls, returns normally (nothing is thrown),
    leaves the private copy cancelled and leaves every cancelled document
    of the shared collection cancelled.  More generally no handler of the
    component, in any state, deletes a booking document that is cancelled
    or makes it [booked] again. *)
Theorem cancel_again_keeps_cancelled
    (s : St) (booking : Booking.t) (user : string) (d0 : Booking.data) :
  mayCancel (app s) booking user →
  accepting (world s) →
  bookingsAt (UserBookings user) (firestore (world s)) !! Booking.id booking
  = Some d0 →
  Booking.status d0 = cancelled →
  let fs := firestore (world s) in
  let r := cancelBooking s in
  let fs' := firestore (world r.2) in
  r.1 = Fulfilled tt
  ∧ (∃ d', bookingsAt (UserBookings user) fs' !! Booking.id booking = Some d'
           ∧ Booking.status d' = cancelled)
  ∧ (∀ id d,
       publicBookings fs !! id = Some d → Booking.status d = cancelled →
       ∃ d', publicBookings fs' !! id = Some d'
             ∧ Booking.status d' = cancelled)
  ∧ ∀ (act : Action) (s1 : St),
      cancelledStays (firestore (world s1))
        (firestore (world (step firebaseConfig newDate toISODate s1 act))).
Proof.
  intros G A Hd0 Hs0. cbn zeta.
  destruct (cancelBooking_accepted s booking user d0 G A Hd0)
    as (Hr & [t Hpriv] & _).
  split; [done |]. split; [by eauto |]. split.
  - intros id d Hd Hs.
    apply (handler_keepsCancelled CancelBooking s PublicBookings id d Hd Hs).
  - intros act s1. apply (handler_keepsCancelled act s1).
Qed.

(** *** Equipment *)

Lemma truthy_empty s : truthy s = false ↔ s = "".
Proof.
  unfold truthy. rewrite negb_false_iff. apply String.eqb_eq.
Qed.

Lemma answer_log c w :
  ∃ ev, log (answer c w).2 = log w ++ [Issued c; ev].
Proof.
  unfold answer. destruct (backend w (calls w)); [by eexists |].
  destruct (applyCall c (firestore w)); by eexists.
Qed.

(** [addEquipment] refuses an empty name or description before any call. *)
Lemma addEquipment_validates s :
  EquipmentForm.name (equipmentForm (app s)) = ""
  ∨ EquipmentForm.description (equipmentForm (app s)) = "" →
  addEquipment s
  = (Fulfilled tt,
     {| app := setMessage "Please fill out all fields." (app s);
        world := world s |}).
Proof.
  intros H. unfold addEquipment, mbind, Async_bind, rendered.
  assert (E : negb (truthy (EquipmentForm.name (equipmentForm (app s))))
              || negb (truthy (EquipmentForm.description (equipmentForm (app s))))
              = true).
  { destruct H as [H | H]; apply truthy_empty in H; rewrite H; cbn;
      by rewrite ?orb_true_r. }
  rewrite <- orb_assoc, E, orb_true_r. done.
Qed.

Lemma addEquipment_issues s :
  is_Some (db (app s)) → isAdmin (app s) = true →
  EquipmentForm.name (equipmentForm (app s)) ≠ "" →
  EquipmentForm.description (equipmentForm (app s)) ≠ "" →
  ∃ ev, log (world (addEquipment s).2)
        = log (world s) ++ [Issued (AddEquipmentDoc (newEquipment s)); ev].
Proof.
  intros [h Hdb] Hadm Hn Hd.
  unfold addEquipment, mbind, Async_bind, rendered.
  rewrite Hdb, Hadm.
  rewrite <- truthy_empty in Hn, Hd.
  apply not_false_is_true in Hn, Hd. rewrite Hn, Hd. cbn [negb orb bool_decide].
  rewrite bool_decide_true by by eexists. cbn [negb orb].
  unfold tryCatch, mbind, Async_bind, now, request, setState.
  cbn [world app]. fold (firstReading (world s)). fold (newEquipment s).
  destruct (answer_log (AddEquipmentDoc (newEquipment s)) (tick (world s)))
    as [ev Hev].
  exists ev. by destruct (answer _ _) as [[[] | e] w1].
Qed.

Lemma updateEquipment_issues s item :
  is_Some (db (app s)) → isAdmin (app s) = true →
  equipmentToEdit (app s) = Some item →
  ∃ ev, log (world (updateEquipment s).2)
        = log (world s)
          ++ [Issued (UpdateEquipmentDoc (Equipment.id item) (equipmentPatch s));
              ev].
Proof.
  intros [h Hdb] Hadm He.
  unfold updateEquipment, mbind, Async_bind, rendered.
  rewrite Hdb, Hadm, He.
  unfold tryCatch, mbind, Async_bind, now, request, closeEditEquipmentModal,
    setState.
  cbn [world app]. fold (firstReading (world s)). fold (equipmentPatch s).
  destruct (answer_log (UpdateEquipmentDoc (Equipment.id item) (equipmentPatch s))
              (tick (world s))) as [ev Hev].
  exists ev. by destruct (answer _ _) as [[[] | e] w1].
Qed.

Lemma deleteEquipment_issues s item :
  is_Some (db (app s)) → isAdmin (app s) = true →
  equipmentToDelete (app s) = Some item →
  ∃ ev, log (world (deleteEquipment s).2)
        = log (world s) ++ [Issued (DeleteEquipmentDoc (Equipment.id item)); ev].
Proof.
  intros [h Hdb] Hadm He.
  unfold deleteEquipment, mbind, Async_bind, rendered.
  rewrite Hdb, Hadm, He.
  unfold tryCatch, mbind, Async_bind, request, closeDeleteEquipmentModal,
    setState.
  cbn [world app].
  destruct (answer_log (DeleteEquipmentDoc (Equipment.id item)) (world s))
    as [ev Hev].
  exists ev. by destruct (answer _ _) as [[[] | e] w1].
Qed.

(** [updateEquipment] has no test on the form: whatever the name and the
    description are, the update is sent, and when it is accepted the
    document carries them and no message is shown. *)
Lemma updateEquipment_accepted s item d0 :
  is_Some (db (app s)) → isAdmin (app s) = true →
  equipmentToEdit (app s) = Some item →
  backend (world s) (calls (world s)) = None →
  equipment (firestore (world s)) !! Equipment.id item = Some d0 →
  let r := updateEquipment s in
  r.1 = Fulfilled tt
  ∧ message (app r.2) = ""
  ∧ equipment (firestore (world r.2)) !! Equipment.id item
    = Some (patchEquipment (equipmentPatch s) d0)
  ∧ emitted (world s) (world r.2)
    = [Issued (UpdateEquipmentDoc (Equipment.id item) (equipmentPatch s));
       Acked (UpdateEquipmentDoc (Equipment.id item) (equipmentPatch s))].
Proof.
  intros [h Hdb] Hadm He Hb Hd0. cbn zeta.
  unfold updateEquipment, mbind, Async_bind, rendered.
  rewrite Hdb, Hadm, He.
  unfold tryCatch, mbind, Async_bind, now, request, closeEditEquipmentModal,
    setState, answer.
  cbn [world app tick backend calls firestore]. rewrite Hb.
  cbn [applyCall]. rewrite Hd0.
  fold (firstReading (world s)). fold (equipmentPatch s).
  cbn [fst snd world app accepted firestore setEquipment equipment].
  split; [done |]. split; [done |]. split; [apply lookup_insert_eq |].
  by apply emitted_app.
Qed.

Lemma addEquipment_accepted s :
  is_Some (db (app s)) → isAdmin (app s) = true →
  EquipmentForm.name (equipmentForm (app s)) ≠ "" →
  EquipmentForm.description (equipmentForm (app s)) ≠ "" →
  backend (world s) (calls (world s)) = None →
  let r := addEquipment s in
  let docs := equipment (firestore (world s)) in
  r.1 = Fulfilled tt
  ∧ equipment (firestore (world r.2)) = <[fresh (dom docs) := newEquipment s]> docs
  ∧ docs !! fresh (dom docs) = None.
Proof.
  intros [h Hdb] Hadm Hn Hd Hb. cbn zeta.
  unfold addEquipment, mbind, Async_bind, rendered.
  rewrite Hdb, Hadm.
  rewrite <- truthy_empty in Hn, Hd.
  apply not_false_is_true in Hn, Hd. rewrite Hn, Hd. cbn [negb orb bool_decide].
  rewrite bool_decide_true by by eexists. cbn [negb orb].
  unfold tryCatch, mbind, Async_bind, now, request, setState, answer.
  cbn [world app tick backend calls firestore]. rewrite Hb.
  cbn [applyCall fst snd world app accepted firestore setEquipment equipment].
  split; [done |]. split; [done |]. apply not_elem_of_dom, is_fresh.
Qed.

(** *** The equipment forms *)

Lemma submitForm_invalid name description ids onSubmit s :
  name = "" ∨ description = "" →
  ∃ control,
    submitForm [(ids.1, name); (ids.2, description)] onSubmit s
    = (Invalid control, s).
Proof.
  intros H. unfold submitForm. cbn [List.find snd fst].
  destruct (String.eqb_spec name "") as [-> | Hn]; [by eexists |].
  destruct (String.eqb_spec description "") as [-> | Hd]; [by eexists |].
  by destruct H.
Qed.

Lemma submitForm_valid name description ids onSubmit s :
  name ≠ "" → description ≠ "" →
  submitForm [(ids.1, name); (ids.2, description)] onSubmit s
  = (Handled (onSubmit s).1, (onSubmit s).2).
Proof.
  intros Hn Hd. unfold submitForm. cbn [List.find snd fst].
  destruct (String.eqb_spec name ""); [done |].
  destruct (String.eqb_spec description ""); [done |].
  by destruct (onSubmit s).
Qed.

(** C7.  For equipment create and equipment update alike, an empty name
    or an empty description is a validation error: submitting the form of
    the dialog shows a message (the browser's, at the [required] control
    that is empty), the handler does not run and the client - the
    collections, the log, the component state - is exactly what it was;
    [addEquipment] moreover makes the test itself and answers "Please fill
    out all fields." without a write, while [updateEquipment] has no test
    of its own and depends on the form for it.  With both fields non-empty
    (guard passed, call accepted), create stores a new document with the
    name, the description and [createdAt], and update rewrites the name
    and the description of the edited document and sets [updatedAt]. *)
Theorem equipment_forms_refuse_empty_fields (s : St) :
  let name := EquipmentForm.name (equipmentForm (app s)) in
  let description := EquipmentForm.description (equipmentForm (app s)) in
  let docs := equipment (firestore (world s)) in
  (name = "" ∨ description = "" →
   (∃ control, addEquipmentForm s = (Invalid control, s))
   ∧ (∃ control, editEquipmentForm s = (Invalid control, s))
   ∧ addEquipment s
     = (Fulfilled tt,
        {| app := setMessage "Please fill out all fields." (app s);
           world := world s |}))
  ∧ (name ≠ "" → description ≠ "" →
     is_Some (db (app s)) → isAdmin (app s) = true →
     backend (world s) (calls (world s)) = None →
     ((addEquipmentForm s).1 = Handled (Fulfilled tt)
      ∧ docs !! fresh (dom docs) = None
      ∧ equipment (firestore (world (addEquipmentForm s).2))
        = <[fresh (dom docs)
            := {| Equipment.name := name;
                  Equipment.description := description;
                  Equipment.createdAt := Some (firstReading (world s));
                  Equipment.updatedAt := None |}]> docs)
     ∧ (∀ item d0,
          equipmentToEdit (app s) = Some item →
          docs !! Equipment.id item = Some d0 →
          (editEquipmentForm s).1 = Handled (Fulfilled tt)
          ∧ equipment (firestore (world (editEquipmentForm s).2))
              !! Equipment.id item
            = Some {| Equipment.name := name;
                      Equipment.description := description;
                      Equipment.createdAt := Equipment.createdAt d0;
                      Equipment.updatedAt := Some (firstReading (world s)) |})).
Proof.
  cbn zeta. split.
  - intros H. split; [| split].
    + apply (submitForm_invalid _ _ ("newName", "newDescription")), H.
    + apply (submitForm_invalid _ _ ("editName", "editDescription")), H.
    + by apply addEquipment_validates.
  - intros Hn Hd Hdb Hadm Hb. split.
    + unfold addEquipmentForm.
      rewrite (submitForm_valid _ _ ("newName", "newDescription")) by done.
      cbn [fst snd].
      destruct (addEquipment_accepted s Hdb Hadm Hn Hd Hb) as (Hr & E & Hf).
      rewrite Hr. done.
    + intros item d0 He Hd0. unfold editEquipmentForm.
      rewrite (submitForm_valid _ _ ("editName", "editDescription")) by done.
      cbn [fst snd].
      destruct (updateEquipment_accepted s item d0 Hdb Hadm He Hb Hd0)
        as (Hr & _ & E & _).
      rewrite Hr. done.
Qed.

(** *** A component without configuration *)



(** *** The claims about the administrator flag and about start-up *)

(** C8.  [isAdmin] starts [true] and no handler writes it, so in every
    state the component can reach the flag is [true], it is still [true]
    after any further action, and the tests on it in [addEquipment],
    [updateEquipment], [deleteEquipment] and the keyboard shortcut never
    stop these operations: whenever their other conditions hold, the store
    call is issued and the shortcut toggles the panel.  The dashboard with
    the calendar is always shown, and the equipment panel and the equipment
    dialogs are shown exactly when their own switch is on. *)
Theorem isAdmin_is_true_in_every_reachable_state (s : St) :
  reachable firebaseConfig newDate toISODate s →
  isAdmin initialState = true
  ∧ isAdmin (app s) = true
  ∧ (∀ act,
       isAdmin (app (step firebaseConfig newDate toISODate s act)) = true)
  ∧ (is_Some (db (app s)) →
     EquipmentForm.name (equipmentForm (app s)) ≠ "" →
     EquipmentForm.description (equipmentForm (app s)) ≠ "" →
     ∃ ev, log (world (addEquipment s).2)
           = log (world s) ++ [Issued (AddEquipmentDoc (newEquipment s)); ev])
  ∧ (∀ item,
       is_Some (db (app s)) → equipmentToEdit (app s) = Some item →
       ∃ ev, log (world (updateEquipment s).2)
             = log (world s)
               ++ [Issued (UpdateEquipmentDoc (Equipment.id item)
                             (equipmentPatch s)); ev])
  ∧ (∀ item,
       is_Some (db (app s)) → equipmentToDelete (app s) = Some item →
       ∃ ev, log (world (deleteEquipment s).2)
             = log (world s)
               ++ [Issued (DeleteEquipmentDoc (Equipment.id item)); ev])
  ∧ (∀ key,
       key = "a" ∨ key = "A" →
       showAdminPanel (app (handleKeyDown true true key s).2)
       = negb (showAdminPanel (app s)))
  ∧ (isAuthReady (app s) = true →
     renders (app s) Dashboard = true
     ∧ renders (app s) ManageEquipment = showAdminPanel (app s)
     ∧ renders (app s) AddEquipmentDialog = showAddEquipmentModal (app s)
     ∧ renders (app s) EditEquipmentDialog = showEditEquipmentModal (app s)
     ∧ renders (app s) DeleteEquipmentDialog
       = showDeleteEquipmentModal (app s)).
Proof.
  intros Hreach. pose proof (reachable_isAdmin s Hreach) as Hadm.
  split; [done |]. split; [done |].
  split; [| split; [| split; [| split; [| split]]]].
  - intros act. unfold step. by rewrite handler_sameAdmin.
  - intros. by apply addEquipment_issues.
  - intros. by apply updateEquipment_issues.
  - intros. by apply deleteEquipment_issues.
  - intros key Hkey. unfold handleKeyDown, mbind, Async_bind, rendered.
    rewrite Hadm. by destruct Hkey as [-> | ->].
  - intros Hready. unfold renders. by rewrite Hready, Hadm.
Qed.


(** *** The rest of the component *)

Ltac unfold_handlers :=
  unfold authStateChanged, handleKeyDown, handleClickOutside, toggleUserMenu,
    equipmentSnapshot, publicBookingsSnapshot, myBookingsSnapshot,
    handleBookingFormChange, openBookingModal, closeBookingModal,
    openCancelModal, closeCancelModal, submitBooking, cancelBooking,
    handleEquipmentFormChange, openAddEquipmentModal, closeAddEquipmentModal,
    addEquipment, openEditEquipmentModal, closeEditEquipmentModal,
    updateEquipment, openDeleteEquipmentModal, closeDeleteEquipmentModal,
    deleteEquipment, signInWithGoogle, handleSignOut,
    getDocs, addDoc, updateDoc.

(** **** Booking documents persist *)

#[local] Instance bookingsPersist_preorder : PreOrder bookingsPersist.
Proof.
  split.
  - intros fs p id d Hd. eauto.
  - intros fs1 fs2 fs3 H12 H23 p id d Hd.
    destruct (H12 p id d Hd) as (d1 & Hd1 & H1).
    destruct (H23 p id d1 Hd1) as (d2 & Hd2 & H2).
    exists d2. split; [done |].
    destruct H1 as [-> | [t1 ->]]; [done |].
    destruct H2 as [-> | [t2 ->]]; right; [by exists t1 |].
    exists t2. apply cancel_cancel.
Qed.

#[local] Instance keepsBookings_preorder : PreOrder keepsBookings.
Proof.
  split.
  - intros s. unfold keepsBookings. reflexivity.
  - intros s1 s2 s3. unfold keepsBookings. apply transitivity.
Qed.

Lemma applyCall_bookingsPersist c fs fs' :
  applyCall c fs = Some fs' → bookingsPersist fs fs'.
Proof.
  intros Hc q id d Hd.
  destruct c as [p filters | p d0 | p id0 stamp | d0 | id0 patch | id0];
    cbn in Hc.
  - simplify_eq. eauto.
  - simplify_eq. destruct (decide (p = q)) as [<- | Hne].
    + rewrite bookingsAt_set_eq. exists d. split; [| by left].
      by apply created_old.
    + rewrite bookingsAt_set_ne by done. eauto.
  - destruct (bookingsAt p fs !! id0) as [d1 |] eqn:H1; simplify_eq.
    destruct (decide (p = q)) as [<- | Hne].
    + rewrite bookingsAt_set_eq.
      destruct (decide (id0 = id)) as [<- | Hid].
      * rewrite lookup_insert_eq. simplify_eq.
        eexists. split; [done |]. right. by eexists.
      * rewrite lookup_insert_ne by done. eauto.
    + rewrite bookingsAt_set_ne by done. eauto.
  - simplify_eq. destruct q; cbn; eauto.
  - destruct (equipment fs !! id0); simplify_eq. destruct q; cbn; eauto.
  - simplify_eq. destruct q; cbn; eauto.
Qed.

Lemma request_keepsBookings c : respects keepsBookings (request c).
Proof.
  intros s. unfold request, keepsBookings, answer.
  destruct (backend (world s) (calls (world s))); [reflexivity |].
  destruct (applyCall c (firestore (world s))) eqn:Hc; [| reflexivity].
  by apply (applyCall_bookingsPersist c).
Qed.

Lemma setState_keepsBookings f : respects keepsBookings (setState f).
Proof. intros s. unfold keepsBookings. reflexivity. Qed.

Lemma now_keepsBookings : respects keepsBookings now.
Proof. intros s. unfold keepsBookings. reflexivity. Qed.

#[local] Hint Resolve request_keepsBookings setState_keepsBookings
  now_keepsBookings : respects_prim.

Lemma handler_keepsBookings act :
  respects keepsBookings (handler firebaseConfig newDate toISODate act).
Proof. destruct act; cbn [handler]; unfold_handlers; respects_steps. Qed.

(** X1.  No handler, in any state and whatever the backend answers, removes
    a booking document or rewrites it: after the handler the document is
    stored under the same id in the same collection and is either
    unchanged or a cancelled copy, so its equipment, user, interval and
    [bookedAt] are what they were.  The same holds after any number of
    handlers run by any clients. *)
Theorem booking_documents_are_never_removed_or_rewritten
    (turns : list (AppState * Action)) (w : World) (p : BookingsPath)
    (id : string) (d : Booking.data) :
  bookingsAt p (firestore w) !! id = Some d →
  ∃ d', bookingsAt p (firestore (session turns w)) !! id = Some d'
        ∧ (d' = d ∨ cancelledCopyOf d d')
        ∧ Booking.equipmentId d' = Booking.equipmentId d
        ∧ Booking.userId d' = Booking.userId d
        ∧ Booking.startDate d' = Booking.startDate d
        ∧ Booking.endDate d' = Booking.endDate d
        ∧ Booking.bookedAt d' = Booking.bookedAt d.
Proof.
  intros Hd.
  assert (P : bookingsPersist (firestore w) (firestore (session turns w))).
  { clear Hd. revert w. induction turns as [| [a act] turns IH]; intros w.
    - reflexivity.
    - cbn [session foldl]. etrans; [| apply IH].
      apply (handler_keepsBookings act {| app := a; world := w |}). }
  destruct (P p id d Hd) as (d' & Hd' & Hrel).
  exists d'. split; [done |]. split; [done |].
  by destruct Hrel as [-> | [t ->]].
Qed.

(** **** What each handler does to the shared collection *)

#[local] Instance onlyCancels_preorder : PreOrder onlyCancels.
Proof.
  split.
  - intros c id. by left.
  - intros c1 c2 c3 H12 H23 id.
    destruct (H23 id) as [E23 | (d2 & t2 & Hd2 & Hd3)].
    + rewrite E23. apply H12.
    + destruct (H12 id) as [E12 | (d1 & t1 & Hd1 & Hd2')].
      * right. exists d2, t2. by rewrite <- E12.
      * right. exists d1, t2. split; [done |].
        rewrite Hd3. rewrite Hd2' in Hd2. simplify_eq. by rewrite cancel_cancel.
Qed.

#[local] Instance cancelsPublic_preorder : PreOrder cancelsPublic.
Proof.
  split.
  - intros s. unfold cancelsPublic. reflexivity.
  - intros s1 s2 s3. unfold cancelsPublic. apply transitivity.
Qed.

#[local] Instance samePublic_preorder : PreOrder samePublic.
Proof.
  split.
  - intros s. reflexivity.
  - intros s1 s2 s3 H12 H23. unfold samePublic in *. congruence.
Qed.

Lemma request_getDocs_cancelsPublic p filters :
  respects cancelsPublic (request (GetDocs p filters)).
Proof.
  intros s. unfold request, cancelsPublic, answer.
  destruct (backend (world s) (calls (world s))); reflexivity.
Qed.

Lemma request_update_cancelsPublic p id stamp :
  respects cancelsPublic (request (UpdateBookingDoc p id stamp)).
Proof.
  intros s. unfold request, cancelsPublic, answer.
  destruct (backend (world s) (calls (world s))); [reflexivity |].
  cbn [applyCall].
  destruct (bookingsAt p (firestore (world s)) !! id) as [d |] eqn:Hd;
    [| reflexivity].
  cbn [fst snd world accepted firestore]. destruct p as [| u]; [| reflexivity].
  cbn [setBookingsAt publicBookings bookingsAt] in *. intros j.
  destruct (decide (id = j)) as [<- | Hne].
  - right. exists d, stamp. by rewrite lookup_insert_eq.
  - left. by rewrite lookup_insert_ne.
Qed.

Lemma setState_cancelsPublic f : respects cancelsPublic (setState f).
Proof. intros s. unfold cancelsPublic. reflexivity. Qed.

Lemma now_cancelsPublic : respects cancelsPublic now.
Proof. intros s. unfold cancelsPublic. reflexivity. Qed.

#[local] Hint Resolve request_getDocs_cancelsPublic
  request_update_cancelsPublic setState_cancelsPublic now_cancelsPublic
  : respects_prim.

Lemma cancelBooking_cancelsPublic : respects cancelsPublic cancelBooking.
Proof. unfold cancelBooking, getDocs, updateDoc. respects_steps. Qed.

Lemma request_equipment_samePublic c :
  (∀ p d, c ≠ AddBookingDoc p d) →
  (∀ p id stamp, c ≠ UpdateBookingDoc p id stamp) →
  respects samePublic (request c).
Proof.
  intros Hadd Hupd s. unfold request, samePublic, answer.
  destruct (backend (world s) (calls (world s))); [reflexivity |].
  destruct c as [p filters | p d0 | p id0 stamp | d0 | id0 patch | id0];
    cbn [applyCall]; try reflexivity.
  - by destruct (Hadd p d0).
  - by destruct (Hupd p id0 stamp).
  - by destruct (equipment (firestore (world s)) !! id0).
Qed.

Lemma setState_samePublic f : respects samePublic (setState f).
Proof. intros s. reflexivity. Qed.

Lemma now_samePublic : respects samePublic now.
Proof. intros s. reflexivity. Qed.

#[local] Hint Resolve setState_samePublic now_samePublic : respects_prim.
#[local] Hint Extern 1 (respects samePublic (request _)) =>
  apply request_equipment_samePublic; intros; discriminate : respects_prim.

Lemma handler_samePublic act :
  act ≠ SubmitBooking → act ≠ CancelBooking →
  respects samePublic (handler firebaseConfig newDate toISODate act).
Proof.
  intros Hs Hc. destruct act; try done; cbn [handler]; unfold_handlers;
    respects_steps.
Qed.

Lemma noDoubleBooking_onlyCancels eq fs fs' :
  onlyCancels (publicBookings fs) (publicBookings fs') →
  noDoubleBooking eq fs → noDoubleBooking eq fs'.
Proof.
  intros Hc Inv i j a b Hij Ha Hb Hae Hbe Has Hbs.
  assert (Hold : ∀ k x,
            publicBookings fs' !! k = Some x → Booking.status x = booked →
            publicBookings fs !! k = Some x).
  { intros k x Hx Hs. destruct (Hc k) as [E | (d & t & _ & Hd')].
    - by rewrite <- E.
    - rewrite Hd' in Hx. by simplify_eq. }
  apply (Inv i j a b); auto.
Qed.

Lemma actAs_noDoubleBooking eq a act w :
  noDoubleBooking eq (firestore w) →
  noDoubleBooking eq (firestore (actAs a act w)).
Proof.
  intros Inv. unfold actAs, step.
  assert (Hact : act = SubmitBooking ∨ act = CancelBooking
                 ∨ (act ≠ SubmitBooking ∧ act ≠ CancelBooking))
    by (destruct act; auto).
  destruct Hact as [-> | [-> | [Hs Hc]]].
  { apply (submitAs_noDoubleBooking eq a w Inv). }
  { eapply noDoubleBooking_onlyCancels; [| exact Inv].
    apply (cancelBooking_cancelsPublic {| app := a; world := w |}). }
  pose proof (handler_samePublic act Hs Hc {| app := a; world := w |}) as E.
  unfold samePublic in E. cbn [world firestore] in E.
  intros i j x y. rewrite E. apply Inv.
Qed.

(** X2.  The no-double-booking invariant is kept by every handler, not by
    submissions alone, as long as handlers do not overlap in time: whatever
    handlers any clients run one after the other, each run to its end
    before the next starts - submissions, cancellations, equipment edits,
    listeners - and whatever the backend answers, two distinct [booked]
    documents of the shared collection for one equipment never intersect
    if none did before.  (Two submissions that overlap in time are outside
    [session]; the check and the creates of [submitBooking] are separate
    calls.) *)
Theorem every_handler_keeps_bookings_apart
    (eq : string) (turns : list (AppState * Action)) (w : World) :
  noDoubleBooking eq (firestore w) →
  noDoubleBooking eq (firestore (session turns w)).
Proof.
  revert w. induction turns as [| [a act] turns IH]; intros w Inv; [done |].
  cbn [session foldl]. apply IH. by apply actAs_noDoubleBooking.
Qed.

(** **** The handles and the loading line *)

#[local] Instance sameHandles_preorder : PreOrder sameHandles.
Proof.
  split.
  - intros s. by split.
  - intros s1 s2 s3 [D12 A12] [D23 A23]. split; congruence.
Qed.

Lemma setState_sameHandles f :
  (∀ a, db (f a) = db a ∧ auth (f a) = auth a) →
  respects sameHandles (setState f).
Proof. intros Hf s. apply Hf. Qed.

Lemma request_sameHandles c : respects sameHandles (request c).
Proof.
  intros s. unfold request, sameHandles. by destruct (answer c (world s)).
Qed.

Lemma now_sameHandles : respects sameHandles now.
Proof. intros s. by split. Qed.

#[local] Hint Resolve request_sameHandles now_sameHandles : respects_prim.
#[local] Hint Extern 1 (respects sameHandles (setState _)) =>
  apply setState_sameHandles; intros ?; split; reflexivity : respects_prim.

Lemma handler_sameHandles act :
  respects sameHandles (handler firebaseConfig newDate toISODate act).
Proof. destruct act; cbn [handler]; unfold_handlers; respects_steps. Qed.

Lemma run_sameHandles acts s :
  sameHandles s (run firebaseConfig newDate toISODate acts s).
Proof.
  revert s. induction acts as [| act acts IH]; intros s; [by split |].
  rewrite run_cons. etrans; [| apply IH]. apply handler_sameHandles.
Qed.

Lemma step_without_db act s :
  db (app s) = None →
  untouched (world s) (world (step firebaseConfig newDate toISODate s act)).
Proof.
  intros Hdb. unfold untouched, step.
  destruct act; cbn [handler];
    unfold authStateChanged, handleKeyDown, handleClickOutside, toggleUserMenu,
      equipmentSnapshot, publicBookingsSnapshot, myBookingsSnapshot,
      handleBookingFormChange, openBookingModal, closeBookingModal,
      openCancelModal, closeCancelModal, submitBooking, cancelBooking,
      handleEquipmentFormChange, openAddEquipmentModal, closeAddEquipmentModal,
      addEquipment, openEditEquipmentModal, closeEditEquipmentModal,
      updateEquipment, openDeleteEquipmentModal, closeDeleteEquipmentModal,
      deleteEquipment, signInWithGoogle, handleSignOut,
      mbind, Async_bind, mret, Async_ret, rendered, setState, now;
    cbn [app world fst snd]; rewrite ?Hdb;
    cbn [app world fst snd bool_decide andb orb negb];
    repeat case_match; cbn; done.
Qed.

(** X3.  No handler sets or clears the store handle or the auth handle:
    they are what [startup] made them.  While the store handle is absent no
    handler issues a call - not only [submitBooking] and [cancelBooking]
    but also the equipment handlers and the listeners: the collections,
    the call counter and the log stay as they are through any sequence of
    actions. *)
Theorem no_store_handle_means_no_store_call (acts : list Action) (s : St) :
  db (app s) = None →
  let s' := run firebaseConfig newDate toISODate acts s in
  db (app s') = None
  ∧ auth (app s') = auth (app s)
  ∧ firestore (world s') = firestore (world s)
  ∧ calls (world s') = calls (world s)
  ∧ log (world s') = log (world s).
Proof.
  intros Hdb. cbn zeta.
  destruct (run_sameHandles acts s) as [D A].
  split; [congruence |]. split; [done |].
  clear D A. revert s Hdb.
  induction acts as [| act acts IH]; intros s Hdb; [done |].
  rewrite run_cons.
  destruct (step_without_db act s Hdb) as (F & C & L).
  destruct (handler_sameHandles act s) as [D _].
  fold (step firebaseConfig newDate toISODate s act) in D.
  destruct (IH (step firebaseConfig newDate toISODate s act)) as (F' & C' & L');
    [congruence |].
  by rewrite F', C', L'.
Qed.

(** [isAuthReady] is written by the callback of the identity provider
    only. *)
#[local] Instance sameReady_preorder : PreOrder sameReady.
Proof.
  split.
  - intros s. reflexivity.
  - intros s1 s2 s3 H12 H23. unfold sameReady in *. congruence.
Qed.

Lemma setState_sameReady f :
  (∀ a, isAuthReady (f a) = isAuthReady a) → respects sameReady (setState f).
Proof. intros Hf s. apply Hf. Qed.

Lemma request_sameReady c : respects sameReady (request c).
Proof.
  intros s. unfold request, sameReady. by destruct (answer c (world s)).
Qed.

Lemma now_sameReady : respects sameReady now.
Proof. intros s. reflexivity. Qed.

#[local] Hint Resolve request_sameReady now_sameReady : respects_prim.
#[local] Hint Extern 1 (respects sameReady (setState _)) =>
  apply setState_sameReady; intros ?; reflexivity : respects_prim.

Lemma handler_sameReady act :
  (∀ user, act ≠ AuthStateChanged user) →
  respects sameReady (handler firebaseConfig newDate toISODate act).
Proof.
  intros Hact. destruct act; try (by destruct (Hact user));
    cbn [handler]; unfold_handlers; respects_steps.
Qed.

Lemma authStateChanged_ready user s :
  isAuthReady (app (authStateChanged user s).2)
  = match auth (app s) with Some _ => true | None => isAuthReady (app s) end.
Proof.
  unfold authStateChanged, mbind, Async_bind, rendered.
  by destruct (auth (app s)).
Qed.

(** X4.  The loading line is shown exactly while [isAuthReady] is false,
    and a handler makes [isAuthReady] true only when it already was or when
    it is the callback of the identity provider on a component that has an
    auth handle.  No handler makes it false again: once the page is
    rendered the loading line never comes back. *)
Theorem loading_ends_only_with_the_identity_provider (s : St) (act : Action) :
  let s' := step firebaseConfig newDate toISODate s act in
  (isAuthReady (app s') = true
   ↔ isAuthReady (app s) = true
     ∨ ∃ user, act = AuthStateChanged user ∧ is_Some (auth (app s)))
  ∧ renders (app s') LoadingLine = negb (isAuthReady (app s'))
  ∧ (renders (app s) LoadingLine = false →
     ∀ acts,
       renders (app (run firebaseConfig newDate toISODate acts s)) LoadingLine
       = false).
Proof.
  cbn zeta.
  assert (Hstep : ∀ s act,
            isAuthReady (app (step firebaseConfig newDate toISODate s act))
            = true
            ↔ isAuthReady (app s) = true
              ∨ ∃ user, act = AuthStateChanged user ∧ is_Some (auth (app s))).
  { clear s act. intros s act.
    assert (Hact : (∃ user, act = AuthStateChanged user)
                   ∨ ∀ user, act ≠ AuthStateChanged user)
      by (destruct act; eauto).
    destruct Hact as [[user ->] | Hother].
    - unfold step. cbn [handler]. rewrite authStateChanged_ready.
      destruct (auth (app s)) as [h |].
      + split; [| done]. intros _. right. exists user. split; [done | by eexists].
      + split; [by left |]. intros [H | (u & _ & [h Hh])]; [done | done].
    - pose proof (handler_sameReady act Hother s) as E. unfold sameReady in E.
      fold (step firebaseConfig newDate toISODate s act) in E. rewrite E.
      split; [by left |]. intros [H | (u & Hu & _)]; [done |].
      by destruct (Hother u). }
  assert (Hline : ∀ a, renders a LoadingLine = negb (isAuthReady a)).
  { intros a. unfold renders. by destruct (isAuthReady a). }
  split; [apply Hstep |]. split; [apply Hline |].
  intros Hoff acts. rewrite Hline in *. apply negb_false_iff in Hoff.
  apply negb_false_iff. clear act. revert s Hoff.
  induction acts as [| act acts IH]; intros s Hoff; [done |].
  rewrite run_cons. apply IH, Hstep. by left.
Qed.

(** X5.  With an API key the start-up effect logs nothing and issues no
    call, creates the store handle and the auth handle from the
    configuration, and leaves the page on the loading line; both handles
    stay in place whatever happens next, and the loading line ends with
    the first answer of the identity provider. *)
Theorem startup_with_a_key_creates_the_handles
    (w : World) (acts : list Action) (user : option User) :
  truthy_opt (apiKey firebaseConfig) = true →
  let s0 := mount firebaseConfig w in
  let s := run firebaseConfig newDate toISODate acts s0 in
  startup firebaseConfig {| app := initialState; world := w |}
  = (Fulfilled tt,
     {| app := setAuth (Some (getAuth (initializeApp firebaseConfig)))
                 (setDb (Some (getFirestore (initializeApp firebaseConfig)))
                    initialState);
        world := w |})
  ∧ renders (app s0) LoadingLine = true
  ∧ db (app s) = Some (getFirestore (initializeApp firebaseConfig))
  ∧ auth (app s) = Some (getAuth (initializeApp firebaseConfig))
  ∧ renders
      (app (step firebaseConfig newDate toISODate s (AuthStateChanged user)))
      LoadingLine
    = false.
Proof.
  intros Hkey. cbn zeta.
  assert (E : startup firebaseConfig {| app := initialState; world := w |}
              = (Fulfilled tt,
                 {| app := setAuth (Some (getAuth (initializeApp firebaseConfig)))
                             (setDb
                                (Some (getFirestore (initializeApp firebaseConfig)))
                                initialState);
                    world := w |})).
  { unfold startup. by rewrite Hkey. }
  split; [done |]. unfold mount. rewrite E. cbn [snd].
  split; [done |].
  match goal with
  | |- context [run _ _ _ acts ?s0] =>
      destruct (run_sameHandles acts s0) as [D A]
  end.
  split; [by rewrite D |]. split; [by rewrite A |].
  unfold step. cbn [handler]. unfold renders.
  rewrite authStateChanged_ready, A. done.
Qed.

(** X6.  When the identity provider reports that nobody is signed in, the
    component forgets the user (id, display name, photo), after which
    [submitBooking] and [cancelBooking] do nothing at all and the listener
    of the private collection empties the view of the user's bookings. *)
Theorem sign_out_disarms_the_booking_handlers (s : St) :
  is_Some (auth (app s)) →
  let s1 := step firebaseConfig newDate toISODate s (AuthStateChanged None) in
  userId (app s1) = None
  ∧ userDisplayName (app s1) = ""
  ∧ userPhotoURL (app s1) = ""
  ∧ world s1 = world s
  ∧ submitBooking newDate s1 = (Fulfilled tt, s1)
  ∧ cancelBooking s1 = (Fulfilled tt, s1)
  ∧ myBookings
      (app (step firebaseConfig newDate toISODate s1 MyBookingsSnapshot))
    = [].
Proof.
  intros [h Hauth]. cbn zeta.
  assert (Hu : userId
                 (app (step firebaseConfig newDate toISODate s
                         (AuthStateChanged None)))
               = None).
  { unfold step. cbn [handler].
    unfold authStateChanged, mbind, Async_bind, rendered. by rewrite Hauth. }
  split; [done |].
  split; [| split; [| split; [| split; [| split]]]].
  - unfold step. cbn [handler].
    unfold authStateChanged, mbind, Async_bind, rendered. by rewrite Hauth.
  - unfold step. cbn [handler].
    unfold authStateChanged, mbind, Async_bind, rendered. by rewrite Hauth.
  - unfold step. cbn [handler].
    unfold authStateChanged, mbind, Async_bind, rendered. by rewrite Hauth.
  - apply submitBooking_guard. right; right. by rewrite Hu.
  - apply cancelBooking_guard. right; right. by rewrite Hu.
  - unfold step at 1. cbn [handler].
    unfold myBookingsSnapshot, mbind, Async_bind, rendered. by rewrite Hu.
Qed.

(** **** The views *)

Lemma bookingRows_elem (c : gmap string Booking.data) (b : Booking.t) :
  b ∈ bookingRows c ↔ c !! Booking.id b = Some (Booking.fields b).
Proof.
  unfold bookingRows. rewrite list_elem_of_fmap. split.
  - intros ([id d] & -> & Hin). by apply elem_of_map_to_list in Hin.
  - intros Hb. exists (Booking.id b, Booking.fields b).
    split; [by destruct b | by apply elem_of_map_to_list].
Qed.

Lemma bookingRows_ids (c : gmap string Booking.data) :
  Booking.id <$> bookingRows c = (map_to_list c).*1.
Proof.
  unfold bookingRows. rewrite <- list_fmap_compose. by apply list_fmap_ext.
Qed.

Lemma equipmentRows_elem (c : gmap string Equipment.data) (e : Equipment.t) :
  e ∈ equipmentRows c ↔ c !! Equipment.id e = Some (Equipment.fields e).
Proof.
  unfold equipmentRows. rewrite list_elem_of_fmap. split.
  - intros ([id d] & -> & Hin). by apply elem_of_map_to_list in Hin.
  - intros He. exists (Equipment.id e, Equipment.fields e).
    split; [by destruct e | by apply elem_of_map_to_list].
Qed.

Lemma equipmentRows_ids (c : gmap string Equipment.data) :
  Equipment.id <$> equipmentRows c = (map_to_list c).*1.
Proof.
  unfold equipmentRows. rewrite <- list_fmap_compose. by apply list_fmap_ext.
Qed.

#[local] Instance byStartDate_total : Total byStartDate.
Proof. intros a b. unfold byStartDate. lia. Qed.

(** X7.  For a signed-in user of a configured component, the listener of
    the private collection puts into [myBookings] exactly the documents of
    that user's collection, each once and with its id, sorted by ascending
    [startDate]; the world is not touched. *)
Theorem my_bookings_are_the_private_collection_sorted
    (s : St) (user : string) :
  is_Some (db (app s)) → userId (app s) = Some user → truthy user = true →
  truthy_opt (appId firebaseConfig) = true →
  let s' := step firebaseConfig newDate toISODate s MyBookingsSnapshot in
  let mine := bookingsAt (UserBookings user) (firestore (world s)) in
  Sorted byStartDate (myBookings (app s'))
  ∧ myBookings (app s') ≡ₚ bookingRows mine
  ∧ (∀ b, b ∈ myBookings (app s')
          ↔ mine !! Booking.id b = Some (Booking.fields b))
  ∧ NoDup (Booking.id <$> myBookings (app s'))
  ∧ world s' = world s.
Proof.
  intros [h Hdb] Hu Ht Happ. cbn zeta.
  unfold step. cbn [handler].
  unfold myBookingsSnapshot, mbind, Async_bind, rendered, delivered, setState.
  rewrite Hu, Hdb, Ht, Happ. cbn [bool_decide andb fst snd app world].
  rewrite bool_decide_true by by eexists.
  cbn [andb fst snd app world myBookings setMyBookings].
  fold (bookingRows (bookingsAt (UserBookings user) (firestore (world s)))).
  set (rows := bookingRows _).
  assert (P : merge_sort byStartDate rows ≡ₚ rows)
    by apply merge_sort_Permutation.
  split; [apply Sorted_merge_sort, _ |]. split; [done |]. split; [| split].
  - intros b. rewrite P. apply bookingRows_elem.
  - rewrite P. unfold rows. rewrite bookingRows_ids.
    apply NoDup_fst_map_to_list.
  - done.
Qed.

Lemma calendarEvents_rows (c : gmap string Booking.data) (a : AppState) :
  calendarEvents (setAllPublicBookings (bookingRows c) a)
  = (λ kv, eventOf kv.2)
      <$> filter (λ kv : string * Booking.data, Booking.status kv.2 = booked)
            (map_to_list c).
Proof.
  unfold calendarEvents, bookingRows.
  cbn [allPublicBookings setAllPublicBookings].
  induction (map_to_list c) as [| [id d] l IH]; [done |].
  rewrite fmap_cons, !filter_cons. cbn [fst snd Booking.fields].
  repeat case_decide; try done. by rewrite fmap_cons, IH.
Qed.

Lemma map_to_list_filter_booked (c : gmap string Booking.data) :
  filter (λ kv : string * Booking.data, Booking.status kv.2 = booked)
    (map_to_list c)
  ≡ₚ map_to_list
       (filter (λ kv : string * Booking.data, Booking.status kv.2 = booked) c).
Proof.
  apply NoDup_Permutation.
  - apply NoDup_filter, NoDup_map_to_list.
  - apply NoDup_map_to_list.
  - intros [id d]. rewrite list_elem_of_filter, !elem_of_map_to_list.
    rewrite map_lookup_filter_Some. cbn. propositional.
Qed.

(** X8.  On a component whose listeners are registered, the listener of
    the shared collection puts into [allPublicBookings] exactly the
    documents of that collection, each once and with its id, and the
    calendar then shows one event per [booked] document and none for a
    cancelled one: the list of events is, up to order, the list of the
    events of the [booked] documents, one entry per document, so two
    bookings with the same title and interval give two events.  Without
    the store handle or the application id the listener does not exist and
    the view is left as it is. *)
Theorem calendar_shows_the_booked_documents (s : St) :
  let s' := step firebaseConfig newDate toISODate s PublicBookingsSnapshot in
  let shared := publicBookings (firestore (world s)) in
  let bookedDocs :=
    filter (λ kv : string * Booking.data, Booking.status kv.2 = booked)
      shared in
  world s' = world s
  ∧ (listening firebaseConfig (app s) →
     (∀ b, b ∈ allPublicBookings (app s')
           ↔ shared !! Booking.id b = Some (Booking.fields b))
     ∧ NoDup (Booking.id <$> allPublicBookings (app s'))
     ∧ length (allPublicBookings (app s')) = size shared
     ∧ calendarEvents (app s')
       ≡ₚ (λ kv, eventOf kv.2) <$> map_to_list bookedDocs
     ∧ length (calendarEvents (app s')) = size bookedDocs
     ∧ (∀ e, e ∈ calendarEvents (app s')
             ↔ ∃ id d, shared !! id = Some d ∧ Booking.status d = booked
                       ∧ e = eventOf d))
  ∧ (¬ listening firebaseConfig (app s) → s' = s).
Proof.
  cbn zeta. unfold step. cbn [handler].
  unfold publicBookingsSnapshot, mbind, Async_bind, rendered, delivered,
    setState, listening.
  destruct (db (app s)) as [h |] eqn:Hdb.
  - rewrite bool_decide_true by by eexists. cbn [andb].
    destruct (truthy_opt (appId firebaseConfig)) eqn:Happ.
    + cbn [fst snd app world allPublicBookings setAllPublicBookings].
      fold (bookingRows (publicBookings (firestore (world s)))).
      split; [done |]. split; [| intros Hn; destruct Hn; by eauto].
      intros _.
      assert (Hev : calendarEvents
                      (setAllPublicBookings
                         (bookingRows (publicBookings (firestore (world s))))
                         (app s))
                    ≡ₚ (λ kv, eventOf kv.2)
                         <$> map_to_list
                               (filter
                                  (λ kv : string * Booking.data,
                                     Booking.status kv.2 = booked)
                                  (publicBookings (firestore (world s))))).
      { rewrite calendarEvents_rows. by rewrite map_to_list_filter_booked. }
      split; [apply bookingRows_elem |]. split.
      { rewrite bookingRows_ids. apply NoDup_fst_map_to_list. }
      split.
      { unfold bookingRows. rewrite length_fmap. apply length_map_to_list. }
      split; [exact Hev |]. split.
      { rewrite Hev, length_fmap. apply length_map_to_list. }
      intros e. unfold calendarEvents.
      cbn [allPublicBookings setAllPublicBookings].
      rewrite list_elem_of_fmap. split.
      * intros (b & -> & Hb). apply list_elem_of_filter in Hb as [Hst Hb].
        apply bookingRows_elem in Hb.
        exists (Booking.id b), (Booking.fields b). done.
      * intros (id & d & Hd & Hst & ->). exists (Booking.mk id d).
        split; [done |]. apply list_elem_of_filter. split; [done |].
        by apply bookingRows_elem.
    + cbn. split; [done |]. split; [intros [_ ?]; congruence |].
      intros _. by destruct s.
  - rewrite bool_decide_false by by intros [? ?]. cbn.
    split; [done |]. split; [intros [[? ?] _]; congruence |].
    intros _. by destruct s.
Qed.

(** X9.  On a component whose listeners are registered, the listener of
    the equipment collection puts into [equipmentList] exactly the
    documents of that collection, each once and with its id, so the rows
    and cards keyed by [equipment.id] have distinct keys; otherwise the
    listener does not exist and the view is left as it is. *)
Theorem equipment_list_is_the_equipment_collection (s : St) :
  let s' := step firebaseConfig newDate toISODate s EquipmentSnapshot in
  let docs := equipment (firestore (world s)) in
  world s' = world s
  ∧ (listening firebaseConfig (app s) →
     (∀ e, e ∈ equipmentList (app s')
           ↔ docs !! Equipment.id e = Some (Equipment.fields e))
     ∧ NoDup (Equipment.id <$> equipmentList (app s'))
     ∧ length (equipmentList (app s')) = size docs)
  ∧ (¬ listening firebaseConfig (app s) → s' = s).
Proof.
  cbn zeta. unfold step. cbn [handler].
  unfold equipmentSnapshot, mbind, Async_bind, rendered, delivered,
    setState, listening.
  destruct (db (app s)) as [h |] eqn:Hdb.
  - rewrite bool_decide_true by by eexists. cbn [andb].
    destruct (truthy_opt (appId firebaseConfig)) eqn:Happ.
    + cbn [fst snd app world equipmentList setEquipmentList].
      fold (equipmentRows (equipment (firestore (world s)))).
      split; [done |]. split; [| intros Hn; destruct Hn; by eauto].
      intros _. split; [apply equipmentRows_elem |]. split.
      * rewrite equipmentRows_ids. apply NoDup_fst_map_to_list.
      * unfold equipmentRows. rewrite length_fmap. apply length_map_to_list.
    + cbn. split; [done |]. split; [intros [_ ?]; congruence |].
      intros _. by destruct s.
  - rewrite bool_decide_false by by intros [? ?]. cbn.
    split; [done |]. split; [intros [[? ?] _]; congruence |].
    intros _. by destruct s.
Qed.

(** **** The equipment handlers *)

Lemma app_two_ne {A} (l : list A) (x y : A) : l ++ [x; y] ≠ l.
Proof.
  intros E. apply (f_equal length) in E. rewrite length_app in E. cbn in E. lia.
Qed.

Lemma addEquipment_blocked s :
  db (app s) = None ∨ isAdmin (app s) = false
  ∨ EquipmentForm.name (equipmentForm (app s)) = ""
  ∨ EquipmentForm.description (equipmentForm (app s)) = "" →
  addEquipment s
  = (Fulfilled tt,
     {| app := setMessage "Please fill out all fields." (app s);
        world := world s |}).
Proof.
  intros H. unfold addEquipment, mbind, Async_bind, rendered.
  assert (E : negb (bool_decide (is_Some (db (app s)))) || negb (isAdmin (app s))
              || negb (truthy (EquipmentForm.name (equipmentForm (app s))))
              || negb (truthy (EquipmentForm.description (equipmentForm (app s))))
              = true).
  { destruct H as [H | [H | [H | H]]].
    - rewrite H. by rewrite bool_decide_false by by intros [? ?].
    - rewrite H. cbn. by rewrite orb_true_r.
    - apply truthy_empty in H. rewrite H. cbn. by rewrite !orb_true_r.
    - apply truthy_empty in H. rewrite H. cbn. by rewrite !orb_true_r. }
  by rewrite E.
Qed.

Lemma addEquipment_answered s :
  is_Some (db (app s)) → isAdmin (app s) = true →
  EquipmentForm.name (equipmentForm (app s)) ≠ "" →
  EquipmentForm.description (equipmentForm (app s)) ≠ "" →
  let r := addEquipment s in
  let add := AddEquipmentDoc (newEquipment s) in
  r.1 = Fulfilled tt
  ∧ calls (world r.2) = S (calls (world s))
  ∧ match backend (world s) (calls (world s)) with
    | None => emitted (world s) (world r.2) = [Issued add; Acked add]
    | Some e => emitted (world s) (world r.2) = [Issued add; Rejected add e]
    end.
Proof.
  intros [h Hdb] Hadm Hn Hd. cbn zeta.
  unfold addEquipment, mbind, Async_bind, rendered.
  rewrite Hdb, Hadm.
  rewrite <- truthy_empty in Hn, Hd.
  apply not_false_is_true in Hn, Hd. rewrite Hn, Hd. cbn [negb orb bool_decide].
  rewrite bool_decide_true by by eexists. cbn [negb orb].
  unfold tryCatch, mbind, Async_bind, now, request, setState, answer.
  cbn [world app tick backend calls firestore].
  fold (firstReading (world s)). fold (newEquipment s).
  destruct (backend (world s) (calls (world s))) as [e |];
    cbn [applyCall fst snd world app accepted rejected calls tick];
    (split; [done |]); (split; [done |]); by apply emitted_app.
Qed.

(** X10.  [addEquipment] answers with "Please fill out all fields." and
    sends nothing to the store exactly when the store handle is absent, the
    administrator flag is off, or the name or the description of the form
    is empty; in every other case it issues exactly one call, the create
    of a document with the fields of the form, and returns normally
    whether the store accepts or rejects it. *)
Theorem addEquipment_refuses_exactly_incomplete_forms (s : St) :
  let incomplete :=
    db (app s) = None ∨ isAdmin (app s) = false
    ∨ EquipmentForm.name (equipmentForm (app s)) = ""
    ∨ EquipmentForm.description (equipmentForm (app s)) = "" in
  let r := addEquipment s in
  let add := AddEquipmentDoc (newEquipment s) in
  (incomplete
   ↔ r = (Fulfilled tt,
          {| app := setMessage "Please fill out all fields." (app s);
             world := world s |}))
  ∧ (¬ incomplete →
     r.1 = Fulfilled tt
     ∧ calls (world r.2) = S (calls (world s))
     ∧ (emitted (world s) (world r.2) = [Issued add; Acked add]
        ∨ ∃ error,
            emitted (world s) (world r.2) = [Issued add; Rejected add error])).
Proof.
  cbn zeta.
  assert (Hcomplete :
    ¬ (db (app s) = None ∨ isAdmin (app s) = false
       ∨ EquipmentForm.name (equipmentForm (app s)) = ""
       ∨ EquipmentForm.description (equipmentForm (app s)) = "") →
    is_Some (db (app s)) ∧ isAdmin (app s) = true
    ∧ EquipmentForm.name (equipmentForm (app s)) ≠ ""
    ∧ EquipmentForm.description (equipmentForm (app s)) ≠ "").
  { intros Hn. destruct (db (app s)) as [h |]; [| exfalso; auto].
    destruct (isAdmin (app s)); [| exfalso; auto].
    split; [by eexists |]. split; [done |]. split; intros E; apply Hn; auto. }
  split.
  - split; [apply addEquipment_blocked |]. intros E.
    destruct (decide (db (app s) = None ∨ isAdmin (app s) = false
                      ∨ EquipmentForm.name (equipmentForm (app s)) = ""
                      ∨ EquipmentForm.description (equipmentForm (app s)) = ""))
      as [| Hn]; [done |].
    exfalso. destruct (Hcomplete Hn) as (Hsome & Hadm & Hname & Hdesc).
    destruct (addEquipment_issues s Hsome Hadm Hname Hdesc) as [ev Hlog].
    rewrite E in Hlog. cbn in Hlog. symmetry in Hlog.
    by apply app_two_ne in Hlog.
  - intros Hn. destruct (Hcomplete Hn) as (Hsome & Hadm & Hname & Hdesc).
    destruct (addEquipment_answered s Hsome Hadm Hname Hdesc)
      as (Hr & Hc & Hev).
    split; [done |]. split; [done |].
    destruct (backend (world s) (calls (world s))) as [e |]; eauto.
Qed.

(** X11.  With the guard passed, a non-empty name and description and a
    backend that accepts the call, [addEquipment] stores one new document
    under an id that was not in use, carrying the name and description of
    the form, [createdAt] the reading of the clock and no [updatedAt];
    every other equipment document and every booking is as before; the
    dialog closes and the message is cleared. *)
Theorem addEquipment_creates_one_document (s : St) :
  mayManage (app s) →
  EquipmentForm.name (equipmentForm (app s)) ≠ "" →
  EquipmentForm.description (equipmentForm (app s)) ≠ "" →
  backend (world s) (calls (world s)) = None →
  let r := addEquipment s in
  let docs := equipment (firestore (world s)) in
  let fs' := firestore (world r.2) in
  r.1 = Fulfilled tt
  ∧ docs !! fresh (dom docs) = None
  ∧ equipment fs' = <[fresh (dom docs) := newEquipment s]> docs
  ∧ newEquipment s
    = {| Equipment.name := EquipmentForm.name (equipmentForm (app s));
         Equipment.description :=
           EquipmentForm.description (equipmentForm (app s));
         Equipment.createdAt := Some (firstReading (world s));
         Equipment.updatedAt := None |}
  ∧ (∀ id d, docs !! id = Some d → equipment fs' !! id = Some d)
  ∧ size (equipment fs') = S (size docs)
  ∧ publicBookings fs' = publicBookings (firestore (world s))
  ∧ userBookings fs' = userBookings (firestore (world s))
  ∧ app r.2 = setMessage "" (setShowAddEquipmentModal false (app s)).
Proof.
  intros [[h Hdb] Hadm] Hn Hd Hb. cbn zeta.
  assert (Hfresh : equipment (firestore (world s))
                     !! fresh (dom (equipment (firestore (world s)))) = None)
    by apply not_elem_of_dom, is_fresh.
  unfold addEquipment, mbind, Async_bind, rendered.
  rewrite Hdb, Hadm.
  rewrite <- truthy_empty in Hn, Hd.
  apply not_false_is_true in Hn, Hd. rewrite Hn, Hd. cbn [negb orb bool_decide].
  rewrite bool_decide_true by by eexists. cbn [negb orb].
  unfold tryCatch, mbind, Async_bind, now, request, setState, answer.
  cbn [world app tick backend calls firestore]. rewrite Hb.
  cbn [applyCall fst snd world app accepted firestore setEquipment equipment
         publicBookings userBookings].
  fold (firstReading (world s)). fold (newEquipment s).
  split; [done |]. split; [done |]. split; [done |]. split; [done |].
  split; [| split; [| done]].
  - intros id d Hid. rewrite lookup_insert_ne; [done |].
    intros <-. by rewrite Hfresh in Hid.
  - by apply map_size_insert_None.
Qed.

(** X12.  With the guard passed, an equipment selected for editing that is
    still stored, and a backend that accepts the call, [updateEquipment]
    rewrites the name and the description of that document from the form,
    sets [updatedAt] to the reading of the clock and keeps [createdAt];
    every other equipment document and every booking - with the equipment
    name it recorded - is as before; the dialog closes, the selection is
    dropped, and running the handler again does nothing. *)
Theorem updateEquipment_rewrites_one_document
    (s : St) (item : Equipment.t) (d0 : Equipment.data) :
  mayManage (app s) →
  equipmentToEdit (app s) = Some item →
  backend (world s) (calls (world s)) = None →
  equipment (firestore (world s)) !! Equipment.id item = Some d0 →
  let r := updateEquipment s in
  let fs' := firestore (world r.2) in
  r.1 = Fulfilled tt
  ∧ equipment fs' !! Equipment.id item
    = Some {| Equipment.name := EquipmentForm.name (equipmentForm (app s));
              Equipment.description :=
                EquipmentForm.description (equipmentForm (app s));
              Equipment.createdAt := Equipment.createdAt d0;
              Equipment.updatedAt := Some (firstReading (world s)) |}
  ∧ (∀ id, id ≠ Equipment.id item →
           equipment fs' !! id = equipment (firestore (world s)) !! id)
  ∧ publicBookings fs' = publicBookings (firestore (world s))
  ∧ userBookings fs' = userBookings (firestore (world s))
  ∧ app r.2
    = setMessage ""
        (setEquipmentToEdit None (setShowEditEquipmentModal false (app s)))
  ∧ updateEquipment r.2 = (Fulfilled tt, r.2).
Proof.
  intros [[h Hdb] Hadm] He Hb Hd0. cbn zeta.
  assert (E : updateEquipment s
              = (Fulfilled tt,
                 {| app := setMessage ""
                             (setEquipmentToEdit None
                                (setShowEditEquipmentModal false (app s)));
                    world :=
                      accepted
                        (UpdateEquipmentDoc (Equipment.id item)
                           (equipmentPatch s))
                        (setEquipment
                           (<[Equipment.id item
                              := patchEquipment (equipmentPatch s) d0]>
                              (equipment (firestore (world s))))
                           (firestore (world s)))
                        (tick (world s)) |})).
  { unfold updateEquipment, mbind, Async_bind, rendered.
    rewrite Hdb, Hadm, He.
    unfold tryCatch, mbind, Async_bind, now, request, closeEditEquipmentModal,
      setState, answer.
    cbn [world app tick backend calls firestore]. rewrite Hb.
    cbn [applyCall]. by rewrite Hd0. }
  rewrite E.
  cbn [fst snd world app accepted firestore setEquipment equipment
         publicBookings userBookings].
  split; [done |]. split; [apply lookup_insert_eq |].
  split; [intros id Hne; by rewrite lookup_insert_ne |].
  split; [done |]. split; [done |]. split; [done |].
  unfold updateEquipment, mbind, Async_bind, rendered.
  cbn. by rewrite Hdb, Hadm.
Qed.

(** X13.  With the guard passed, an equipment selected for deletion and a
    backend that accepts the call, [deleteEquipment] removes the document
    with that id - whether or not it is still stored - and nothing else:
    the other equipment documents and all bookings, those of the deleted
    equipment included, are as before.  The dialog closes, the selection
    is dropped, and running the handler again does nothing. *)
Theorem deleteEquipment_removes_one_document_only
    (s : St) (item : Equipment.t) :
  mayManage (app s) →
  equipmentToDelete (app s) = Some item →
  backend (world s) (calls (world s)) = None →
  let r := deleteEquipment s in
  let fs' := firestore (world r.2) in
  r.1 = Fulfilled tt
  ∧ equipment fs' !! Equipment.id item = None
  ∧ (∀ id, id ≠ Equipment.id item →
           equipment fs' !! id = equipment (firestore (world s)) !! id)
  ∧ publicBookings fs' = publicBookings (firestore (world s))
  ∧ userBookings fs' = userBookings (firestore (world s))
  ∧ app r.2
    = setMessage ""
        (setEquipmentToDelete None
           (setShowDeleteEquipmentModal false (app s)))
  ∧ deleteEquipment r.2 = (Fulfilled tt, r.2).
Proof.
  intros [[h Hdb] Hadm] He Hb. cbn zeta.
  assert (E : deleteEquipment s
              = (Fulfilled tt,
                 {| app := setMessage ""
                             (setEquipmentToDelete None
                                (setShowDeleteEquipmentModal false (app s)));
                    world :=
                      accepted (DeleteEquipmentDoc (Equipment.id item))
                        (setEquipment
                           (delete (Equipment.id item)
                              (equipment (firestore (world s))))
                           (firestore (world s)))
                        (world s) |})).
  { unfold deleteEquipment, mbind, Async_bind, rendered.
    rewrite Hdb, Hadm, He.
    unfold tryCatch, mbind, Async_bind, request, closeDeleteEquipmentModal,
      setState, answer.
    cbn [world app]. by rewrite Hb. }
  rewrite E.
  cbn [fst snd world app accepted firestore setEquipment equipment
         publicBookings userBookings].
  split; [done |]. split; [apply lookup_delete_eq |].
  split; [intros id Hne; by rewrite lookup_delete_ne |].
  split; [done |]. split; [done |]. split; [done |].
  unfold deleteEquipment, mbind, Async_bind, rendered.
  cbn. by rewrite Hdb, Hadm.
Qed.

(** X14.  A call that the store rejects does not make an equipment handler
    fail: with the guard passed and the next call rejected with [error],
    each of [addEquipment], [updateEquipment] and [deleteEquipment]
    returns normally, leaves the collections as they are, keeps its dialog
    open with its selection, and shows "Failed to ... equipment. Error: "
    followed by [error]. *)
Theorem equipment_handlers_display_store_errors (s : St) (error : string) :
  mayManage (app s) →
  backend (world s) (calls (world s)) = Some error →
  (EquipmentForm.name (equipmentForm (app s)) ≠ "" →
   EquipmentForm.description (equipmentForm (app s)) ≠ "" →
   (addEquipment s).1 = Fulfilled tt
   ∧ app (addEquipment s).2
     = setMessage ("Failed to add equipment. Error: " +:+ error) (app s)
   ∧ firestore (world (addEquipment s).2) = firestore (world s))
  ∧ (∀ item,
       equipmentToEdit (app s) = Some item →
       (updateEquipment s).1 = Fulfilled tt
       ∧ app (updateEquipment s).2
         = setMessage ("Failed to update equipment. Error: " +:+ error) (app s)
       ∧ firestore (world (updateEquipment s).2) = firestore (world s))
  ∧ (∀ item,
       equipmentToDelete (app s) = Some item →
       (deleteEquipment s).1 = Fulfilled tt
       ∧ app (deleteEquipment s).2
         = setMessage ("Failed to delete equipment. Error: " +:+ error) (app s)
       ∧ firestore (world (deleteEquipment s).2) = firestore (world s)).
Proof.
  intros [[h Hdb] Hadm] Hb. split; [| split].
  - intros Hn Hd.
    unfold addEquipment, mbind, Async_bind, rendered.
    rewrite Hdb, Hadm.
    rewrite <- truthy_empty in Hn, Hd.
    apply not_false_is_true in Hn, Hd. rewrite Hn, Hd.
    rewrite bool_decide_true by by eexists. cbn [negb orb].
    unfold tryCatch, mbind, Async_bind, now, request, setState, answer.
    cbn [world app tick backend calls firestore]. by rewrite Hb.
  - intros item He.
    unfold updateEquipment, mbind, Async_bind, rendered.
    rewrite Hdb, Hadm, He.
    unfold tryCatch, mbind, Async_bind, now, request, closeEditEquipmentModal,
      setState, answer.
    cbn [world app tick backend calls firestore]. by rewrite Hb.
  - intros item He.
    unfold deleteEquipment, mbind, Async_bind, rendered.
    rewrite Hdb, Hadm, He.
    unfold tryCatch, mbind, Async_bind, request, closeDeleteEquipmentModal,
      setState, answer.
    cbn [world app]. by rewrite Hb.
Qed.

(** **** Store errors in the booking handlers *)

(** X15.  [submitBooking] has no [catch]: when the store rejects the
    conflict query, the private create or the public create, the handler's
    promise is rejected with the store's error, the component state is
    exactly what it was (no message, dialog still open) and nothing is
    undone - after a rejected public create the private copy stays stored
    while the shared collection lacks the booking.  Nor is the error of
    [Timestamp.fromDate] caught: an approved candidate with an instant that
    no [Timestamp] holds makes the handler fail with the range error after
    the query, before any create is issued. *)
Theorem submitBooking_does_not_catch_store_errors
    (s : St) (item : Equipment.t) (user error : string) :
  mayBook (app s) item user → wellTimed s →
  let w := world s in
  let r := submitBooking newDate s in
  let fs' := firestore (world r.2) in
  let data := bookingDataOf (app s) item user (secondReading w) in
  let mine := bookingsAt (UserBookings user) (firestore w) in
  (backend w (calls w) = Some error →
   r.1 = Failed error ∧ app r.2 = app s ∧ fs' = firestore w)
  ∧ (backend w (calls w) = None → ¬ candidateConflicts s item →
     (¬ storable s →
      r.1 = Failed (conversionError s) ∧ app r.2 = app s ∧ fs' = firestore w
      ∧ emitted w (world r.2) = [Issued (bookedFor item); Acked (bookedFor item)])
     ∧ (storable s → backend w (S (calls w)) = Some error →
        r.1 = Failed error ∧ app r.2 = app s ∧ fs' = firestore w)
     ∧ (storable s → backend w (S (calls w)) = None →
        backend w (S (S (calls w))) = Some error →
        r.1 = Failed error ∧ app r.2 = app s
        ∧ mine !! fresh (dom mine) = None
        ∧ bookingsAt (UserBookings user) fs' !! fresh (dom mine) = Some data
        ∧ publicBookings fs' = publicBookings (firestore w))).
Proof.
  intros G W. cbn zeta. split.
  - intros Hq. by rewrite (submitBooking_query_rejected s item user error G W Hq).
  - intros Hq C. split; [| split].
    + intros R. rewrite (submitBooking_unstorable s item user G W R Hq C).
      cbn [fst snd app world accepted firestore].
      split; [done |]. split; [done |]. split; [done |]. by apply emitted_app.
    + intros R H1. rewrite (submitBooking_approved s item user G W R Hq C).
      cbn zeta. by rewrite H1.
    + intros R H1 H2. rewrite (submitBooking_approved s item user G W R Hq C).
      cbn zeta. rewrite H1, H2.
      cbn [fst snd app world rejected accepted firestore].
      split; [done |]. split; [done |]. split; [apply created_fresh |].
      split; [| done]. rewrite bookingsAt_set_eq. apply lookup_insert_eq.
Qed.

Lemma cancelBooking_query_rejected s booking user error :
  mayCancel (app s) booking user →
  backend (world s) (calls (world s)) = Some error →
  cancelBooking s
  = (Failed error,
     {| app := app s; world := rejected (copiesOf booking user) error (world s) |}).
Proof.
  intros G Hq. enter_handler G.
  unfold getDocs, mbind, Async_bind, request, answer.
  cbn [world app]. by rewrite Hq.
Qed.

(** X16.  [cancelBooking] has no [catch] either: when the store rejects its
    query the handler's promise is rejected with the store's error, no
    update is issued, both copies stay as they are and the component state
    is exactly what it was, with the dialog still open. *)
Theorem cancelBooking_does_not_catch_a_rejected_query
    (s : St) (booking : Booking.t) (user error : string) :
  mayCancel (app s) booking user →
  backend (world s) (calls (world s)) = Some error →
  let r := cancelBooking s in
  r.1 = Failed error
  ∧ app r.2 = app s
  ∧ firestore (world r.2) = firestore (world s)
  ∧ emitted (world s) (world r.2)
    = [Issued (copiesOf booking user);
       Rejected (copiesOf booking user) error].
Proof.
  intros G Hq. cbn zeta.
  rewrite (cancelBooking_query_rejected s booking user error G Hq).
  repeat split. by apply emitted_app.
Qed.




(** **** How the booking handlers compose *)

Lemma retyping_run item form s :
  let s' := run firebaseConfig newDate toISODate (retyping item form) s in
  selectedEquipment (app s') = Some item
  ∧ bookingForm (app s') = form
  ∧ showBookingModal (app s') = true
  ∧ db (app s') = db (app s)
  ∧ userId (app s') = userId (app s)
  ∧ world s' = tick (world s).
Proof.
  cbn zeta. unfold retyping, run. cbn [foldl]. unfold step. cbn [handler].
  unfold openBookingModal, handleBookingFormChange, mbind, Async_bind,
    setState, now.
  cbn [fst snd app world]. destruct form, (app s). done.
Qed.

(** X18.  Booking the same slot once more books once.  After a submission
    that was approved and stored (instants a [Timestamp] holds, backend
    accepting) has run to its end, the dialog is closed; if the user opens
    it again on the same equipment, sets the same dates and times and
    submits, nothing is created: either the start has meanwhile passed and
    the handler says so, or the check finds the booking just made and
    answers with the conflict message.  In both cases no write is issued
    and the collections are unchanged.  (A second submission that starts
    before the first has finished is another matter: [submitBooking]
    checks and creates in separate calls.) *)
Theorem submitting_the_same_form_twice_books_once
    (s : St) (item : Equipment.t) (user : string) :
  mayBook (app s) item user → wellTimed s → storable s →
  accepting (world s) → ¬ candidateConflicts s item →
  let s1 := (submitBooking newDate s).2 in
  let s2 :=
    run firebaseConfig newDate toISODate
      (retyping item (bookingForm (app s))) s1 in
  let r := submitBooking newDate s2 in
  publicBookings (firestore (world s1))
  = created (bookingDataOf (app s) item user (secondReading (world s)))
      (publicBookings (firestore (world s)))
  ∧ showBookingModal (app s1) = false
  ∧ showBookingModal (app s2) = true
  ∧ selectedEquipment (app s2) = Some item
  ∧ bookingForm (app s2) = bookingForm (app s)
  ∧ r.1 = Fulfilled tt
  ∧ firestore (world r.2) = firestore (world s1)
  ∧ filter (λ e, isIssuedWrite e = true) (emitted (world s1) (world r.2)) = []
  ∧ (message (app r.2) = "Booking start time cannot be in the past."
     ∨ message (app r.2)
       = "This equipment is already booked for this time slot.").
Proof.
  intros G [Hlt Hnow] R A C. cbn zeta.
  rewrite (submitBooking_approved s item user G (conj Hlt Hnow) R (A _) C).
  cbn zeta. rewrite !(A _). cbn [snd].
  set (data := bookingDataOf (app s) item user (secondReading (world s))).
  set (s1 := {| app := setMessage "" (setShowBookingModal false (app s));
                world := _ |}).
  destruct (retyping_run item (bookingForm (app s)) s1)
    as (Hsel2 & Hform2 & Hshow2 & Hdb2 & Hu2 & Hw2).
  set (s2 := run _ _ _ _ s1) in *.
  split; [done |]. split; [done |]. split; [done |]. split; [done |].
  split; [done |].
  assert (G2 : mayBook (app s2) item user).
  { destruct G as (Hsel & Hdb & Hu & Ht). split; [done |].
    split; [by rewrite Hdb2 |]. split; [by rewrite Hu2 | done]. }
  assert (Hs : formStart (app s2) = formStart (app s))
    by (unfold formStart; by rewrite Hform2).
  assert (He : formEnd (app s2) = formEnd (app s))
    by (unfold formEnd; by rewrite Hform2).
  assert (A2 : accepting (world s2)) by (rewrite Hw2; intros n; apply A).
  assert (Hfs : firestore (world s2) = firestore (world s1)) by by rewrite Hw2.
  assert (Hlog : log (world s2) = log (world s1)) by by rewrite Hw2.
  destruct (decide (formStart (app s2) < firstReading (world s2))) as [Hp | Hn].
  - rewrite (submitBooking_past s2 item user G2); [| lia | done].
    cbn [fst snd app world]. split; [done |]. split; [by rewrite Hw2 |].
    split; [| by left].
    rewrite (emitted_app _ _ []); [done |]. by rewrite Hw2, app_nil_r.
  - assert (W2 : wellTimed s2) by (split; lia).
    assert (C2 : candidateConflicts s2 item).
    { exists (fresh (dom (publicBookings (firestore (world s))))), data.
      rewrite Hfs. split; [apply lookup_insert_eq |].
      split; [done |]. split; [done |].
      rewrite Hs, He. unfold data, bookingDataOf.
      cbn [Booking.endDate Booking.startDate]. lia. }
    rewrite (submitBooking_refused s2 item user G2 W2 (A2 _) C2).
    cbn [fst snd app world accepted firestore]. split; [done |].
    split; [done |]. split; [| by right].
    rewrite (emitted_app _ _ [Issued (bookedFor item); Acked (bookedFor item)]);
      [done |].
    cbn [accepted log tick]. by rewrite Hlog.
Qed.

(** X19.  Cancelling frees the slot.  If every [booked] document that
    blocks an interval on an equipment carries the correlation key of the
    user's booking, then after [cancelBooking] of that booking (private
    copy stored, backend accepting) nothing blocks the interval any more: a
    submission for it passes the conflict check. *)
Theorem cancelling_frees_the_slot
    (s : St) (booking : Booking.t) (user : string) (d0 : Booking.data)
    (eq : string) (startDateTime endDateTime : Z) :
  mayCancel (app s) booking user →
  Booking.userId (Booking.fields booking) = user →
  accepting (world s) →
  bookingsAt (UserBookings user) (firestore (world s)) !! Booking.id booking
  = Some d0 →
  (∀ id d,
     publicBookings (firestore (world s)) !! id = Some d →
     Booking.equipmentId d = eq → Booking.status d = booked →
     startDateTime < Booking.endDate d → endDateTime > Booking.startDate d →
     correlationKey d = correlationKey (Booking.fields booking)) →
  ¬ conflicting eq startDateTime endDateTime
      (firestore (world (cancelBooking s).2)).
Proof.
  intros G Hown A Hd0 Honly (id & d' & Hd' & He & Hs & H1 & H2).
  destruct (cancelBooking_accepted s booking user d0 G A Hd0) as (_ & _ & Hpub).
  specialize (Hpub id).
  destruct (publicBookings (firestore (world s)) !! id) as [d |] eqn:Hd;
    [| by rewrite Hpub in Hd'].
  case_decide as Hk.
  - destruct Hpub as [t Ht]. rewrite Ht in Hd'. by simplify_eq.
  - rewrite Hpub in Hd'. simplify_eq. apply Hk.
    specialize (Honly id d' Hd eq_refl Hs H1 H2).
    unfold correlationKey in Honly. by simplify_eq.
Qed.

(** **** The time slots *)

(** X20.  [generateTimeSlots] yields the nineteen half-hour marks from
    08:00 to 17:00, in ascending order and without repetition - 17:30 is
    not offered - each written as five characters [HH:MM]; the times of the
    booking form, initially and whenever [openBookingModal] resets it, are
    among them, and the reset form starts and ends on the same day. *)
Theorem time_slots_are_the_half_hours_from_8_to_17
    (s : St) (item : Equipment.t) :
  let opened := bookingForm (app (openBookingModal toISODate item s).2) in
  slotMinutes <$> generateTimeSlots
  = (λ k : nat, 480 + 30 * Z.of_nat k) <$> seq 0 19
  ∧ Forall (λ slot, String.length slot = 5%nat) generateTimeSlots
  ∧ NoDup generateTimeSlots
  ∧ BookingForm.startTime (bookingForm initialState) ∈ generateTimeSlots
  ∧ BookingForm.endTime (bookingForm initialState) ∈ generateTimeSlots
  ∧ BookingForm.startTime opened ∈ generateTimeSlots
  ∧ BookingForm.endTime opened ∈ generateTimeSlots
  ∧ BookingForm.startDate opened = BookingForm.endDate opened.
Proof.
  cbn zeta.
  split; [by vm_compute |].
  split; [by apply (bool_decide_unpack _); vm_compute |].
  split; [by apply (bool_decide_unpack _); vm_compute |].
  split; [by apply (bool_decide_unpack _); vm_compute |].
  split; [by apply (bool_decide_unpack _); vm_compute |].
  unfold openBookingModal, mbind, Async_bind, setState, now.
  cbn [fst snd app world bookingForm setBookingForm setShowBookingModal
         BookingForm.startTime BookingForm.endTime BookingForm.startDate
         BookingForm.endDate].
  split; [by apply (bool_decide_unpack _); vm_compute |].
  split; [by apply (bool_decide_unpack _); vm_compute |].
  done.
Qed.

(** **** From the views to the store and back *)

Lemma myBookingsSnapshot_run s user :
  is_Some (db (app s)) → userId (app s) = Some user → truthy user = true →
  truthy_opt (appId firebaseConfig) = true →
  step firebaseConfig newDate toISODate s MyBookingsSnapshot
  = {| app := setMyBookings
                (merge_sort byStartDate
                   (bookingRows
                      (bookingsAt (UserBookings user) (firestore (world s)))))
                (app s);
       world := world s |}.
Proof.
  intros [h Hdb] Hu Ht Happ. unfold step. cbn [handler].
  unfold myBookingsSnapshot, mbind, Async_bind, rendered, delivered, setState.
  rewrite Hu, Hdb, Ht, Happ. by rewrite bool_decide_true by by eexists.
Qed.

Lemma publicBookingsSnapshot_run s :
  listening firebaseConfig (app s) →
  step firebaseConfig newDate toISODate s PublicBookingsSnapshot
  = {| app := setAllPublicBookings
                (bookingRows (publicBookings (firestore (world s)))) (app s);
       world := world s |}.
Proof.
  intros [[h Hdb] Happ]. unfold step. cbn [handler].
  unfold publicBookingsSnapshot, mbind, Async_bind, rendered, delivered,
    setState.
  rewrite Hdb, Happ. by rewrite bool_decide_true by by eexists.
Qed.

Lemma equipmentSnapshot_run s :
  listening firebaseConfig (app s) →
  step firebaseConfig newDate toISODate s EquipmentSnapshot
  = {| app := setEquipmentList
                (equipmentRows (equipment (firestore (world s)))) (app s);
       world := world s |}.
Proof.
  intros [[h Hdb] Happ]. unfold step. cbn [handler].
  unfold equipmentSnapshot, mbind, Async_bind, rendered, delivered, setState.
  rewrite Hdb, Happ. by rewrite bool_decide_true by by eexists.
Qed.

Lemma myBookings_row (c : gmap string Booking.data) b :
  b ∈ merge_sort byStartDate (bookingRows c)
  ↔ c !! Booking.id b = Some (Booking.fields b).
Proof. rewrite merge_sort_Permutation. apply bookingRows_elem. Qed.

Lemma cancelBooking_accepted_app s booking user d0 :
  mayCancel (app s) booking user →
  accepting (world s) →
  bookingsAt (UserBookings user) (firestore (world s)) !! Booking.id booking
  = Some d0 →
  app (cancelBooking s).2 = setMessage "" (setShowCancelModal false (app s)).
Proof.
  intros G A Hd0.
  rewrite (cancelBooking_run s booking user G (A _)). cbn zeta.
  set (ids := (queryDocs _ _ _).*1).
  set (w0 := accepted _ _ _).
  assert (A0 : accepting w0) by (intros n; apply A).
  set (w1 := cancelEach ids w0).
  assert (A1 : accepting w1) by by apply cancelEach_accepting.
  destruct (cancelEach_frame ids w0) as (_ & Hub & _). fold w1 in Hub.
  assert (Hmine : bookingsAt (UserBookings user) (firestore w1)
                  = bookingsAt (UserBookings user) (firestore (world s))).
  { cbn [bookingsAt]. by rewrite Hub. }
  unfold answer. cbn [tick backend calls firestore]. rewrite (A1 _).
  cbn [applyCall]. by rewrite Hmine, Hd0.
Qed.

(** X21.  From the table to the store and back.  For a signed-in user of a
    configured component and an accepting backend: take any row of
    [myBookings] as the listener just delivered it, open the cancellation
    dialog on it and confirm.  The handler returns normally, the private
    document behind the row is now a cancelled copy of the row, the dialog
    is closed with its message cleared, and at the next snapshot the row
    with that id reads [cancelled]. *)
Theorem cancelling_a_row_of_my_bookings
    (s : St) (user : string) (row : Booking.t) :
  is_Some (db (app s)) → userId (app s) = Some user → truthy user = true →
  truthy_opt (appId firebaseConfig) = true →
  accepting (world s) →
  let s1 := step firebaseConfig newDate toISODate s MyBookingsSnapshot in
  row ∈ myBookings (app s1) →
  let s2 := step firebaseConfig newDate toISODate s1 (OpenCancelModal row) in
  let r := cancelBooking s2 in
  let s3 := step firebaseConfig newDate toISODate r.2 MyBookingsSnapshot in
  r.1 = Fulfilled tt
  ∧ (∃ stamp,
       bookingsAt (UserBookings user) (firestore (world r.2)) !! Booking.id row
       = Some (Booking.cancel stamp (Booking.fields row)))
  ∧ showCancelModal (app r.2) = false
  ∧ message (app r.2) = ""
  ∧ (∃ row', row' ∈ myBookings (app s3) ∧ Booking.id row' = Booking.id row)
  ∧ (∀ row', row' ∈ myBookings (app s3) → Booking.id row' = Booking.id row →
             Booking.status (Booking.fields row') = cancelled).
Proof.
  intros Hdb Hu Ht Happ A. cbn zeta.
  rewrite (myBookingsSnapshot_run s user Hdb Hu Ht Happ).
  cbn [app myBookings setMyBookings]. intros Hrow.
  apply myBookings_row in Hrow.
  set (s2 := step _ _ _ _ (OpenCancelModal row)).
  assert (Es2 : s2 = {| app := setShowCancelModal true
                                (setBookingToCancel (Some row)
                                   (setMyBookings
                                      (merge_sort byStartDate
                                         (bookingRows
                                            (bookingsAt (UserBookings user)
                                               (firestore (world s)))))
                                      (app s)));
                        world := world s |}) by done.
  assert (G : mayCancel (app s2) row user).
  { rewrite Es2. by repeat split. }
  assert (A2 : accepting (world s2)) by (by rewrite Es2).
  assert (Hd : bookingsAt (UserBookings user) (firestore (world s2))
                 !! Booking.id row = Some (Booking.fields row))
    by (by rewrite Es2).
  destruct (cancelBooking_accepted s2 row user (Booking.fields row) G A2 Hd)
    as (Hr & [t Hpriv] & _).
  pose proof (cancelBooking_accepted_app s2 row user (Booking.fields row)
                G A2 Hd) as Happ'.
  split; [done |]. split; [by eauto |].
  split; [by rewrite Happ' |]. split; [by rewrite Happ' |].
  assert (E3 : step firebaseConfig newDate toISODate (cancelBooking s2).2
                 MyBookingsSnapshot
               = {| app := setMyBookings
                             (merge_sort byStartDate
                                (bookingRows
                                   (bookingsAt (UserBookings user)
                                      (firestore (world (cancelBooking s2).2)))))
                             (app (cancelBooking s2).2);
                    world := world (cancelBooking s2).2 |}).
  { apply (myBookingsSnapshot_run _ user); rewrite ?Happ', ?Es2; done. }
  rewrite E3. cbn [app myBookings setMyBookings]. split.
  - exists (Booking.mk (Booking.id row) (Booking.cancel t (Booking.fields row))).
    split; [| done]. by apply myBookings_row.
  - intros row' Hin Hid. apply myBookings_row in Hin.
    rewrite Hid, Hpriv in Hin. by injection Hin as <-.
Qed.

Lemma updateEquipment_run s item d0 :
  mayManage (app s) →
  equipmentToEdit (app s) = Some item →
  backend (world s) (calls (world s)) = None →
  equipment (firestore (world s)) !! Equipment.id item = Some d0 →
  updateEquipment s
  = (Fulfilled tt,
     {| app := setMessage ""
                 (setEquipmentToEdit None
                    (setShowEditEquipmentModal false (app s)));
        world :=
          accepted (UpdateEquipmentDoc (Equipment.id item) (equipmentPatch s))
            (setEquipment
               (<[Equipment.id item := patchEquipment (equipmentPatch s) d0]>
                  (equipment (firestore (world s))))
               (firestore (world s)))
            (tick (world s)) |}).
Proof.
  intros [[h Hdb] Hadm] He Hb Hd0.
  unfold updateEquipment, mbind, Async_bind, rendered.
  rewrite Hdb, Hadm, He.
  unfold tryCatch, mbind, Async_bind, now, request, closeEditEquipmentModal,
    setState, answer.
  cbn [world app tick backend calls firestore]. rewrite Hb.
  cbn [applyCall]. by rewrite Hd0.
Qed.

(** X22.  Opening the edit dialog on a row of [equipmentList] as the
    listener just delivered it and saving without typing changes nothing
    but the time stamp: the stored name, description and [createdAt] are
    those of the row, [updatedAt] is the reading of the clock, and every
    other document is as before. *)
Theorem saving_an_unedited_equipment_only_stamps_it
    (s : St) (row : Equipment.t) :
  listening firebaseConfig (app s) → isAdmin (app s) = true →
  backend (world s) (calls (world s)) = None →
  let s1 := step firebaseConfig newDate toISODate s EquipmentSnapshot in
  row ∈ equipmentList (app s1) →
  let s2 :=
    step firebaseConfig newDate toISODate s1 (OpenEditEquipmentModal row) in
  let r := updateEquipment s2 in
  r.1 = Fulfilled tt
  ∧ equipment (firestore (world r.2))
    = <[Equipment.id row
        := {| Equipment.name := Equipment.name (Equipment.fields row);
              Equipment.description :=
                Equipment.description (Equipment.fields row);
              Equipment.createdAt := Equipment.createdAt (Equipment.fields row);
              Equipment.updatedAt := Some (firstReading (world s)) |}]>
        (equipment (firestore (world s)))
  ∧ renders (app r.2) EditEquipmentDialog = false.
Proof.
  intros L Hadm Hb. cbn zeta.
  rewrite (equipmentSnapshot_run s L).
  cbn [app equipmentList setEquipmentList]. intros Hrow.
  apply equipmentRows_elem in Hrow.
  set (s2 := step _ _ _ _ (OpenEditEquipmentModal row)).
  assert (Es2 : s2 = {| app := setShowEditEquipmentModal true
                                (setEquipmentForm
                                   (EquipmentForm.mk
                                      (Equipment.name (Equipment.fields row))
                                      (Equipment.description
                                         (Equipment.fields row)))
                                   (setEquipmentToEdit (Some row)
                                      (setEquipmentList
                                         (equipmentRows
                                            (equipment (firestore (world s))))
                                         (app s))));
                        world := world s |}) by done.
  assert (G : mayManage (app s2)).
  { rewrite Es2. destruct L as [Hdb _]. by split. }
  rewrite (updateEquipment_run s2 row (Equipment.fields row) G);
    [| by rewrite Es2..].
  rewrite Es2. cbn [fst snd app world accepted firestore equipment setEquipment].
  split; [done |]. split; [done |].
  unfold renders. cbn. by destruct (isAuthReady (app s)), (isAdmin (app s)).
Qed.

(** X23.  A stored booking shows in both views.  After a submission that
    was approved and stored (instants a [Timestamp] holds, backend
    accepting) on a configured component,
    the dialog is closed, the next snapshot of the private collection has
    a row with the payload under an id that was not in use, and the next
    snapshot of the shared collection puts the booking on the calendar. *)
Theorem a_stored_booking_shows_in_both_views
    (s : St) (item : Equipment.t) (user : string) :
  mayBook (app s) item user → wellTimed s → storable s →
  accepting (world s) → ¬ candidateConflicts s item →
  truthy_opt (appId firebaseConfig) = true →
  let data := bookingDataOf (app s) item user (secondReading (world s)) in
  let s1 := (submitBooking newDate s).2 in
  let s2 := step firebaseConfig newDate toISODate s1 MyBookingsSnapshot in
  let s3 := step firebaseConfig newDate toISODate s2 PublicBookingsSnapshot in
  showBookingModal (app s3) = false
  ∧ (∃ row, row ∈ myBookings (app s3) ∧ Booking.fields row = data
            ∧ bookingsAt (UserBookings user) (firestore (world s))
                !! Booking.id row = None)
  ∧ eventOf data ∈ calendarEvents (app s3).
Proof.
  intros G W R A C Happ. cbn zeta.
  rewrite (submitBooking_approved s item user G W R (A _) C).
  cbn zeta. rewrite !(A _). cbn [snd].
  set (data := bookingDataOf _ _ _ _).
  set (s1 := {| app := setMessage "" _ |}).
  destruct G as (Hsel & Hdb & Hu & Ht).
  rewrite (myBookingsSnapshot_run s1 user Hdb Hu Ht Happ).
  set (s2 := {| app := setMyBookings _ _ |}).
  rewrite (publicBookingsSnapshot_run s2) by by split.
  cbn [app world s2 s1 showBookingModal myBookings allPublicBookings
         setAllPublicBookings setMyBookings setMessage setShowBookingModal
         accepted firestore].
  split; [done |]. split.
  - exists (Booking.mk
              (fresh (dom (bookingsAt (UserBookings user) (firestore (world s)))))
              data).
    split; [| split; [done | apply created_fresh]].
    apply myBookings_row. cbn [Booking.id Booking.fields].
    rewrite bookingsAt_set_ne by done. rewrite bookingsAt_set_eq.
    apply lookup_insert_eq.
  - unfold calendarEvents. cbn [allPublicBookings].
    apply list_elem_of_fmap.
    exists (Booking.mk (fresh (dom (publicBookings (firestore (world s))))) data).
    split; [done |]. apply list_elem_of_filter. split; [done |].
    apply bookingRows_elem. cbn [Booking.id Booking.fields].
    change (publicBookings ?fs) with (bookingsAt PublicBookings fs).
    rewrite bookingsAt_set_eq. apply lookup_insert_eq.
Qed.

Lemma deleteEquipment_run s item :
  mayManage (app s) →
  equipmentToDelete (app s) = Some item →
  backend (world s) (calls (world s)) = None →
  deleteEquipment s
  = (Fulfilled tt,
     {| app := setMessage ""
                 (setEquipmentToDelete None
                    (setShowDeleteEquipmentModal false (app s)));
        world :=
          accepted (DeleteEquipmentDoc (Equipment.id item))
            (setEquipment
               (delete (Equipment.id item) (equipment (firestore (world s))))
               (firestore (world s)))
            (world s) |}).
Proof.
  intros [[h Hdb] Hadm] He Hb.
  unfold deleteEquipment, mbind, Async_bind, rendered.
  rewrite Hdb, Hadm, He.
  unfold tryCatch, mbind, Async_bind, request, closeDeleteEquipmentModal,
    setState, answer.
  cbn [world app]. by rewrite Hb.
Qed.

Lemma listening_after act s :
  listening firebaseConfig (app s) →
  listening firebaseConfig
    (app (step firebaseConfig newDate toISODate s act)).
Proof.
  intros [Hdb Happ]. split; [| done].
  destruct (handler_sameHandles act s) as [E _].
  unfold step. by rewrite E.
Qed.

(** X24.  What an administrator changes shows at the next snapshot of the
    equipment collection.  With the guard passed, the listeners registered
    and the call accepted: after [addEquipment] with a complete form the
    list has a row with the new fields under an id that was not in use;
    after [updateEquipment] of an existing document the list has its row
    with the name and description of the form; after [deleteEquipment] no
    row of the list has the id of the deleted equipment. *)
Theorem equipment_changes_show_at_the_next_snapshot (s : St) :
  mayManage (app s) → truthy_opt (appId firebaseConfig) = true →
  backend (world s) (calls (world s)) = None →
  let docs := equipment (firestore (world s)) in
  let shown act :=
    equipmentList
      (app (step firebaseConfig newDate toISODate
              (step firebaseConfig newDate toISODate s act)
              EquipmentSnapshot)) in
  (EquipmentForm.name (equipmentForm (app s)) ≠ "" →
   EquipmentForm.description (equipmentForm (app s)) ≠ "" →
   ∃ row, row ∈ shown AddEquipment ∧ Equipment.fields row = newEquipment s
          ∧ docs !! Equipment.id row = None)
  ∧ (∀ item d0, equipmentToEdit (app s) = Some item →
        docs !! Equipment.id item = Some d0 →
        Equipment.mk (Equipment.id item) (patchEquipment (equipmentPatch s) d0)
        ∈ shown UpdateEquipment)
  ∧ (∀ item, equipmentToDelete (app s) = Some item →
        ∀ row, row ∈ shown DeleteEquipment →
               Equipment.id row ≠ Equipment.id item).
Proof.
  intros G Happ Hb. cbn zeta.
  assert (L : listening firebaseConfig (app s)) by (destruct G; by split).
  split; [| split].
  - intros Hn Hd. rewrite equipmentSnapshot_run by by apply listening_after.
    cbn [app equipmentList setEquipmentList].
    destruct G as [Hdb Hadm].
    destruct (addEquipment_accepted s Hdb Hadm Hn Hd Hb) as (_ & E & Hfresh).
    exists (Equipment.mk (fresh (dom (equipment (firestore (world s)))))
              (newEquipment s)).
    split; [| by split]. apply equipmentRows_elem.
    change (step firebaseConfig newDate toISODate s AddEquipment)
      with (addEquipment s).2.
    rewrite E. apply lookup_insert_eq.
  - intros item d0 He Hd0.
    rewrite equipmentSnapshot_run by by apply listening_after.
    cbn [app equipmentList setEquipmentList]. apply equipmentRows_elem.
    change (step firebaseConfig newDate toISODate s UpdateEquipment)
      with (updateEquipment s).2.
    rewrite (updateEquipment_run s item d0 G He Hb Hd0).
    cbn [snd world accepted firestore equipment setEquipment Equipment.id
           Equipment.fields].
    apply lookup_insert_eq.
  - intros item He row.
    rewrite equipmentSnapshot_run by by apply listening_after.
    cbn [app equipmentList setEquipmentList]. intros Hrow Hid.
    apply equipmentRows_elem in Hrow. revert Hrow.
    change (step firebaseConfig newDate toISODate s DeleteEquipment)
      with (deleteEquipment s).2.
    rewrite (deleteEquipment_run s item G He Hb).
    cbn [snd world accepted firestore equipment setEquipment].
    by rewrite Hid, lookup_delete_eq.
Qed.

(** **** Handlers that stay inside the component *)

(** X25.  The interface handlers stay inside the component.  In every
    state, a key press, a click outside the user menu, a form change and
    the opening or closing of a dialog issue no call to the store - the
    collections, the call counter and the log are as they were - and they
    leave the handles, the signed-in user, [isAuthReady], [isAdmin] and
    the three views delivered by the listeners untouched. *)
Theorem interface_handlers_stay_inside_the_component
    (s : St) (act : Action) :
  interfaceOnly act = true →
  let s' := step firebaseConfig newDate toISODate s act in
  untouched (world s) (world s')
  ∧ db (app s') = db (app s) ∧ auth (app s') = auth (app s)
  ∧ userId (app s') = userId (app s)
  ∧ isAuthReady (app s') = isAuthReady (app s)
  ∧ isAdmin (app s') = isAdmin (app s)
  ∧ equipmentList (app s') = equipmentList (app s)
  ∧ allPublicBookings (app s') = allPublicBookings (app s)
  ∧ myBookings (app s') = myBookings (app s).
Proof.
  intros Hact. cbn zeta. unfold step, untouched.
  destruct act; try discriminate Hact; cbn [handler]; unfold_handlers;
    unfold mbind, mret, Async_bind, Async_ret, rendered, setState, now;
    cbn [fst snd app world tick];
    repeat case_match; cbn [fst snd app world tick];
    destruct (app s); done.
Qed.

(** X26.  The keyboard shortcut works for everyone.  In every reachable
    state a key press changes nothing outside the component; with the
    modifier, Shift and [a] or [A] it flips [showAdminPanel] - no test of
    who is signed in can stop it - and a second press restores the state;
    every other key leaves the state as it is.  Once loading has ended the
    Manage Equipment section is rendered exactly when the panel flag is
    set. *)
Theorem the_shortcut_opens_the_admin_panel_for_everyone
    (s : St) (modifierKey shiftKey : bool) (key : string) :
  reachable firebaseConfig newDate toISODate s →
  let press := KeyDown modifierKey shiftKey key in
  let s' := step firebaseConfig newDate toISODate s press in
  world s' = world s
  ∧ (if modifierKey && shiftKey && (String.eqb key "a" || String.eqb key "A")
     then showAdminPanel (app s') = negb (showAdminPanel (app s))
          ∧ step firebaseConfig newDate toISODate s' press = s
     else s' = s)
  ∧ (isAuthReady (app s') = true →
     renders (app s') ManageEquipment = showAdminPanel (app s')).
Proof.
  intros Hr. apply reachable_isAdmin in Hr. cbn zeta.
  unfold step. cbn [handler].
  unfold handleKeyDown, mbind, mret, Async_bind, Async_ret, rendered,
    setState.
  destruct s as [a w]. cbn [app world] in *.
  destruct (modifierKey && shiftKey && _) eqn:Hk.
  - rewrite Hr. cbn [fst snd app world]. split; [done |]. split.
    + split; [done |].
      assert (Hadm : isAdmin (setShowAdminPanel (negb (showAdminPanel a)) a)
                     = true) by by destruct a.
      rewrite Hadm. cbn [fst snd app world]. f_equal.
      destruct a. cbn. by rewrite negb_involutive.
    + intros Hready. unfold renders. rewrite Hready.
      destruct a; cbn in *. by rewrite Hr.
  - cbn [fst snd app world]. split; [done |]. split; [done |].
    intros Hready. unfold renders. by rewrite Hready, Hr.
Qed.

End Properties.

(** ** The handlers on the concrete scenario *)

Lemma sequential_submissions_never_double_book_witness :
  noDoubleBooking "eq1"
    (firestore (submissions demoDate demoClients (demoWorld emptyStore))).
Proof.
  apply (sequential_submissions_never_double_book demoDate).
  intros i j a b _ Ha. cbn in Ha. rewrite lookup_empty in Ha. discriminate.
Defined.

Lemma silent_without_user_or_store_witness :
  submitBooking demoDate {| app := initialState; world := demoWorld annStore |}
  = (Fulfilled tt, {| app := initialState; world := demoWorld annStore |})
  ∧ cancelBooking {| app := initialState; world := demoWorld annStore |}
    = (Fulfilled tt, {| app := initialState; world := demoWorld annStore |}).
Proof.
  apply (silent_without_user_or_store demoDate). left. reflexivity.
Defined.

Lemma validation_aborts_before_the_store_witness :
  let s := {| app := demoClient "ann" "10:00" "10:00";
              world := demoWorld annStore |} in
  (submitBooking demoDate s).1 = Fulfilled tt
  ∧ firestore (world (submitBooking demoDate s).2) = annStore
  ∧ log (world (submitBooking demoDate s).2) = [].
Proof.
  cbn zeta.
  destruct (validation_aborts_before_the_store demoDate
              {| app := demoClient "ann" "10:00" "10:00";
                 world := demoWorld annStore |})
    as (H1 & H2 & H3 & _).
  - left. apply Z.leb_le. vm_compute. reflexivity.
  - split; [exact H1 |]. split; [exact H2 | exact H3].
Defined.

Lemma conflict_check_is_half_open_overlap_witness :
  let s := {| app := demoClient "bob" "10:00" "10:30";
              world := demoWorld annStore |} in
  Issued (AddBookingDoc (UserBookings "bob")
            (bookingDataOf demoDate (app s) microscope "bob"
               (secondReading (world s))))
  ∈ emitted (world s) (world (submitBooking demoDate s).2).
Proof.
  cbn zeta.
  apply (conflict_check_is_half_open_overlap demoDate
           {| app := demoClient "bob" "10:00" "10:30";
              world := demoWorld annStore |} microscope "bob").
  - split; [reflexivity |]. split; [eexists; reflexivity |].
    split; reflexivity.
  - split; [apply Z.ltb_lt | apply Z.leb_le]; vm_compute; reflexivity.
  - split; (split; [apply Z.leb_le | apply Z.ltb_lt]; vm_compute;
             reflexivity).
  - reflexivity.
  - intros id d Hd _ _. cbn in Hd.
    apply lookup_singleton_Some in Hd as [_ <-]. left. vm_compute. reflexivity.
Defined.

Lemma approved_booking_is_written_twice_witness :
  let s := {| app := demoClient "bob" "10:00" "10:30";
              world := demoWorld annStore |} in
  let data :=
    bookingDataOf demoDate (app s) microscope "bob" (secondReading (world s)) in
  emitted (world s) (world (submitBooking demoDate s).2)
  = [Issued (bookedFor microscope); Acked (bookedFor microscope);
     Issued (AddBookingDoc (UserBookings "bob") data);
     Acked (AddBookingDoc (UserBookings "bob") data);
     Issued (AddBookingDoc PublicBookings data);
     Acked (AddBookingDoc PublicBookings data)].
Proof.
  cbn zeta.
  destruct (approved_booking_is_written_twice demoDate
              {| app := demoClient "bob" "10:00" "10:30";
                 world := demoWorld annStore |} microscope "bob")
    as (_ & _ & _ & _ & H & _).
  - split; [reflexivity |]. split; [eexists; reflexivity |].
    split; reflexivity.
  - split; [apply Z.ltb_lt | apply Z.leb_le]; vm_compute; reflexivity.
  - split; (split; [apply Z.leb_le | apply Z.ltb_lt]; vm_compute;
             reflexivity).
  - reflexivity.
  - unfold candidateConflicts. rewrite <- isBooked_conflicting.
    vm_compute. discriminate.
  - exact H.
Defined.

Lemma cancel_marks_both_copies_witness :
  let s := {| app := annCancelling; world := demoWorld annStore |} in
  (cancelBooking s).1 = Fulfilled tt
  ∧ ∃ d', publicBookings (firestore (world (cancelBooking s).2)) !! "p1"
          = Some d'
          ∧ cancelledCopyOf annBooking d' ∧ readsCancelled d'.
Proof.
  cbn zeta.
  destruct (cancel_marks_both_copies
              {| app := annCancelling; world := demoWorld annStore |}
              (Booking.mk "u1" annBooking) "ann" annBooking)
    as (H1 & _ & H2 & _).
  - split; [reflexivity |]. split; [eexists; reflexivity |].
    split; reflexivity.
  - reflexivity.
  - intros n. reflexivity.
  - vm_compute. reflexivity.
  - split; [exact H1 |]. apply (H2 "p1" annBooking); reflexivity.
Defined.

Lemma cancel_again_keeps_cancelled_witness :
  let s := {| app := annCancelling; world := demoWorld cancelledStore |} in
  (cancelBooking s).1 = Fulfilled tt
  ∧ ∃ d', bookingsAt (UserBookings "ann")
            (firestore (world (cancelBooking s).2)) !! "u1" = Some d'
          ∧ Booking.status d' = cancelled.
Proof.
  cbn zeta.
  destruct (cancel_again_keeps_cancelled demoConfig demoDate demoISODate
              {| app := annCancelling; world := demoWorld cancelledStore |}
              (Booking.mk "u1" annBooking) "ann"
              (Booking.cancel 203001010005 annBooking))
    as (H1 & H2 & _).
  - split; [reflexivity |]. split; [eexists; reflexivity |].
    split; reflexivity.
  - intros n. reflexivity.
  - vm_compute. reflexivity.
  - reflexivity.
  - split; [exact H1 | exact H2].
Defined.

Lemma isAdmin_is_true_in_every_reachable_state_witness :
  isAdmin
    (app (run demoConfig demoDate demoISODate demoSession
            (mount demoConfig (demoWorld emptyStore))))
  = true.
Proof.
  destruct (isAdmin_is_true_in_every_reachable_state demoConfig demoDate
              demoISODate
              (run demoConfig demoDate demoISODate demoSession
                 (mount demoConfig (demoWorld emptyStore))))
    as (_ & H & _).
  - exists (demoWorld emptyStore), demoSession. reflexivity.
  - exact H.
Defined.



Lemma equipment_forms_refuse_empty_fields_witness :
  let s := {| app := editingWithoutName; world := demoWorld annStore |} in
  (∃ control, addEquipmentForm s = (Invalid control, s))
  ∧ (∃ control, editEquipmentForm s = (Invalid control, s)).
Proof.
  cbn zeta.
  destruct (equipment_forms_refuse_empty_fields
              {| app := editingWithoutName; world := demoWorld annStore |})
    as (H & _).
  destruct H as (H1 & H2 & _).
  - left. reflexivity.
  - split; [exact H1 | exact H2].
Defined.

(** *** The scenarios of the specification, run *)

(** Adjacent bookings both succeed: 10:00-10:30, then 10:30-11:00. *)
Example adjacent_bookings_both_succeed :
  size (publicBookings
          (firestore
             (submissions demoDate
                [demoClient "ann" "10:00" "10:30";
                 demoClient "bob" "10:30" "11:00"]
                (demoWorld emptyStore))))
  = 2%nat.
Proof. vm_compute. reflexivity. Qed.

(** Of the three submissions of [demoClients] the overlapping one is
    refused and the adjacent one is kept. *)
Example overlapping_submission_is_dropped :
  (λ d, (Booking.userId d, Booking.startDate d, Booking.endDate d))
  <$> (map_to_list
         (publicBookings
            (firestore (submissions demoDate demoClients (demoWorld emptyStore))))).*2
  = [("bob", 203001021000, 203001021030); ("ann", 203001020900, 203001021000)].
Proof. vm_compute. reflexivity. Qed.

(** A zero-length interval fails validation. *)
Example zero_length_is_refused :
  message (app (submitBooking demoDate
                  {| app := demoClient "ann" "10:00" "10:00";
                     world := demoWorld emptyStore |}).2)
  = "End time must be after start time.".
Proof. vm_compute. reflexivity. Qed.

(** A start before the present fails validation. *)
Example past_start_is_refused :
  let r := submitBooking demoDate
             {| app := demoClient "ann" "09:00" "09:30";
                world := laterWorld emptyStore |} in
  message (app r.2) = "Booking start time cannot be in the past."
  ∧ log (world r.2) = [].
Proof. vm_compute. split; reflexivity. Qed.

(** Against the booked 09:00-10:00, 09:30-10:30 is refused and 08:00-09:00
    is accepted. *)
Example overlap_is_refused_and_touching_is_accepted :
  let clash := submitBooking demoDate
                 {| app := demoClient "bob" "09:30" "10:30";
                    world := demoWorld annStore |} in
  let touch := submitBooking demoDate
                 {| app := demoClient "bob" "08:00" "09:00";
                    world := demoWorld annStore |} in
  message (app clash.2) = "This equipment is already booked for this time slot."
  ∧ firestore (world clash.2) = annStore
  ∧ touch.1 = Fulfilled tt
  ∧ size (publicBookings (firestore (world touch.2))) = 2%nat.
Proof. vm_compute. repeat split; reflexivity. Qed.

(** When the backend rejects the private create, the handler is rejected
    with that error, the public create is never issued and nothing is
    stored. *)
Example rejected_private_create_stops_the_submission :
  let r := submitBooking demoDate
             {| app := demoClient "bob" "10:00" "10:30";
                world := flakyWorld annStore |} in
  r.1 = Failed "unavailable"
  ∧ firestore (world r.2) = annStore
  ∧ filter (λ e, isIssuedWrite e = true) (log (world r.2))
    = [Issued (AddBookingDoc (UserBookings "bob")
                 (bookingDataOf demoDate (demoClient "bob" "10:00" "10:30")
                    microscope "bob" 203001010001))].
Proof. vm_compute. repeat split; reflexivity. Qed.

(** Cancelling mirrors: both copies of Ann's booking read back as
    cancelled, with the time of cancellation. *)
Example cancellation_reaches_both_copies :
  let fs' := firestore (world (cancelBooking
                                 {| app := annCancelling;
                                    world := demoWorld annStore |}).2) in
  publicBookings fs' !! "p1" = Some (Booking.cancel 203001010000 annBooking)
  ∧ bookingsAt (UserBookings "ann") fs' !! "u1"
    = Some (Booking.cancel 203001010001 annBooking).
Proof. vm_compute. split; reflexivity. Qed.

(** Equipment round trip: a created document reads back with its name,
    description and [createdAt]; an update rewrites the fields and sets
    [updatedAt]; a delete removes the document. *)
Example equipment_round_trip :
  let creating :=
    setEquipmentForm (EquipmentForm.mk "Scale" "Analytical")
      (demoClient "ann" "09:00" "10:00") in
  let s1 := (addEquipment {| app := creating; world := demoWorld emptyStore |}).2 in
  let editing :=
    setEquipmentForm (EquipmentForm.mk "Balance" "Analytical, 0.1 mg")
      (setEquipmentToEdit
         (Some (Equipment.mk "0" (Equipment.mk_data "Scale" "Analytical"
                                    (Some 203001010000) None)))
         (app s1)) in
  let s2 := (updateEquipment {| app := editing; world := world s1 |}).2 in
  let deleting :=
    setEquipmentToDelete
      (Some (Equipment.mk "0" (Equipment.mk_data "Balance" "Analytical, 0.1 mg"
                                 (Some 203001010000) (Some 203001010001))))
      (app s2) in
  let s3 := (deleteEquipment {| app := deleting; world := world s2 |}).2 in
  map_to_list (equipment (firestore (world s1)))
  = [("0", Equipment.mk_data "Scale" "Analytical" (Some 203001010000) None)]
  ∧ map_to_list (equipment (firestore (world s2)))
    = [("0", Equipment.mk_data "Balance" "Analytical, 0.1 mg"
               (Some 203001010000) (Some 203001010001))]
  ∧ map_to_list (equipment (firestore (world s3))) = [].
Proof. vm_compute. repeat split; reflexivity. Qed.

(** ** The rest of the component on the concrete scenario *)

Lemma booking_documents_are_never_removed_or_rewritten_witness :
  ∃ d', bookingsAt PublicBookings
          (firestore
             (session demoConfig demoDate demoISODate demoTurns
                (demoWorld annStore))) !! "p1" = Some d'
        ∧ Booking.startDate d' = 203001020900
        ∧ Booking.endDate d' = 203001021000.
Proof.
  destruct (booking_documents_are_never_removed_or_rewritten demoConfig
              demoDate demoISODate demoTurns (demoWorld annStore)
              PublicBookings "p1" annBooking)
    as (d' & Hd' & _ & _ & _ & Hs & He & _).
  - vm_compute. reflexivity.
  - exists d'. split; [exact Hd' |]. split; [exact Hs | exact He].
Defined.

Lemma every_handler_keeps_bookings_apart_witness :
  noDoubleBooking "eq1"
    (firestore
       (session demoConfig demoDate demoISODate demoTurns (demoWorld annStore))).
Proof.
  apply (every_handler_keeps_bookings_apart demoConfig demoDate demoISODate).
  intros i j a b Hij Ha Hb. cbn in Ha, Hb.
  apply lookup_singleton_Some in Ha as [<- _].
  apply lookup_singleton_Some in Hb as [<- _]. by destruct Hij.
Defined.

Lemma no_store_handle_means_no_store_call_witness :
  let s := run demoConfig demoDate demoISODate demoSession
             {| app := initialState; world := demoWorld annStore |} in
  firestore (world s) = annStore ∧ calls (world s) = 0%nat ∧ log (world s) = [].
Proof.
  cbn zeta.
  destruct (no_store_handle_means_no_store_call demoConfig demoDate
              demoISODate demoSession
              {| app := initialState; world := demoWorld annStore |})
    as (_ & _ & H1 & H2 & H3).
  - reflexivity.
  - split; [exact H1 |]. split; [exact H2 | exact H3].
Defined.

Lemma startup_with_a_key_creates_the_handles_witness :
  db (app (run demoConfig demoDate demoISODate demoSession
             (mount demoConfig (demoWorld annStore))))
  = Some (getFirestore (initializeApp demoConfig)).
Proof.
  destruct (startup_with_a_key_creates_the_handles demoConfig demoDate
              demoISODate (demoWorld annStore) demoSession None)
    as (_ & _ & H & _).
  - reflexivity.
  - exact H.
Defined.

Lemma sign_out_disarms_the_booking_handlers_witness :
  let s1 := step demoConfig demoDate demoISODate
              {| app := demoClient "ann" "09:00" "10:00";
                 world := demoWorld annStore |}
              (AuthStateChanged None) in
  userId (app s1) = None ∧ submitBooking demoDate s1 = (Fulfilled tt, s1).
Proof.
  cbn zeta.
  destruct (sign_out_disarms_the_booking_handlers demoConfig demoDate
              demoISODate
              {| app := demoClient "ann" "09:00" "10:00";
                 world := demoWorld annStore |})
    as (H1 & _ & _ & _ & H2 & _).
  - eexists. reflexivity.
  - split; [exact H1 | exact H2].
Defined.

Lemma my_bookings_are_the_private_collection_sorted_witness :
  Sorted byStartDate
    (myBookings
       (app (step demoConfig demoDate demoISODate
               {| app := demoClient "ann" "09:00" "10:00";
                  world := demoWorld annStore |}
               MyBookingsSnapshot))).
Proof.
  destruct (my_bookings_are_the_private_collection_sorted demoConfig demoDate
              demoISODate
              {| app := demoClient "ann" "09:00" "10:00";
                 world := demoWorld annStore |} "ann")
    as (H & _).
  - eexists. reflexivity.
  - reflexivity.
  - reflexivity.
  - reflexivity.
  - exact H.
Defined.

Lemma calendar_shows_the_booked_documents_witness :
  eventOf annBooking
  ∈ calendarEvents
      (app (step demoConfig demoDate demoISODate
              {| app := demoClient "ann" "09:00" "10:00";
                 world := demoWorld annStore |}
              PublicBookingsSnapshot)).
Proof.
  destruct (calendar_shows_the_booked_documents demoConfig demoDate
              demoISODate
              {| app := demoClient "ann" "09:00" "10:00";
                 world := demoWorld annStore |})
    as (_ & H & _).
  destruct H as (_ & _ & H).
  - split; [eexists; reflexivity | reflexivity].
  - apply H. exists "p1", annBooking.
    split; [vm_compute; reflexivity |]. split; reflexivity.
Defined.

Lemma equipment_list_is_the_equipment_collection_witness :
  length
    (equipmentList
       (app (step demoConfig demoDate demoISODate
               {| app := demoClient "ann" "09:00" "10:00";
                  world := demoWorld annStore |}
               EquipmentSnapshot)))
  = size (equipment annStore).
Proof.
  destruct (equipment_list_is_the_equipment_collection demoConfig demoDate
              demoISODate
              {| app := demoClient "ann" "09:00" "10:00";
                 world := demoWorld annStore |})
    as (_ & H & _).
  destruct H as (_ & _ & H).
  - split; [eexists; reflexivity | reflexivity].
  - exact H.
Defined.

Lemma addEquipment_creates_one_document_witness :
  let s := {| app := addingScale; world := demoWorld annStore |} in
  (addEquipment s).1 = Fulfilled tt
  ∧ size (equipment (firestore (world (addEquipment s).2))) = 2%nat.
Proof.
  cbn zeta.
  destruct (addEquipment_creates_one_document
              {| app := addingScale; world := demoWorld annStore |})
    as (H1 & _ & _ & _ & _ & H2 & _).
  - split; [eexists; reflexivity | reflexivity].
  - discriminate.
  - discriminate.
  - reflexivity.
  - split; [exact H1 |]. rewrite H2. vm_compute. reflexivity.
Defined.

Lemma updateEquipment_rewrites_one_document_witness :
  let s := {| app := renamingMicroscope; world := demoWorld annStore |} in
  equipment (firestore (world (updateEquipment s).2)) !! "eq1"
  = Some {| Equipment.name := "Microscope B";
            Equipment.description := "Confocal, room 2";
            Equipment.createdAt := Some 0;
            Equipment.updatedAt := Some 203001010000 |}.
Proof.
  cbn zeta.
  destruct (updateEquipment_rewrites_one_document
              {| app := renamingMicroscope; world := demoWorld annStore |}
              microscope (Equipment.fields microscope))
    as (_ & H & _).
  - split; [eexists; reflexivity | reflexivity].
  - reflexivity.
  - reflexivity.
  - vm_compute. reflexivity.
  - exact H.
Defined.

Lemma deleteEquipment_removes_one_document_only_witness :
  let s := {| app := deletingMicroscope; world := demoWorld annStore |} in
  equipment (firestore (world (deleteEquipment s).2)) !! "eq1" = None
  ∧ publicBookings (firestore (world (deleteEquipment s).2))
    = publicBookings annStore.
Proof.
  cbn zeta.
  destruct (deleteEquipment_removes_one_document_only
              {| app := deletingMicroscope; world := demoWorld annStore |}
              microscope)
    as (_ & H1 & _ & H2 & _).
  - split; [eexists; reflexivity | reflexivity].
  - reflexivity.
  - reflexivity.
  - split; [exact H1 | exact H2].
Defined.

Lemma equipment_handlers_display_store_errors_witness :
  let s := {| app := deletingMicroscope; world := downWorld annStore |} in
  (deleteEquipment s).1 = Fulfilled tt
  ∧ message (app (deleteEquipment s).2)
    = "Failed to delete equipment. Error: unavailable"
  ∧ firestore (world (deleteEquipment s).2) = annStore.
Proof.
  cbn zeta.
  destruct (equipment_handlers_display_store_errors
              {| app := deletingMicroscope; world := downWorld annStore |}
              "unavailable")
    as (_ & _ & H).
  - split; [eexists; reflexivity | reflexivity].
  - reflexivity.
  - destruct (H microscope) as (H1 & H2 & H3); [reflexivity |].
    split; [exact H1 |]. split; [| exact H3]. rewrite H2. reflexivity.
Defined.

Lemma submitBooking_does_not_catch_store_errors_witness :
  let s := {| app := demoClient "bob" "10:00" "10:30";
              world := demoWorld annStore |} in
  (submitBooking farDate s).1 = Failed (conversionError farDate s)
  ∧ app (submitBooking farDate s).2 = app s
  ∧ firestore (world (submitBooking farDate s).2) = firestore (world s).
Proof.
  cbn zeta.
  destruct (submitBooking_does_not_catch_store_errors farDate
              {| app := demoClient "bob" "10:00" "10:30";
                 world := demoWorld annStore |} microscope "bob"
              "unavailable")
    as (_ & H).
  - split; [reflexivity |]. split; [eexists; reflexivity |].
    split; reflexivity.
  - split; [apply Z.ltb_lt | apply Z.leb_le]; vm_compute; reflexivity.
  - destruct H as (H & _).
    + reflexivity.
    + unfold candidateConflicts. rewrite <- isBooked_conflicting.
      vm_compute. discriminate.
    + destruct H as (H1 & H2 & H3 & _).
      * intros [[_ H] _]. vm_compute in H. discriminate.
      * split; [exact H1 |]. split; [exact H2 | exact H3].
Defined.

Lemma addEquipment_refuses_exactly_incomplete_forms_witness :
  let s := {| app := addingScale; world := demoWorld annStore |} in
  (addEquipment s).1 = Fulfilled tt
  ∧ calls (world (addEquipment s).2) = S (calls (world s)).
Proof.
  cbn zeta.
  destruct (addEquipment_refuses_exactly_incomplete_forms
              {| app := addingScale; world := demoWorld annStore |})
    as (_ & H).
  destruct H as (H1 & H2 & _).
  - intros [H | [H | [H | H]]]; discriminate.
  - split; [exact H1 | exact H2].
Defined.

Lemma cancelBooking_does_not_catch_a_rejected_query_witness :
  let s := {| app := annCancelling; world := downWorld annStore |} in
  (cancelBooking s).1 = Failed "unavailable"
  ∧ app (cancelBooking s).2 = annCancelling
  ∧ firestore (world (cancelBooking s).2) = annStore.
Proof.
  cbn zeta.
  destruct (cancelBooking_does_not_catch_a_rejected_query
              {| app := annCancelling; world := downWorld annStore |}
              (Booking.mk "u1" annBooking) "ann" "unavailable")
    as (H1 & H2 & H3 & _).
  - split; [reflexivity |]. split; [eexists; reflexivity |].
    split; reflexivity.
  - reflexivity.
  - split; [exact H1 |]. split; [exact H2 | exact H3].
Defined.


Lemma submitting_the_same_form_twice_books_once_witness :
  let s := {| app := demoClient "bob" "10:00" "10:30";
              world := demoWorld annStore |} in
  let s1 := (submitBooking demoDate s).2 in
  let s2 := run demoConfig demoDate demoISODate
              (retyping microscope (bookingForm (app s))) s1 in
  firestore (world (submitBooking demoDate s2).2) = firestore (world s1).
Proof.
  cbn zeta.
  destruct (submitting_the_same_form_twice_books_once demoConfig demoDate
              demoISODate
              {| app := demoClient "bob" "10:00" "10:30";
                 world := demoWorld annStore |} microscope "bob")
    as (_ & _ & _ & _ & _ & _ & H & _).
  - split; [reflexivity |]. split; [eexists; reflexivity |].
    split; reflexivity.
  - split; [apply Z.ltb_lt | apply Z.leb_le]; vm_compute; reflexivity.
  - split; (split; [apply Z.leb_le | apply Z.ltb_lt]; vm_compute;
             reflexivity).
  - intros n. reflexivity.
  - unfold candidateConflicts. rewrite <- isBooked_conflicting.
    vm_compute. discriminate.
  - exact H.
Defined.

Lemma cancelling_frees_the_slot_witness :
  ¬ conflicting "eq1" 203001020930 203001021030
      (firestore
         (world (cancelBooking
                   {| app := annCancelling; world := demoWorld annStore |}).2)).
Proof.
  apply (cancelling_frees_the_slot
           {| app := annCancelling; world := demoWorld annStore |}
           (Booking.mk "u1" annBooking) "ann" annBooking).
  - split; [reflexivity |]. split; [eexists; reflexivity |].
    split; reflexivity.
  - reflexivity.
  - intros n. reflexivity.
  - vm_compute. reflexivity.
  - intros id d Hd _ _ _ _. cbn in Hd.
    apply lookup_singleton_Some in Hd as [_ <-]. reflexivity.
Defined.

Lemma cancelling_a_row_of_my_bookings_witness :
  let s := {| app := demoClient "ann" "09:00" "10:00";
              world := demoWorld annStore |} in
  let s1 := step demoConfig demoDate demoISODate s MyBookingsSnapshot in
  let s2 := step demoConfig demoDate demoISODate s1
              (OpenCancelModal (Booking.mk "u1" annBooking)) in
  (cancelBooking s2).1 = Fulfilled tt
  ∧ showCancelModal (app (cancelBooking s2).2) = false.
Proof.
  cbn zeta.
  destruct (cancelling_a_row_of_my_bookings demoConfig demoDate demoISODate
              {| app := demoClient "ann" "09:00" "10:00";
                 world := demoWorld annStore |}
              "ann" (Booking.mk "u1" annBooking))
    as (H1 & _ & H2 & _).
  - eexists; reflexivity.
  - reflexivity.
  - reflexivity.
  - reflexivity.
  - intros n. reflexivity.
  - vm_compute. apply list_elem_of_here.
  - split; [exact H1 | exact H2].
Defined.

Lemma saving_an_unedited_equipment_only_stamps_it_witness :
  let s := {| app := demoClient "ann" "09:00" "10:00";
              world := demoWorld annStore |} in
  let s1 := step demoConfig demoDate demoISODate s EquipmentSnapshot in
  let s2 := step demoConfig demoDate demoISODate s1
              (OpenEditEquipmentModal microscope) in
  (updateEquipment s2).1 = Fulfilled tt.
Proof.
  cbn zeta.
  destruct (saving_an_unedited_equipment_only_stamps_it demoConfig demoDate
              demoISODate
              {| app := demoClient "ann" "09:00" "10:00";
                 world := demoWorld annStore |} microscope)
    as (H & _).
  - split; [eexists; reflexivity | reflexivity].
  - reflexivity.
  - reflexivity.
  - vm_compute. apply list_elem_of_here.
  - exact H.
Defined.

Lemma a_stored_booking_shows_in_both_views_witness :
  let s := {| app := demoClient "bob" "10:00" "10:30";
              world := demoWorld annStore |} in
  let s1 := (submitBooking demoDate s).2 in
  let s2 := step demoConfig demoDate demoISODate s1 MyBookingsSnapshot in
  let s3 := step demoConfig demoDate demoISODate s2 PublicBookingsSnapshot in
  showBookingModal (app s3) = false.
Proof.
  cbn zeta.
  destruct (a_stored_booking_shows_in_both_views demoConfig demoDate
              demoISODate
              {| app := demoClient "bob" "10:00" "10:30";
                 world := demoWorld annStore |} microscope "bob")
    as (H & _).
  - split; [reflexivity |]. split; [eexists; reflexivity |].
    split; reflexivity.
  - split; [apply Z.ltb_lt | apply Z.leb_le]; vm_compute; reflexivity.
  - split; (split; [apply Z.leb_le | apply Z.ltb_lt]; vm_compute;
             reflexivity).
  - intros n. reflexivity.
  - unfold candidateConflicts. rewrite <- isBooked_conflicting.
    vm_compute. discriminate.
  - reflexivity.
  - exact H.
Defined.

Lemma equipment_changes_show_at_the_next_snapshot_witness :
  let s := {| app := addingScale; world := demoWorld annStore |} in
  ∃ row,
    row ∈ equipmentList
            (app (step demoConfig demoDate demoISODate
                    (step demoConfig demoDate demoISODate s AddEquipment)
                    EquipmentSnapshot))
    ∧ Equipment.fields row = newEquipment s
    ∧ equipment (firestore (world s)) !! Equipment.id row = None.
Proof.
  cbn zeta.
  destruct (equipment_changes_show_at_the_next_snapshot demoConfig demoDate
              demoISODate {| app := addingScale; world := demoWorld annStore |})
    as (H & _).
  - split; [eexists; reflexivity | reflexivity].
  - reflexivity.
  - reflexivity.
  - apply H; discriminate.
Defined.

Lemma interface_handlers_stay_inside_the_component_witness :
  let s := {| app := demoClient "ann" "09:00" "10:00";
              world := demoWorld annStore |} in
  untouched (world s)
    (world (step demoConfig demoDate demoISODate s
              (OpenBookingModal microscope))).
Proof.
  cbn zeta.
  destruct (interface_handlers_stay_inside_the_component demoConfig demoDate
              demoISODate
              {| app := demoClient "ann" "09:00" "10:00";
                 world := demoWorld annStore |}
              (OpenBookingModal microscope))
    as (H & _).
  - reflexivity.
  - exact H.
Defined.

Lemma the_shortcut_opens_the_admin_panel_for_everyone_witness :
  let s := run demoConfig demoDate demoISODate demoSession
             (mount demoConfig (demoWorld annStore)) in
  showAdminPanel
    (app (step demoConfig demoDate demoISODate s (KeyDown true true "A")))
  = negb (showAdminPanel (app s)).
Proof.
  cbn zeta.
  destruct (the_shortcut_opens_the_admin_panel_for_everyone demoConfig
              demoDate demoISODate
              (run demoConfig demoDate demoISODate demoSession
                 (mount demoConfig (demoWorld annStore)))
              true true "A")
    as (_ & H & _).
  - eexists _, _. reflexivity.
  - exact (proj1 H).
Defined.
